(** * Mailspring onboarding helpers: account autoconfiguration

    A shallow embedding of
    [app/internal_packages/onboarding/lib/onboarding-helpers.ts] and the
    properties of its provider-resolution logic.

    Conventions of the embedding.
    - A JavaScript string is a [string] holding its UTF-8 bytes (this is the
      encoding [idForAccount] feeds to the digest).
    - A JavaScript number is [NaN] or an integer; the program only handles
      port numbers and HTTP status codes.
    - Dynamically typed data (parsed XML and JSON, settings values) is a
      tree of type [JS]; a settings object is a [gmap string JS].
    - Asynchronous functions are run sequentially, as the source awaits
      every call; a computation produces the list of I/O events it performed
      and either a value or a thrown error.
    - [console.log] output is not part of the model. *)

From Stdlib Require Import ZArith List String Ascii Bool Lia DecimalString.
From stdpp Require Import base option gmap strings list fin_maps.

Import ListNotations.
Local Open Scope string_scope.
Local Open Scope list_scope.
Local Open Scope Z_scope.

(** ** Strings *)

Module Str.

Definition byte_of (c : ascii) : Z := Z.of_N (N_of_ascii c).
Definition of_byte (z : Z) : ascii := ascii_of_N (Z.to_N z).

Fixpoint bytes (s : string) : list Z :=
  match s with
  | EmptyString => []
  | String c r => byte_of c :: bytes r
  end.

Fixpoint concat_all (l : list string) : string :=
  match l with
  | [] => ""
  | s :: r => s +:+ concat_all r
  end.

(** [l.join(sep)] on a list of strings. *)
Fixpoint join (sep : string) (l : list string) : string :=
  match l with
  | [] => ""
  | [s] => s
  | s :: r => s +:+ sep +:+ join sep r
  end.

(** [s.split(c)] for a one-character separator: never empty. *)
Fixpoint split (c : ascii) (s : string) : list string :=
  match s with
  | EmptyString => [""]
  | String d r =>
      if Ascii.eqb d c then "" :: split c r
      else match split c r with
           | [] => [String d ""]
           | p :: q => String d p :: q
           end
  end.

(** [prefix p s]: does [s] start with [p]? ([s.startsWith(p)]) *)
Fixpoint startsWith (p s : string) : bool :=
  match p, s with
  | EmptyString, _ => true
  | String a p', String b s' => Ascii.eqb a b && startsWith p' s'
  | String _ _, EmptyString => false
  end.

Fixpoint drop (n : nat) (s : string) : string :=
  match n, s with
  | O, _ => s
  | S m, String _ r => drop m r
  | S _, EmptyString => ""
  end.

(** Position of the first occurrence of [pat] in [s], as the pair of the
    text before it and the text after it. *)
Fixpoint find_first (pat s : string) : option (string * string) :=
  if startsWith pat s then Some ("", drop (String.length pat) s)
  else match s with
       | EmptyString => None
       | String c r =>
           match find_first pat r with
           | Some (b, a) => Some (String c b, a)
           | None => None
           end
       end.

(** ECMAScript GetSubstitution for a string pattern (no capture groups):
    [$$] is a dollar sign, [$&] the match, [$`] the text before the match
    and [$'] the text after it; every other character stands for itself. *)
Fixpoint substitution (matched before after repl : string) : string :=
  match repl with
  | EmptyString => ""
  | String c r =>
      if Ascii.eqb c "$" then
        match r with
        | String d r' =>
            if Ascii.eqb d "$" then String "$" (substitution matched before after r')
            else if Ascii.eqb d "&" then matched +:+ substitution matched before after r'
            else if Ascii.eqb d "`" then before +:+ substitution matched before after r'
            else if Ascii.eqb d "'" then after +:+ substitution matched before after r'
            else String c (substitution matched before after r)
        | EmptyString => String c ""
        end
      else String c (substitution matched before after r)
  end.

(** [s.replace(pat, repl)] with a string pattern: first occurrence only. *)
Definition replace (pat repl s : string) : string :=
  match find_first pat s with
  | Some (b, a) => b +:+ substitution pat b a repl +:+ a
  | None => s
  end.

(** [s.includes(c)] for a one-character needle. *)
Fixpoint includes (c : ascii) (s : string) : bool :=
  match s with
  | EmptyString => false
  | String d r => Ascii.eqb d c || includes c r
  end.

Definition dquote : ascii := of_byte 34.

Definition hex_digit (z : Z) : ascii :=
  if z <? 10 then of_byte (48 + z) else of_byte (87 + z).

End Str.

(** ** JavaScript values *)

#[local] Set Warnings "-register-all".

Inductive JSNumber : Type :=
| NaN
| Int (z : Z).

Inductive JS : Type :=
| JUndef
| JNull
| JBool (b : bool)
| JNum (n : JSNumber)
| JStr (s : string)
| JArr (l : list JS)
| JObj (o : list (string * JS)).

(** Thrown values; the program never inspects them. *)
Inductive Error : Type :=
| TypeError (msg : string)
| HttpError (msg : string)
| ErrorMsg (msg : string).

Inductive Outcome (A : Type) : Type :=
| Ok (a : A)
| Throw (e : Error).
Arguments Ok {A} a.
Arguments Throw {A} e.

Module Js.

(** ToBoolean. *)
Definition truthy (v : JS) : bool :=
  match v with
  | JUndef | JNull => false
  | JBool b => b
  | JNum NaN => false
  | JNum (Int z) => negb (z =? 0)
  | JStr s => negb (String.eqb s "")
  | JArr _ | JObj _ => true
  end.

(** [a || b] *)
Definition or (a b : JS) : JS := if truthy a then a else b.

(** [v === "s"] against a string. *)
Definition eq_str (v : JS) (s : string) : bool :=
  match v with
  | JStr t => String.eqb t s
  | _ => false
  end.

(** [v === n] against an integer literal. *)
Definition eq_int (v : JSNumber) (n : Z) : bool :=
  match v with
  | Int z => z =? n
  | NaN => false
  end.

Definition is_undefined (v : JS) : bool :=
  match v with JUndef => true | _ => false end.

Definition is_false (v : JS) : bool :=
  match v with JBool false => true | _ => false end.

Definition isArray (v : JS) : bool :=
  match v with JArr _ => true | _ => false end.

Fixpoint assoc (k : string) (o : list (string * JS)) : JS :=
  match o with
  | [] => JUndef
  | (k', v) :: r => if String.eqb k' k then v else assoc k r
  end.

(** Property read [v.k] (or [v[k]]), for a key [k] that is not the name
    of a built-in member ([length], methods). Reading a property of
    [undefined] or [null] throws; primitives and arrays have no such own
    property. *)
Definition get (v : JS) (k : string) : Outcome JS :=
  match v with
  | JUndef => Throw (TypeError "Cannot read properties of undefined")
  | JNull => Throw (TypeError "Cannot read properties of null")
  | JObj o => Ok (assoc k o)
  | JBool _ | JNum _ | JStr _ | JArr _ => Ok JUndef
  end.

Definition decimal (z : Z) : string :=
  DecimalString.NilZero.string_of_int (Z.to_int z).

Definition number_to_string (n : JSNumber) : string :=
  match n with
  | NaN => "NaN"
  | Int z => decimal z
  end.

(** ToString, as performed by a template literal. *)
Fixpoint ToString (v : JS) : string :=
  match v with
  | JUndef => "undefined"
  | JNull => "null"
  | JBool true => "true"
  | JBool false => "false"
  | JNum n => number_to_string n
  | JStr s => s
  | JArr l =>
      Str.join ","
        (map (fun x => match x with
                       | JUndef | JNull => ""
                       | _ => ToString x
                       end) l)
  | JObj _ => "[object Object]"
  end.

(** QuoteJSONString on UTF-8 bytes: the quote, the backslash and the
    control characters are escaped. *)
Definition escape_char (c : ascii) : string :=
  let z := Str.byte_of c in
  if z =? 34 then String "\" (String Str.dquote "")
  else if z =? 92 then "\\"
  else if z =? 8 then "\b"
  else if z =? 12 then "\f"
  else if z =? 10 then "\n"
  else if z =? 13 then "\r"
  else if z =? 9 then "\t"
  else if z <? 32 then
    "\u00" +:+ String (Str.hex_digit (z / 16)) (String (Str.hex_digit (z mod 16)) "")
  else String c "".

Fixpoint escape (s : string) : string :=
  match s with
  | EmptyString => ""
  | String c r => escape_char c +:+ escape r
  end.

Definition quote (s : string) : string :=
  String Str.dquote (escape s) +:+ String Str.dquote "".

(** [JSON.stringify(v)] without indentation; [None] is the result
    [undefined]. A property whose value serializes to [undefined] is left
    out of an object and becomes [null] in an array. *)
Fixpoint stringify (v : JS) : option string :=
  match v with
  | JUndef => None
  | JNull => Some "null"
  | JBool true => Some "true"
  | JBool false => Some "false"
  | JNum NaN => Some "null"
  | JNum (Int z) => Some (decimal z)
  | JStr s => Some (quote s)
  | JArr l =>
      Some ("[" +:+ Str.join "," (map (fun x => default "null" (stringify x)) l) +:+ "]")
  | JObj o =>
      let member (kv : string * JS) : list string :=
        match stringify (snd kv) with
        | Some t => [quote (fst kv) +:+ ":" +:+ t]
        | None => []
        end in
      Some ("{" +:+ Str.join "," (concat (map member o)) +:+ "}")
  end.

End Js.

(** ** SHA-256 (FIPS 180-4) on 32-bit words held in [Z] *)

Module SHA256.

Definition wrap32 (x : Z) : Z := x mod 2 ^ 32.
Definition add32 (a b : Z) : Z := wrap32 (a + b).
Definition rotr (n x : Z) : Z :=
  Z.lor (Z.shiftr x n) (wrap32 (Z.shiftl x (32 - n))).
Definition not32 (x : Z) : Z := wrap32 (Z.lnot x).

Definition Ch (x y z : Z) : Z := Z.lxor (Z.land x y) (Z.land (not32 x) z).
Definition Maj (x y z : Z) : Z :=
  Z.lxor (Z.lxor (Z.land x y) (Z.land x z)) (Z.land y z).
Definition Sigma0 (x : Z) : Z := Z.lxor (Z.lxor (rotr 2 x) (rotr 13 x)) (rotr 22 x).
Definition Sigma1 (x : Z) : Z := Z.lxor (Z.lxor (rotr 6 x) (rotr 11 x)) (rotr 25 x).
Definition sigma0 (x : Z) : Z := Z.lxor (Z.lxor (rotr 7 x) (rotr 18 x)) (Z.shiftr x 3).
Definition sigma1 (x : Z) : Z := Z.lxor (Z.lxor (rotr 17 x) (rotr 19 x)) (Z.shiftr x 10).

(** The first 64 primes. *)
Definition is_prime (n : nat) : bool :=
  forallb (fun d => negb (Nat.eqb (Nat.modulo n d) 0)) (seq 2 (n - 2)).

Definition primes : list Z := Eval vm_compute in map Z.of_nat (filter is_prime (seq 2 310)).

(** [floor (2^32 * cbrt p)], found bit by bit from bit 34 down. *)
Definition cube_root_scaled (p : Z) : Z :=
  fold_left (fun x b => if (x + 2 ^ b) ^ 3 <=? p * 2 ^ 96 then x + 2 ^ b else x)
            (map Z.of_nat (rev (seq 0 35))) 0.

(** The round constants: the first 32 bits of the fractional parts of the
    cube roots of the first 64 primes. *)
Definition K : list Z := Eval vm_compute in map (fun p => wrap32 (cube_root_scaled p)) primes.

Record state : Type := State {
  h0 : Z; h1 : Z; h2 : Z; h3 : Z; h4 : Z; h5 : Z; h6 : Z; h7 : Z
}.

(** The initial hash value: the first 32 bits of the fractional parts of
    the square roots of the first 8 primes. *)
Definition square_root_fraction (p : Z) : Z := wrap32 (Z.sqrt (p * 2 ^ 64)).

Definition init : state :=
  Eval vm_compute in
    State (square_root_fraction 2) (square_root_fraction 3) (square_root_fraction 5)
          (square_root_fraction 7) (square_root_fraction 11) (square_root_fraction 13)
          (square_root_fraction 17) (square_root_fraction 19).

(** Message padding: a 1 bit, zeros up to 56 mod 64 bytes, then the bit
    length as a 64-bit big-endian integer. *)
Definition be_bytes (n : nat) (x : Z) : list Z :=
  map (fun i => Z.shiftr x (8 * Z.of_nat i) mod 256) (rev (seq 0 n)).

Definition pad (msg : list Z) : list Z :=
  let len := Z.of_nat (List.length msg) in
  let zeros := Z.to_nat ((55 - len) mod 64) in
  msg ++ [128] ++ repeat 0 zeros ++ be_bytes 8 (8 * len).

Fixpoint words (n : nat) (l : list Z) : list Z :=
  match n with
  | O => []
  | S m =>
      match l with
      | a :: b :: c :: d :: r =>
          (Z.shiftl a 24 + Z.shiftl b 16 + Z.shiftl c 8 + d) :: words m r
      | _ => []
      end
  end.

(** The message schedule: [w] holds W[0..t-1] and grows by [n] words. *)
Fixpoint schedule (n : nat) (w : list Z) : list Z :=
  match n with
  | O => w
  | S m =>
      let t := List.length w in
      let at_ (k : nat) := nth (t - k) w 0 in
      schedule m
        (w ++ [add32 (add32 (sigma1 (at_ 2%nat)) (at_ 7%nat))
                     (add32 (sigma0 (at_ 15%nat)) (at_ 16%nat))])
  end.

Definition round (s : state) (kw : Z * Z) : state :=
  let '(k, w) := kw in
  let t1 := add32 (add32 (add32 (h7 s) (Sigma1 (h4 s))) (Ch (h4 s) (h5 s) (h6 s)))
                  (add32 k w) in
  let t2 := add32 (Sigma0 (h0 s)) (Maj (h0 s) (h1 s) (h2 s)) in
  State (add32 t1 t2) (h0 s) (h1 s) (h2 s) (add32 (h3 s) t1) (h4 s) (h5 s) (h6 s).

Definition compress (s : state) (block : list Z) : state :=
  let w := schedule 48 (words 16 block) in
  let r := fold_left round (combine K w) s in
  State (add32 (h0 s) (h0 r)) (add32 (h1 s) (h1 r)) (add32 (h2 s) (h2 r))
        (add32 (h3 s) (h3 r)) (add32 (h4 s) (h4 r)) (add32 (h5 s) (h5 r))
        (add32 (h6 s) (h6 r)) (add32 (h7 s) (h7 r)).

Fixpoint blocks (n : nat) (s : state) (l : list Z) : state :=
  match n with
  | O => s
  | S m => blocks m (compress s (firstn 64 l)) (skipn 64 l)
  end.

Definition digest (msg : list Z) : state :=
  let p := pad msg in
  blocks (List.length p / 64) init p.

Definition hex_nibble (x : Z) (shift : Z) (rest : string) : string :=
  String (Str.hex_digit (Z.shiftr x shift mod 16)) rest.

Definition hex_word (x : Z) (rest : string) : string :=
  hex_nibble x 28 (hex_nibble x 24 (hex_nibble x 20 (hex_nibble x 16
    (hex_nibble x 12 (hex_nibble x 8 (hex_nibble x 4 (hex_nibble x 0 rest))))))).

(** [createHash('sha256').update(s, 'utf8').digest('hex')] *)
Definition hex (s : string) : string :=
  let d := digest (Str.bytes s) in
  hex_word (h0 d) (hex_word (h1 d) (hex_word (h2 d) (hex_word (h3 d)
    (hex_word (h4 d) (hex_word (h5 d) (hex_word (h6 d) (hex_word (h7 d) ""))))))).

End SHA256.

(** ** Computations: I/O events and thrown errors *)

(** Functions of the host environment whose definition is part of the
    ECMAScript runtime, not of this program. The patterns given to
    [regexp_test] come from the static provider table and are taken to be
    valid regular expressions. *)
Class JSRuntime : Type := {
  toLowerCase : string -> string;
  trim : string -> string;
  (** [new RegExp(source).test(subject)] *)
  regexp_test : string -> string -> bool;
  (** [Number(s)] on a string *)
  StringToNumber : string -> JSNumber;
  encodeURIComponent : string -> string
}.

Definition obind {A B : Type} (o : Outcome A) (k : A -> Outcome B) : Outcome B :=
  match o with
  | Ok a => k a
  | Throw e => Throw e
  end.

Declare Scope js_scope.
Delimit Scope js_scope with js.
Notation "x <~ o ;; k" := (obind o (fun x => k))
  (at level 100, o at next level, right associativity) : js_scope.

Section Monad.
Context {Event : Type}.

(** The events performed, oldest first, and the completion. *)
Definition M (A : Type) : Type := list Event * Outcome A.

Definition ret {A : Type} (a : A) : M A := ([], Ok a).
Definition throw {A : Type} (e : Error) : M A := ([], Throw e).
Definition emit (ev : Event) : M unit := ([ev], Ok tt).
Definition lift {A : Type} (o : Outcome A) : M A := ([], o).

Definition bind {A B : Type} (m : M A) (k : A -> M B) : M B :=
  match m with
  | (l, Ok a) => let (l', r) := k a in (l ++ l', r)
  | (l, Throw e) => (l, Throw e)
  end.

(** [try { m } catch (error) { h }] *)
Definition catch {A : Type} (m : M A) (h : M A) : M A :=
  match m with
  | (l, Ok a) => (l, Ok a)
  | (l, Throw _) => let (l', r) := h in (l ++ l', r)
  end.

Definition events {A : Type} (m : M A) : list Event := fst m.
Definition outcome {A : Type} (m : M A) : Outcome A := snd m.
End Monad.

Notation "x <- m ;; k" := (bind m (fun x => k))
  (at level 100, m at next level, right associativity) : js_scope.
Notation "m ;;; k" := (bind m (fun _ => k))
  (at level 100, right associativity) : js_scope.

(** ** Data model *)

(** An entry of [mailcore-provider-settings.json]: a server of
    [servers.imap] or [servers.smtp]. An absent flag reads as [false]. *)
Record MailcoreServer : Type := {
  hostname : option string;
  port : JS;
  starttls : bool;
  ssl : bool;
  tls : bool
}.

Definition no_server : MailcoreServer :=
  {| hostname := None; port := JUndef; starttls := false; ssl := false; tls := false |}.

(** A provider of [mailcore-provider-settings.json]; an absent list is
    empty, as [p['domain-match'] || []] reads it. *)
Record MailcoreProvider : Type := {
  domain_match : list string;
  mx_match : list string;
  servers_imap : list MailcoreServer;
  servers_smtp : list MailcoreServer
}.

(** An entry of [mailspring-provider-settings.json]. *)
Record Preset : Type := {
  alias : option string;
  imap_host : option string;
  imap_port : JS;
  imap_security : JS;
  imap_user_format : JS;
  imap_allow_insecure_ssl : JS;
  smtp_host : option string;
  smtp_port : JS;
  smtp_security : JS;
  smtp_user_format : JS;
  smtp_allow_insecure_ssl : JS;
  container_folder : JS
}.

(** Modelled from the spec: the [Account] entity (its class comes from
    [mailspring-exports]), with the attributes of the data model:
    [emailAddress], [provider], [settings], [id], [label], [authedAt], and
    the [name] the OAuth builders pass to its constructor. *)
Record Account : Type := {
  name : JS;
  emailAddress : string;
  provider : string;
  settings : gmap string JS;
  id : option string;
  label : option string;
  authedAt : option Z
}.

Definition set_settings (a : Account) (s : gmap string JS) : Account :=
  {| name := name a; emailAddress := emailAddress a; provider := provider a;
     settings := s; id := id a; label := label a; authedAt := authedAt a |}.

Definition set_id (a : Account) (i : string) : Account :=
  {| name := name a; emailAddress := emailAddress a; provider := provider a;
     settings := settings a; id := Some i; label := label a; authedAt := authedAt a |}.

Definition set_label (a : Account) (l : string) : Account :=
  {| name := name a; emailAddress := emailAddress a; provider := provider a;
     settings := settings a; id := id a; label := Some l; authedAt := authedAt a |}.

Definition set_authedAt (a : Account) (t : Z) : Account :=
  {| name := name a; emailAddress := emailAddress a; provider := provider a;
     settings := settings a; id := id a; label := label a; authedAt := Some t |}.

(** Modelled from the spec: [account.clone()], a method of the [Account]
    class; the copy has the attributes of the original and shares no
    settings object with it. *)
Definition clone (a : Account) : Account := a.

(** [settings.k]: a missing property reads as [undefined]. *)
Definition prop (s : gmap string JS) (k : string) : JS := default JUndef (s !! k).

(** [Object.assign(defaults, existing)]: every own property of [existing]
    is written onto [defaults]. *)
Definition Object_assign (defaults existing : gmap string JS) : gmap string JS :=
  existing ∪ defaults.

Record MxRecord : Type := { exchange : string; priority : Z }.

Record Request : Type := {
  method : string;
  url : string;
  body : option string;
  headers : list (string * string)
}.

Definition GET (u : string) : Request :=
  {| method := "GET"; url := u; body := None; headers := [] |}.

(** A response of [fetch]; [text] and [json] are what [response.text()]
    and [response.json()] resolve to, [None] when they reject. *)
Record Response : Type := {
  ok : bool;
  status : Z;
  statusText : string;
  text : option string;
  json : option JS
}.

Inductive Event : Type :=
| EvResolveMx (domain : string)
| EvFetch (r : Request)
| EvMailsyncTest (a : Account).

(** What the program imports and calls but does not define: the two
    static tables (JSON files), the constants of [onboarding-constants],
    the DNS resolver, [fetch], the XML parser, [AccountStore]'s default
    container folder, the [MailsyncProcess] connection test, the clock and
    [localized]. *)
Record Env : Type := {
  MailcoreProviderSettings : list MailcoreProvider;
  MailspringProviderSettings : gmap string Preset;
  (** [dns.resolveMx]: [None] when the callback receives an error *)
  resolveMx : string -> option (list MxRecord);
  (** [fetch]: [None] when the request fails *)
  fetch : Request -> option Response;
  (** [parseStringPromise] of xml2js: [None] when it rejects *)
  parseStringPromise : string -> option JS;
  containerFolderDefaultGetter : string;
  (** [MailsyncProcess.test()]: [Some e] when it rejects *)
  mailsync_test : Account -> option Error;
  now : Z;
  localized : string -> string;
  GMAIL_CLIENT_ID : string;
  GMAIL_CLIENT_SECRET : string;
  LOCAL_SERVER_PORT : JS;
  O365_SCOPES : list string;
  O365_CLIENT_ID : string;
  CODE_VERIFIER : string
}.

(** ** The program *)

Local Open Scope js_scope.

Section Program.
Context {rt : JSRuntime} (env : Env).

(** [Number(v)] *)
Definition Number (v : JS) : JSNumber :=
  match v with
  | JUndef => NaN
  | JNull => Int 0
  | JBool b => Int (if b then 1 else 0)
  | JNum n => n
  | JStr s => StringToNumber s
  | JArr _ | JObj _ => StringToNumber (Js.ToString v)
  end.

Definition idForAccount (emailAddress : JS) (connectionSettings : gmap string JS) : string :=
  let settingsThatCouldChangeMailContents :=
    JObj [ ("imap_username", prop connectionSettings "imap_username");
           ("imap_host", prop connectionSettings "imap_host");
           ("smtp_username", prop connectionSettings "smtp_username");
           ("smtp_host", prop connectionSettings "smtp_host") ] in
  let idString :=
    Js.ToString emailAddress
    +:+ default "undefined" (Js.stringify settingsThatCouldChangeMailContents) in
  String.substring 0 8 (SHA256.hex idString).

Definition fetchPostWithFormBody (u : string) (form : list (string * string)) : M JS :=
  let req :=
    {| method := "POST"; url := u;
       body := Some (Str.join "&"
                 (map (fun kv => encodeURIComponent (fst kv) +:+ "="
                                 +:+ encodeURIComponent (snd kv)) form));
       headers := [("Content-Type", "application/x-www-form-urlencoded;charset=UTF-8")] |} in
  emit (EvFetch req) ;;;
  match fetch env req with
  | None => throw (HttpError "fetch failed")
  | Some resp =>
      match json resp with
      | None => throw (ErrorMsg "invalid json response body")
      | Some j =>
          let j' := Js.or j (JObj []) in
          if negb (ok resp)
          then throw (HttpError "OAuth Code exchange returned an error status")
          else ret j'
      end
  end.

Definition mxRecordsForDomain (domain : string) : M (list string) :=
  emit (EvResolveMx domain) ;;;
  match resolveMx env domain with
  | None => ret []
  | Some addresses => ret (map (fun a => toLowerCase (exchange a)) addresses)
  end.

(** [emailAddress.split('@').pop().toLowerCase()] *)
Definition domain_of (emailAddress : string) : string :=
  toLowerCase (List.last (Str.split "@" emailAddress) "").

(** [emailAddress.split('@').shift()], also [emailAddress.split('@')[0]] *)
Definition local_part (emailAddress : string) : string :=
  List.hd "" (Str.split "@" emailAddress).

Definition usernameWithFormat (account : Account) (format : JS) : JS :=
  if Js.eq_str format "email" then JStr (emailAddress account)
  else if Js.eq_str format "email-without-domain" then JStr (local_part (emailAddress account))
  else JUndef.

Definition anchored (test : string) : string := "^" +:+ test +:+ "$".

(** The predicate given to [find] over the structured table. *)
Definition mailcore_matches (domain : string) (mxRecords : list string)
    (p : MailcoreProvider) : bool :=
  existsb (fun test => regexp_test (anchored test) domain) (domain_match p)
  || existsb (fun test => existsb (fun record => regexp_test (anchored test) record) mxRecords)
       (mx_match p).

Definition mailcore_security (s : MailcoreServer) : string :=
  if starttls s then "STARTTLS"
  else if ssl s || tls s then "SSL / TLS"
  else "none".

Definition mailcore_defaults (account populated : Account) (domain : string)
    (template : MailcoreProvider) : gmap string JS :=
  let imap := List.hd no_server (servers_imap template) in
  let smtp := List.hd no_server (servers_smtp template) in
  <[ "imap_host" := JStr (Str.replace "{domain}" domain (default "" (hostname imap))) ]>
  (<[ "imap_port" := port imap ]>
  (<[ "imap_username" := usernameWithFormat account (JStr "email") ]>
  (<[ "imap_password" := prop (settings populated) "imap_password" ]>
  (<[ "imap_security" := JStr (mailcore_security imap) ]>
  (<[ "imap_allow_insecure_ssl" := JBool false ]>
  (<[ "smtp_host" := JStr (Str.replace "{domain}" domain (default "" (hostname smtp))) ]>
  (<[ "smtp_port" := port smtp ]>
  (<[ "smtp_username" := usernameWithFormat account (JStr "email") ]>
  (<[ "smtp_password" := Js.or (prop (settings populated) "smtp_password")
                               (prop (settings populated) "imap_password") ]>
  (<[ "smtp_security" := JStr (mailcore_security smtp) ]>
  (<[ "smtp_allow_insecure_ssl" := JBool false ]>
  (<[ "container_folder" := JStr "" ]> ∅)))))))))))).

(** *** Remote autoconfig document *)

Definition getThunderbirdAutoconfig (u : string) : M JS :=
  catch
    (emit (EvFetch (GET u)) ;;;
     match fetch env (GET u) with
     | None => throw (HttpError "fetch failed")
     | Some response =>
         if negb (ok response) then throw (ErrorMsg "HTTP error!")
         else
           match text response with
           | None => throw (HttpError "body read failed")
           | Some b =>
               match parseStringPromise env b with
               | None => throw (ErrorMsg "xml parse error")
               | Some parsedBody => ret parsedBody
               end
           end
     end)
    (ret (JBool false)).

Record ServerDetails : Type := {
  host : JS;
  sd_port : JS;
  username : string;
  security : string
}.

Definition extractServerDetails (server : JS) (account : Account) : Outcome ServerDetails :=
  h <~ Js.get server "hostname" ;;
  p <~ Js.get server "port" ;;
  u <~ Js.get server "username" ;;
  t <~ Js.get server "socketType" ;;
  Ok {| host := h;
        sd_port := p;
        username := if Js.eq_str u "%EMAILLOCALPART%"
                    then local_part (emailAddress account)
                    else emailAddress account;
        security := if Js.eq_str t "plain" then "None"
                    else if Js.eq_str t "STARTTLS" then "STARTTLS"
                    else if Js.eq_str t "SSL" then "SSL / TLS"
                    else "STARTTLS" |}.

(** [server.$.type === type] *)
Definition has_type (type : string) (server : JS) : Outcome bool :=
  attrs <~ Js.get server "$" ;;
  ty <~ Js.get attrs "type" ;;
  Ok (Js.eq_str ty type).

(** The [for ... of] loop over an array of servers, left at the first
    entry of the wanted type. *)
Fixpoint scan_servers (type : string) (account : Account) (l : list JS)
    : Outcome (option ServerDetails) :=
  match l with
  | [] => Ok None
  | server :: rest =>
      b <~ has_type type server ;;
      if (b : bool) then d <~ extractServerDetails server account ;; Ok (Some d)
      else scan_servers type account rest
  end.

Definition select_server (type : string) (account : Account) (servers : JS)
    : Outcome (option ServerDetails) :=
  match servers with
  | JArr l => scan_servers type account l
  | _ =>
      b <~ has_type type servers ;;
      if (b : bool) then d <~ extractServerDetails servers account ;; Ok (Some d)
      else Ok None
  end.

(** [provider.find(p => p.$.id === domain)] *)
Fixpoint find_provider (domain : string) (l : list JS) : Outcome (option JS) :=
  match l with
  | [] => Ok None
  | p :: rest =>
      attrs <~ Js.get p "$" ;;
      i <~ Js.get attrs "id" ;;
      if Js.eq_str i domain then Ok (Some p) else find_provider domain rest
  end.

(** [emailProvider] may be one provider or an array of them. *)
Definition select_provider (domain : string) (ep : JS) : Outcome (option JS) :=
  match ep with
  | JArr l => find_provider domain l
  | _ => Ok (Some ep)
  end.

Definition autoconfig_settings (populated : Account) (domain : string)
    (imapDetails smtpDetails : option ServerDetails) : gmap string JS :=
  let opt {A} (f : ServerDetails -> A) (inj : A -> JS) (d : option ServerDetails) : JS :=
    match d with Some x => inj (f x) | None => JUndef end in
  <[ "imap_host" := Js.or (opt host (fun v => v) imapDetails) (JStr ("imap." +:+ domain)) ]>
  (<[ "imap_port" := opt sd_port (fun v => v) imapDetails ]>
  (<[ "imap_username" := opt username JStr imapDetails ]>
  (<[ "imap_password" := prop (settings populated) "imap_password" ]>
  (<[ "imap_security" := opt security JStr imapDetails ]>
  (<[ "imap_allow_insecure_ssl" := JBool false ]>
  (<[ "smtp_host" := Js.or (opt host (fun v => v) smtpDetails) (JStr ("smtp." +:+ domain)) ]>
  (<[ "smtp_port" := opt sd_port (fun v => v) smtpDetails ]>
  (<[ "smtp_username" := opt username JStr smtpDetails ]>
  (<[ "smtp_password" := Js.or (prop (settings populated) "smtp_password")
                               (prop (settings populated) "imap_password") ]>
  (<[ "smtp_security" := opt security JStr smtpDetails ]>
  (<[ "smtp_allow_insecure_ssl" := JBool false ]>
  (<[ "container_folder" := JStr "" ]> ∅)))))))))))).

(** What [TryThunderbirdAutoconfig] does with the document it obtained:
    [None] is the result [false], [Some p] the updated [populated]. *)
Definition interpret_autoconfig (populated account : Account) (domain : string)
    (autoConfig : JS) : Outcome (option Account) :=
  if Js.is_false autoConfig then Ok None
  else
    ep <~ Js.get autoConfig "emailProvider" ;;
    if negb (Js.truthy ep) then Ok None
    else
      selected <~ select_provider domain ep ;;
      match selected with
      | None => Ok None
      | Some provider =>
          incoming <~ Js.get provider "incomingServer" ;;
          if Js.is_undefined incoming then Ok None
          else
            outgoing <~ Js.get provider "outgoingServer" ;;
            if Js.is_undefined outgoing then Ok None
            else
              imapDetails <~ select_server "imap" account incoming ;;
              smtpDetails <~ select_server "smtp" account outgoing ;;
              Ok (Some (set_settings populated
                          (Object_assign
                             (autoconfig_settings populated domain imapDetails smtpDetails)
                             (settings populated))))
      end.

Definition autoconfig_url_1 (domain : string) : string :=
  "https://autoconfig." +:+ domain +:+ "/mail/config-v1.1.xml".
Definition autoconfig_url_2 (domain : string) : string :=
  "https://" +:+ domain +:+ "/.well-known/autoconfig/mail/config-v1.1.xml".

Definition TryThunderbirdAutoconfig (populated account : Account) : M (option Account) :=
  let domain := domain_of (emailAddress account) in
  autoConfig <- getThunderbirdAutoconfig (autoconfig_url_1 domain) ;;
  autoConfig <- (if Js.is_false autoConfig
                 then getThunderbirdAutoconfig (autoconfig_url_2 domain)
                 else ret autoConfig) ;;
  lift (interpret_autoconfig populated account domain autoConfig).

(** *** Preset table *)

(** The template generated when neither the domain nor the provider is a
    key of the preset table. *)
Definition fallback_template (domain : string) : Preset :=
  {| alias := None;
     imap_host := Some ("imap." +:+ domain);
     imap_port := JUndef;
     imap_security := JUndef;
     imap_user_format := JStr "email";
     imap_allow_insecure_ssl := JUndef;
     smtp_host := Some ("smtp." +:+ domain);
     smtp_port := JUndef;
     smtp_security := JUndef;
     smtp_user_format := JStr "email";
     smtp_allow_insecure_ssl := JUndef;
     container_folder := JStr "" |}.

Definition alias_truthy (p : Preset) : option string :=
  match alias p with
  | Some a => if String.eqb a "" then None else Some a
  | None => None
  end.

(** The names every plain object inherits from [Object.prototype]. *)
Definition Object_prototype_members : list string :=
  [ "constructor"; "__proto__"; "__defineGetter__"; "__defineSetter__";
    "__lookupGetter__"; "__lookupSetter__"; "hasOwnProperty"; "isPrototypeOf";
    "propertyIsEnumerable"; "toLocaleString"; "toString"; "valueOf" ].

(** What such a member is to this program: a function, or the prototype
    itself, that is a truthy value with none of an entry's properties. *)
Definition inherited_member : Preset :=
  {| alias := None;
     imap_host := None;
     imap_port := JUndef;
     imap_security := JUndef;
     imap_user_format := JUndef;
     imap_allow_insecure_ssl := JUndef;
     smtp_host := None;
     smtp_port := JUndef;
     smtp_security := JUndef;
     smtp_user_format := JUndef;
     smtp_allow_insecure_ssl := JUndef;
     container_folder := JUndef |}.

Definition inherited (k : string) : bool :=
  existsb (String.eqb k) Object_prototype_members.

(** [MailspringProviderSettings[k]]. The table is the plain object of a
    JSON file: a name that is no key of its own is looked up in
    [Object.prototype]. [None] is [undefined]. *)
Definition table_get (k : string) : option Preset :=
  match MailspringProviderSettings env !! k with
  | Some p => Some p
  | None => if inherited k then Some inherited_member else None
  end.

(** The value of [mstemplate] before its fields are read; [None] is
    [undefined], the result of an alias that names nothing. *)
Definition select_mstemplate (domain : string) (account : Account) : option Preset :=
  match (match table_get domain with
         | Some p => Some p
         | None => table_get (provider account)
         end) with
  | Some p =>
      match alias_truthy p with
      | Some a => table_get a
      | None => Some p
      end
  | None => Some (fallback_template domain)
  end.

Definition infer_imap (port0 : JSNumber) (security0 : JS) : JSNumber * JS :=
  if negb (Js.truthy security0) && negb (Js.truthy (JNum port0))
  then (Int 993, JStr "SSL / TLS")
  else if negb (Js.truthy security0) && Js.truthy (JNum port0)
  then (port0, if Js.eq_int port0 993 then JStr "SSL / TLS" else JStr "none")
  else if Js.truthy security0 && negb (Js.truthy (JNum port0))
  then (if Js.eq_str security0 "SSL / TLS" then Int 993 else Int 143, security0)
  else (port0, security0).

Definition infer_smtp (port0 : JSNumber) (security0 : JS) : JSNumber * JS :=
  if negb (Js.truthy security0) && negb (Js.truthy (JNum port0))
  then (Int 465, JStr "SSL / TLS")
  else if negb (Js.truthy security0) && Js.truthy (JNum port0)
  then (port0,
        if Js.eq_int port0 587 then JStr "STARTTLS"
        else if Js.eq_int port0 465 then JStr "SSL / TLS"
        else JStr "none")
  else if Js.truthy security0 && negb (Js.truthy (JNum port0))
  then (if Js.eq_str security0 "STARTTLS" then Int 587
        else if Js.eq_str security0 "SSL / TLS" then Int 465
        else Int 25,
        security0)
  else (port0, security0).

Definition preset_defaults (account populated : Account) (domain : string)
    (mstemplate : Preset) (imap_host0 smtp_host0 : string) : gmap string JS :=
  let '(imap_port1, imap_security1) :=
    infer_imap (Number (imap_port mstemplate)) (imap_security mstemplate) in
  let '(smtp_port1, smtp_security1) :=
    infer_smtp (Number (smtp_port mstemplate)) (smtp_security mstemplate) in
  <[ "imap_host" := JStr (Str.replace "%EMAILDOMAIN%" domain imap_host0) ]>
  (<[ "imap_port" := JNum imap_port1 ]>
  (<[ "imap_username" := usernameWithFormat account (imap_user_format mstemplate) ]>
  (<[ "imap_password" := prop (settings populated) "imap_password" ]>
  (<[ "imap_security" := imap_security1 ]>
  (<[ "imap_allow_insecure_ssl" := Js.or (imap_allow_insecure_ssl mstemplate) (JBool false) ]>
  (<[ "smtp_host" := JStr (Str.replace "%EMAILDOMAIN%" domain smtp_host0) ]>
  (<[ "smtp_port" := JNum smtp_port1 ]>
  (<[ "smtp_username" := usernameWithFormat account (smtp_user_format mstemplate) ]>
  (<[ "smtp_password" := Js.or (prop (settings populated) "smtp_password")
                               (prop (settings populated) "imap_password") ]>
  (<[ "smtp_security" := smtp_security1 ]>
  (<[ "smtp_allow_insecure_ssl" := Js.or (smtp_allow_insecure_ssl mstemplate) (JBool false) ]>
  (<[ "container_folder" := container_folder mstemplate ]> ∅)))))))))))).

(** The ProtonMail rule applied to the merged settings. *)
Definition container_folder_override (s : gmap string JS) : gmap string JS :=
  let containerFolderDefault := containerFolderDefaultGetter env in
  if negb (String.eqb containerFolderDefault "Mailspring")
     && (Js.eq_str (prop s "container_folder") ""
         || Js.is_undefined (prop s "container_folder"))
  then <[ "container_folder" := JStr containerFolderDefault ]> s
  else s.

(** Lines 149-220: the part of [expandAccountWithCommonSettings] after
    both earlier sources gave nothing. *)
Definition preset_path (account populated : Account) (domain : string) : Outcome Account :=
  match select_mstemplate domain account with
  | None => Throw (TypeError "Cannot read properties of undefined (reading 'imap_port')")
  | Some mstemplate =>
      match imap_host mstemplate, smtp_host mstemplate with
      | Some ih, Some sh =>
          Ok (set_settings populated
                (container_folder_override
                   (Object_assign
                      (preset_defaults account populated domain mstemplate ih sh)
                      (settings populated))))
      | _, _ => Throw (TypeError "Cannot read properties of undefined (reading 'replace')")
      end
  end.

Definition expandAccountWithCommonSettings (account : Account) : M Account :=
  let domain := domain_of (emailAddress account) in
  mxRecords <- mxRecordsForDomain domain ;;
  let populated := clone account in
  match List.find (mailcore_matches domain mxRecords) (MailcoreProviderSettings env) with
  | Some template =>
      ret (set_settings populated
             (Object_assign (mailcore_defaults account populated domain template)
                            (settings populated)))
  | None =>
      r <- TryThunderbirdAutoconfig populated account ;;
      match r with
      | Some populated' => ret populated'
      | None => lift (preset_path account populated domain)
      end
  end.

(** *** Finalizer and OAuth builders *)

Definition trim_host (k : string) (s : gmap string JS) : Outcome (gmap string JS) :=
  if Js.truthy (prop s k) then
    match prop s k with
    | JStr h => Ok (<[ k := JStr (trim h) ]> s)
    | _ => Throw (TypeError "trim is not a function")
    end
  else Ok s.

(** [settings.k /= 1] when the port is set. *)
Definition coerce_port (k : string) (s : gmap string JS) : gmap string JS :=
  if Js.truthy (prop s k) then <[ k := JNum (Number (prop s k)) ]> s else s.

(** [if (account.label && account.label.includes('@'))] *)
Definition normalize_label (account : Account) : Account :=
  match label account with
  | Some l => if negb (String.eqb l "") && Str.includes "@" l
              then set_label account (emailAddress account)
              else account
  | None => account
  end.

Definition finalizeAndValidateAccount (account : Account) : M Account :=
  s1 <- lift (trim_host "imap_host" (settings account)) ;;
  s2 <- lift (trim_host "smtp_host" s1) ;;
  let account := set_settings account s2 in
  let account := set_id account (idForAccount (JStr (emailAddress account)) (settings account)) in
  let s3 := <[ "username" := Js.or (prop (settings account) "username")
                                   (prop (settings account) "email") ]> (settings account) in
  let s4 := coerce_port "smtp_port" (coerce_port "imap_port" s3) in
  let account := set_settings account s4 in
  let account := normalize_label account in
  emit (EvMailsyncTest account) ;;;
  match mailsync_test env account with
  | Some e => throw e
  | None => ret (set_authedAt account (now env))
  end.

(** [new Account({ name, emailAddress, provider, settings })] *)
Definition new_Account (n : JS) (e p : string) (s : gmap string JS) : Account :=
  {| name := n; emailAddress := e; provider := p; settings := s;
     id := None; label := None; authedAt := None |}.

(** The profile's address becomes [account.emailAddress]; the first
    statement of [expandAccountWithCommonSettings] calls its [split]
    method, which only a string has. *)
Definition as_address (v : JS) : Outcome string :=
  match v with
  | JStr s => Ok s
  | JUndef | JNull => Throw (TypeError "Cannot read properties of undefined (reading 'split')")
  | _ => Throw (TypeError "split is not a function")
  end.

Definition bearer_request (u : string) (access_token : JS) : Request :=
  {| method := "GET"; url := u; body := None;
     headers := [("Authorization", "Bearer " +:+ Js.ToString access_token)] |}.

(** The profile request shared by both builders: [fetch], [json()], then
    the status check. *)
Definition fetch_profile (u : string) (access_token : JS) (what : string) : M JS :=
  emit (EvFetch (bearer_request u access_token)) ;;;
  match fetch env (bearer_request u access_token) with
  | None => throw (HttpError "fetch failed")
  | Some meResp =>
      match json meResp with
      | None => throw (ErrorMsg "invalid json response body")
      | Some me => if negb (ok meResp) then throw (HttpError what) else ret me
      end
  end.

Definition buildGmailAccountFromAuthResponse (code : string) : M Account :=
  tokens <- fetchPostWithFormBody "https://www.googleapis.com/oauth2/v4/token"
              [ ("code", code);
                ("client_id", GMAIL_CLIENT_ID env);
                ("client_secret", GMAIL_CLIENT_SECRET env);
                ("redirect_uri", "http://127.0.0.1:" +:+ Js.ToString (LOCAL_SERVER_PORT env));
                ("grant_type", "authorization_code") ] ;;
  access_token <- lift (Js.get tokens "access_token") ;;
  refresh_token <- lift (Js.get tokens "refresh_token") ;;
  me <- fetch_profile "https://www.googleapis.com/oauth2/v1/userinfo?alt=json"
          access_token "Gmail profile request returned an error status" ;;
  me_name <- lift (Js.get me "name") ;;
  me_email <- lift (Js.get me "email") ;;
  address <- lift (as_address me_email) ;;
  account <- expandAccountWithCommonSettings
               (new_Account me_name address "gmail"
                  (<[ "refresh_client_id" := JStr (GMAIL_CLIENT_ID env) ]>
                   (<[ "refresh_token" := refresh_token ]> ∅))) ;;
  let account := set_id account (idForAccount me_email (settings account)) in
  finalizeAndValidateAccount account.

Definition buildMicrosoftAccountFromAuthResponse (code : string) (provider : string)
    : M Account :=
  tokens <- fetchPostWithFormBody "https://login.microsoftonline.com/common/oauth2/v2.0/token"
              [ ("code", code);
                ("scope", Str.join " "
                   (filter (fun f => negb (Str.startsWith "https://outlook.office.com" f))
                           (O365_SCOPES env)));
                ("client_id", O365_CLIENT_ID env);
                ("code_verifier", CODE_VERIFIER env);
                ("grant_type", "authorization_code");
                ("redirect_uri", "http://localhost:" +:+ Js.ToString (LOCAL_SERVER_PORT env)
                                 +:+ "/desktop") ] ;;
  access_token <- lift (Js.get tokens "access_token") ;;
  refresh_token <- lift (Js.get tokens "refresh_token") ;;
  me <- fetch_profile "https://graph.microsoft.com/v1.0/me"
          access_token "O365 profile request returned an error status" ;;
  me_mail <- lift (Js.get me "mail") ;;
  if negb (Js.truthy me_mail)
  then throw (ErrorMsg (localized env "There is no email mailbox associated with this account."))
  else
    me_displayName <- lift (Js.get me "displayName") ;;
    address <- lift (as_address me_mail) ;;
    account <- expandAccountWithCommonSettings
                 (new_Account me_displayName address provider
                    (<[ "refresh_client_id" := JStr (O365_CLIENT_ID env) ]>
                     (<[ "refresh_token" := refresh_token ]> ∅))) ;;
    me_email <- lift (Js.get me "email") ;;
    let account := set_id account (idForAccount me_email (settings account)) in
    finalizeAndValidateAccount account.

Definition buildO365AccountFromAuthResponse (code : string) : M Account :=
  buildMicrosoftAccountFromAuthResponse code "office365".

Definition buildOutlookAccountFromAuthResponse (code : string) : M Account :=
  buildMicrosoftAccountFromAuthResponse code "outlook".

End Program.

(** ** A concrete runtime and environment, for running the model *)

Module Demo.

Definition lower_char (c : ascii) : ascii :=
  let z := Str.byte_of c in
  if (65 <=? z) && (z <=? 90) then Str.of_byte (z + 32) else c.

Fixpoint lower (s : string) : string :=
  match s with
  | EmptyString => ""
  | String c r => String (lower_char c) (lower r)
  end.

Definition is_space (c : ascii) : bool :=
  let z := Str.byte_of c in
  (z =? 32) || ((9 <=? z) && (z <=? 13)).

Fixpoint trim_left (s : string) : string :=
  match s with
  | String c r => if is_space c then trim_left r else s
  | EmptyString => ""
  end.

Definition trim_both (s : string) : string :=
  String.rev (trim_left (String.rev (trim_left s))).

(** Decimal digits only; the empty string is 0 and anything else NaN. *)
Fixpoint digits (acc : Z) (s : string) : JSNumber :=
  match s with
  | EmptyString => Int acc
  | String c r =>
      let z := Str.byte_of c in
      if (48 <=? z) && (z <=? 57) then digits (10 * acc + (z - 48)) r else NaN
  end.

(** A regular-expression subset: literal characters, [\c] escapes, [.]
    and a postfix [*] on one of these, between [^] and [$]. *)
Inductive atom : Type :=
| Lit (c : ascii)
| AnyChar.

Fixpoint atoms (s : string) : list (atom * bool) :=
  match s with
  | EmptyString => []
  | String "\" (String c r) =>
      match r with
      | String "*" r' => (Lit c, true) :: atoms r'
      | _ => (Lit c, false) :: atoms r
      end
  | String c r =>
      let a := if Ascii.eqb c "." then AnyChar else Lit c in
      match r with
      | String "*" r' => (a, true) :: atoms r'
      | _ => (a, false) :: atoms r
      end
  end.

Definition atom_ok (a : atom) (c : ascii) : bool :=
  match a with
  | Lit d => Ascii.eqb c d
  | AnyChar => true
  end.

Fixpoint full_match (p : list (atom * bool)) (s : string) : bool :=
  match p with
  | [] => String.eqb s ""
  | (a, false) :: p' =>
      match s with
      | String c r => atom_ok a c && full_match p' r
      | EmptyString => false
      end
  | (a, true) :: p' =>
      (fix star (t : string) : bool :=
         full_match p' t
         || match t with
            | String c r => atom_ok a c && star r
            | EmptyString => false
            end) s
  end.

Definition strip_anchors (src : string) : string :=
  match src with
  | String "^" r =>
      match String.rev r with
      | String "$" q => String.rev q
      | _ => r
      end
  | _ => src
  end.

Definition test (src subject : string) : bool :=
  full_match (atoms (strip_anchors src)) subject.

#[export] Instance runtime : JSRuntime := {|
  toLowerCase := lower;
  trim := trim_both;
  regexp_test := test;
  StringToNumber := digits 0;
  (* the examples only encode unreserved characters *)
  encodeURIComponent := fun s => s
|}.

End Demo.

(** ** A sample deployment *)

Module Scenario.
Import Demo.

Definition provider_example_org : MailcoreProvider :=
  {| domain_match := ["example\.org"];
     mx_match := [".*\.mail\.example\.net"];
     servers_imap :=
       [ {| hostname := Some "imap.{domain}"; port := JNum (Int 993);
            starttls := false; ssl := true; tls := false |} ];
     servers_smtp :=
       [ {| hostname := Some "smtp.{domain}"; port := JNum (Int 587);
            starttls := true; ssl := false; tls := false |} ] |}.

Definition preset_legacy : Preset :=
  {| alias := None;
     imap_host := Some "mail.%EMAILDOMAIN%";
     imap_port := JNum (Int 143);
     imap_security := JUndef;
     imap_user_format := JStr "email-without-domain";
     imap_allow_insecure_ssl := JUndef;
     smtp_host := Some "mail.%EMAILDOMAIN%";
     smtp_port := JUndef;
     smtp_security := JStr "STARTTLS";
     smtp_user_format := JStr "email";
     smtp_allow_insecure_ssl := JUndef;
     container_folder := JUndef |}.

(** A document whose provider has no IMAP server, only a POP3 one. *)
Definition body_pop : string :=
  "<clientConfig version='1.1'><emailProvider id='pop.example'>"
  +:+ "<incomingServer type='pop3'><hostname>pop.pop.example</hostname>"
  +:+ "<port>995</port><socketType>SSL</socketType>"
  +:+ "<username>%EMAILADDRESS%</username></incomingServer>"
  +:+ "<outgoingServer type='smtp'><hostname>out.pop.example</hostname>"
  +:+ "<port>587</port><socketType>STARTTLS</socketType>"
  +:+ "<username>%EMAILLOCALPART%</username></outgoingServer>"
  +:+ "</emailProvider></clientConfig>".

Definition smtp_entry : JS :=
  JObj [ ("$", JObj [("type", JStr "smtp")]);
         ("hostname", JStr "out.pop.example");
         ("port", JStr "587");
         ("socketType", JStr "STARTTLS");
         ("username", JStr "%EMAILLOCALPART%") ].

Definition pop_entry : JS :=
  JObj [ ("$", JObj [("type", JStr "pop3")]);
         ("hostname", JStr "pop.pop.example");
         ("port", JStr "995");
         ("socketType", JStr "SSL");
         ("username", JStr "%EMAILADDRESS%") ].

Definition doc_pop : JS :=
  JObj [ ("$", JObj [("version", JStr "1.1")]);
         ("emailProvider",
          JObj [ ("$", JObj [("id", JStr "pop.example")]);
                 ("incomingServer", pop_entry);
                 ("outgoingServer", smtp_entry) ]) ].

(** A document whose incoming server has no attribute at all. *)
Definition body_bare : string :=
  "<clientConfig version='1.1'><emailProvider id='bare.example'>"
  +:+ "<incomingServer><hostname>in.bare.example</hostname></incomingServer>"
  +:+ "<outgoingServer type='smtp'><hostname>out.pop.example</hostname>"
  +:+ "<port>587</port><socketType>STARTTLS</socketType>"
  +:+ "<username>%EMAILLOCALPART%</username></outgoingServer>"
  +:+ "</emailProvider></clientConfig>".

Definition bare_entry : JS := JObj [ ("hostname", JStr "in.bare.example") ].

Definition doc_bare : JS :=
  JObj [ ("$", JObj [("version", JStr "1.1")]);
         ("emailProvider",
          JObj [ ("$", JObj [("id", JStr "bare.example")]);
                 ("incomingServer", bare_entry);
                 ("outgoingServer", smtp_entry) ]) ].

Definition response (good : bool) (code : Z) (t : option string) (j : option JS) : Response :=
  {| ok := good; status := code; statusText := if good then "OK" else "Not Found";
     text := t; json := j |}.

Definition network (r : Request) : option Response :=
  if String.eqb (url r) "https://autoconfig.pop.example/mail/config-v1.1.xml"
  then Some (response true 200 (Some body_pop) None)
  else if String.eqb (url r) "https://autoconfig.bare.example/mail/config-v1.1.xml"
  then Some (response true 200 (Some body_bare) None)
  else if String.eqb (url r) "https://autoconfig.down.example/mail/config-v1.1.xml"
  then Some (response false 404 (Some "Not Found") None)
  else if String.eqb (url r) "https://down.example/.well-known/autoconfig/mail/config-v1.1.xml"
  then Some (response true 200 (Some "<html>") None)
  else if String.eqb (url r) "https://www.googleapis.com/oauth2/v4/token"
  then Some (response true 200 None
               (Some (JObj [ ("access_token", JStr "at"); ("refresh_token", JStr "rt") ])))
  else if String.eqb (url r) "https://www.googleapis.com/oauth2/v1/userinfo?alt=json"
  then Some (response true 200 None
               (Some (JObj [ ("email", JStr "Ann@Example.org"); ("name", JStr "Ann") ])))
  else if String.eqb (url r) "https://login.microsoftonline.com/common/oauth2/v2.0/token"
  then Some (response true 200 None
               (Some (JObj [ ("access_token", JStr "at"); ("refresh_token", JStr "rt") ])))
  else if String.eqb (url r) "https://graph.microsoft.com/v1.0/me"
  then Some (response true 200 None
               (Some (JObj [ ("mail", JStr "bob@hosted.example");
                             ("displayName", JStr "Bob") ])))
  else None.

Definition xml (b : string) : option JS :=
  if String.eqb b body_pop then Some doc_pop
  else if String.eqb b body_bare then Some doc_bare
  else None.

Definition dns (domain : string) : option (list MxRecord) :=
  if String.eqb domain "hosted.example"
  then Some [ {| exchange := "MX1.Mail.Example.NET"; priority := 10 |};
              {| exchange := "mx2.mail.example.net"; priority := 20 |} ]
  else None.

Definition env : Env :=
  {| MailcoreProviderSettings := [provider_example_org];
     MailspringProviderSettings := {[ "legacy.example" := preset_legacy ]};
     resolveMx := dns;
     fetch := network;
     parseStringPromise := xml;
     containerFolderDefaultGetter := "Folders";
     mailsync_test := fun _ => None;
     now := 1700000000;
     localized := fun s => s;
     GMAIL_CLIENT_ID := "gmail-client";
     GMAIL_CLIENT_SECRET := "gmail-secret";
     LOCAL_SERVER_PORT := JNum (Int 12141);
     O365_SCOPES := ["user.read"; "offline_access"; "https://outlook.office.com/IMAP.AccessAsUser.All"];
     O365_CLIENT_ID := "o365-client";
     CODE_VERIFIER := "verifier" |}.

Definition account_of (address : string) (s : gmap string JS) : Account :=
  new_Account JUndef address "imap" s.

Definition password_only : gmap string JS := {[ "imap_password" := JStr "secret" ]}.

Definition empty_container : gmap string JS :=
  <[ "container_folder" := JStr "" ]> password_only.

Definition ann : Account := account_of "Ann@Example.org" password_only.
Definition bob_down : Account := account_of "bob@down.example" password_only.
Definition bob_down_cf : Account := account_of "bob@down.example" empty_container.
Definition bob_pop : Account := account_of "bob@pop.example" password_only.
Definition bob_bare : Account := account_of "bob@bare.example" password_only.
Definition bob_legacy : Account := account_of "bob@legacy.example" ∅.
Definition bob_constructor : Account := account_of "bob@constructor" password_only.

End Scenario.

(** * Vocabulary of the properties *)

(** The identity hash as a function of the five values it reads. *)
Definition identity_hash (emailAddress : JS)
    (imap_username imap_host smtp_username smtp_host : JS) : string :=
  String.substring 0 8
    (SHA256.hex
       (Js.ToString emailAddress
        +:+ default "undefined"
              (Js.stringify (JObj [ ("imap_username", imap_username);
                                    ("imap_host", imap_host);
                                    ("smtp_username", smtp_username);
                                    ("smtp_host", smtp_host) ])))).

Definition hex_char (c : ascii) : bool :=
  let z := Str.byte_of c in
  ((48 <=? z) && (z <=? 57)) || ((97 <=? z) && (z <=? 102)).

Fixpoint all_chars (P : ascii -> bool) (s : string) : bool :=
  match s with
  | EmptyString => true
  | String c r => P c && all_chars P r
  end.


(** The value of [server.k] for an entry that is an object. *)
Definition field (server : JS) (k : string) : JS :=
  match Js.get server k with
  | Ok v => v
  | Throw _ => JUndef
  end.

(** The keys of every synthesized defaults object. *)
Definition default_keys : gset string :=
  list_to_set [ "imap_host"; "imap_port"; "imap_username"; "imap_password";
                "imap_security"; "imap_allow_insecure_ssl";
                "smtp_host"; "smtp_port"; "smtp_username"; "smtp_password";
                "smtp_security"; "smtp_allow_insecure_ssl"; "container_folder" ].

(** What [getThunderbirdAutoconfig] resolves to. *)
Definition fetched_document (env : Env) (u : string) : JS :=
  match fetch env (GET u) with
  | None => JBool false
  | Some response =>
      if negb (ok response) then JBool false
      else match text response with
           | None => JBool false
           | Some b => default (JBool false) (parseStringPromise env b)
           end
  end.

(** The ways a fetch of an autoconfig URL fails. *)
Inductive fetch_fails (env : Env) (u : string) : Prop :=
| network_failure :
    fetch env (GET u) = None -> fetch_fails env u
| bad_status (response : Response) :
    fetch env (GET u) = Some response -> ok response = false -> fetch_fails env u
| body_failure (response : Response) :
    fetch env (GET u) = Some response -> ok response = true ->
    text response = None -> fetch_fails env u
| parse_failure (response : Response) (b : string) :
    fetch env (GET u) = Some response -> ok response = true ->
    text response = Some b -> parseStringPromise env b = None -> fetch_fails env u.

(** The document [TryThunderbirdAutoconfig] works on: the first URL's,
    or the second URL's when the first fetch gave nothing. *)
Definition obtained_document (env : Env) (domain : string) : JS :=
  if Js.is_false (fetched_document env (autoconfig_url_1 domain))
  then fetched_document env (autoconfig_url_2 domain)
  else fetched_document env (autoconfig_url_1 domain).

(** Two environments with the same structured table and the same MX
    answer for a domain. *)
Definition same_structured_source (env env' : Env) (domain : string) : Prop :=
  MailcoreProviderSettings env' = MailcoreProviderSettings env
  /\ resolveMx env' domain = resolveMx env domain.

(** Two environments whose network and XML parser answer alike. *)
Definition same_remote_source (env env' : Env) : Prop :=
  (forall r : Request, fetch env' r = fetch env r)
  /\ (forall b : string, parseStringPromise env' b = parseStringPromise env b).

(** Every entry of [servers] (one entry, or the entries of an array)
    carries an attribute bag, and none has the type [type]. *)
Definition no_entry_of_type (type : string) (servers : JS) : Prop :=
  match servers with
  | JArr l => Forall (fun server => has_type type server = Ok false) l
  | _ => has_type type servers = Ok false
  end.

Section Vocabulary.
Context {rt : JSRuntime}.

(** What [mxRecordsForDomain] resolves to. *)
Definition mx_list (env : Env) (domain : string) : list string :=
  match resolveMx env domain with
  | None => []
  | Some addresses => map (fun a => toLowerCase (exchange a)) addresses
  end.

(** The template found in the structured table, if any. *)
Definition structured_template (env : Env) (account : Account) : option MailcoreProvider :=
  let domain := domain_of (emailAddress account) in
  List.find (mailcore_matches domain (mx_list env domain)) (MailcoreProviderSettings env).

(** How the settings of a resolved account were put together. *)
Inductive route (env : Env) (account r : Account) : Prop :=
| via_structured (t : MailcoreProvider) :
    structured_template env account = Some t ->
    r = set_settings account
          (Object_assign
             (mailcore_defaults account account (domain_of (emailAddress account)) t)
             (settings account)) ->
    route env account r
| via_autoconfig (i s : option ServerDetails) :
    structured_template env account = None ->
    outcome (TryThunderbirdAutoconfig env account account) = Ok (Some r) ->
    r = set_settings account
          (Object_assign
             (autoconfig_settings account (domain_of (emailAddress account)) i s)
             (settings account)) ->
    route env account r
| via_preset (t : Preset) (ih sh : string) :
    structured_template env account = None ->
    outcome (TryThunderbirdAutoconfig env account account) = Ok None ->
    select_mstemplate env (domain_of (emailAddress account)) account = Some t ->
    imap_host t = Some ih -> smtp_host t = Some sh ->
    r = set_settings account
          (container_folder_override env
             (Object_assign
                (preset_defaults account account (domain_of (emailAddress account)) t ih sh)
                (settings account))) ->
    route env account r.

End Vocabulary.

(** The value a computation returns, [otherwise] if it throws. *)
Definition returned {A : Type} (m : @M Event A) (otherwise : A) : A :=
  match outcome m with
  | Ok a => a
  | Throw _ => otherwise
  end.

(** * Further vocabulary *)

Section FurtherVocabulary.
Context {rt : JSRuntime}.

(** The request [fetchPostWithFormBody] sends. *)
Definition form_request (u : string) (form : list (string * string)) : Request :=
  {| method := "POST"; url := u;
     body := Some (Str.join "&"
               (map (fun kv => encodeURIComponent (fst kv) +:+ "="
                               +:+ encodeURIComponent (snd kv)) form));
     headers := [("Content-Type", "application/x-www-form-urlencoded;charset=UTF-8")] |}.

(** The account [finalizeAndValidateAccount] hands to the connection test,
    from the settings [s2] left by the two trims. *)
Definition prepared_account (account : Account) (s2 : gmap string JS) : Account :=
  let a := set_settings account s2 in
  let a := set_id a (idForAccount (JStr (emailAddress a)) (settings a)) in
  let s3 := <[ "username" := Js.or (prop (settings a) "username")
                                   (prop (settings a) "email") ]> (settings a) in
  let s4 := coerce_port "smtp_port" (coerce_port "imap_port" s3) in
  normalize_label (set_settings a s4).

(** The token exchange of the Gmail builder. *)
Definition gmail_token_url : string := "https://www.googleapis.com/oauth2/v4/token".

Definition gmail_token_form (env : Env) (code : string) : list (string * string) :=
  [ ("code", code);
    ("client_id", GMAIL_CLIENT_ID env);
    ("client_secret", GMAIL_CLIENT_SECRET env);
    ("redirect_uri", "http://127.0.0.1:" +:+ Js.ToString (LOCAL_SERVER_PORT env));
    ("grant_type", "authorization_code") ].

Definition gmail_profile_request (tokens : JS) : Request :=
  bearer_request "https://www.googleapis.com/oauth2/v1/userinfo?alt=json"
    (field tokens "access_token").

(** The token exchange of the Microsoft builder. *)
Definition microsoft_token_url : string :=
  "https://login.microsoftonline.com/common/oauth2/v2.0/token".

Definition microsoft_token_form (env : Env) (code : string) : list (string * string) :=
  [ ("code", code);
    ("scope", Str.join " "
       (filter (fun f => negb (Str.startsWith "https://outlook.office.com" f))
               (O365_SCOPES env)));
    ("client_id", O365_CLIENT_ID env);
    ("code_verifier", CODE_VERIFIER env);
    ("grant_type", "authorization_code");
    ("redirect_uri", "http://localhost:" +:+ Js.ToString (LOCAL_SERVER_PORT env)
                     +:+ "/desktop") ].

Definition microsoft_profile_request (tokens : JS) : Request :=
  bearer_request "https://graph.microsoft.com/v1.0/me" (field tokens "access_token").

(** The account a builder makes from the profile and the refresh token,
    before it is resolved. *)
Definition oauth_account (n : JS) (address provider0 client_id : string)
    (tokens : JS) : Account :=
  new_Account n address provider0
    (<[ "refresh_client_id" := JStr client_id ]>
       (<[ "refresh_token" := field tokens "refresh_token" ]> ∅)).

End FurtherVocabulary.

(** The properties [finalizeAndValidateAccount] writes. *)
Definition finalized_keys : list string :=
  [ "imap_host"; "smtp_host"; "username"; "imap_port"; "smtp_port" ].

(** A request that gives no usable JSON answer: it fails, its body is not
    JSON, or its status is not 2xx. *)
Definition request_fails (env : Env) (req : Request) : Prop :=
  fetch env req = None
  \/ exists resp : Response,
       fetch env req = Some resp /\ (json resp = None \/ ok resp = false).

(** A request answered with status 2xx and the JSON value [v]. *)
Definition request_answers (env : Env) (req : Request) (v : JS) : Prop :=
  exists resp : Response,
    fetch env req = Some resp /\ ok resp = true /\ json resp = Some v.

(** ** Placeholders *)

(** [pat] occurs nowhere in [s]. *)
Definition free_of (pat s : string) : Prop :=
  forall a b : string, s = a +:+ b -> Str.startsWith pat b = false.

(** In [pre +:+ pat +:+ post] the occurrence of [pat] written out is the
    first: none starts inside [pre]. *)
Definition first_occurrence (pat pre post : string) : Prop :=
  forall a b : string,
    pre = a +:+ b -> b <> "" -> Str.startsWith pat (b +:+ pat +:+ post) = false.

(** [result] is [template] with its first [pat], if it has one, replaced
    by [domain]; what follows that occurrence is kept as it is. *)
Definition filled (pat domain template result : string) : Prop :=
  (forall pre post : string,
      template = pre +:+ pat +:+ post -> first_occurrence pat pre post ->
      result = pre +:+ domain +:+ post)
  /\ (free_of pat template -> result = template).

(** ** Authorization URLs *)

(** [buildGmailAuthURL] and [buildO365AuthURL]. [qs_escape] is the escape
    function of Node's [querystring] module; [GMAIL_SCOPES] and
    [CODE_CHALLENGE] are the two constants of [onboarding-constants] that
    only these functions read. *)
Section AuthorizationURLs.
Variables (qs_escape : string -> string) (GMAIL_SCOPES : list string)
  (CODE_CHALLENGE : string).
Variable env : Env.

(** [qs.stringify] of an object whose values are strings. *)
Definition qs_stringify (params : list (string * string)) : string :=
  Str.join "&" (map (fun kv => qs_escape (fst kv) +:+ "=" +:+ qs_escape (snd kv)) params).

Definition gmail_auth_params : list (string * string) :=
  [ ("client_id", GMAIL_CLIENT_ID env);
    ("redirect_uri", "http://127.0.0.1:" +:+ Js.ToString (LOCAL_SERVER_PORT env));
    ("response_type", "code");
    ("scope", Str.join " " GMAIL_SCOPES);
    ("access_type", "offline");
    ("prompt", "select_account consent") ].

Definition buildGmailAuthURL : string :=
  "https://accounts.google.com/o/oauth2/auth?" +:+ qs_stringify gmail_auth_params.

Definition o365_auth_params : list (string * string) :=
  [ ("client_id", O365_CLIENT_ID env);
    ("redirect_uri", "http://localhost:" +:+ Js.ToString (LOCAL_SERVER_PORT env)
                     +:+ "/desktop");
    ("response_type", "code");
    ("scope", Str.join " " (O365_SCOPES env));
    ("response_mode", "query");
    ("code_challenge", CODE_CHALLENGE);
    ("code_challenge_method", "S256");
    ("prompt", "select_account") ].

Definition buildO365AuthURL : string :=
  "https://login.microsoftonline.com/common/oauth2/v2.0/authorize?"
  +:+ qs_stringify o365_auth_params.

End AuthorizationURLs.

(** The value a parameter list gives for a name. *)
Fixpoint param (k : string) (params : list (string * string)) : option string :=
  match params with
  | [] => None
  | (k', v) :: rest => if String.eqb k' k then Some v else param k rest
  end.

(** ** The text that is hashed *)

(** [idString] of [idForAccount]. *)
Definition id_string (emailAddress : JS) (connectionSettings : gmap string JS) : string :=
  Js.ToString emailAddress
  +:+ default "undefined"
        (Js.stringify
           (JObj [ ("imap_username", prop connectionSettings "imap_username");
                   ("imap_host", prop connectionSettings "imap_host");
                   ("smtp_username", prop connectionSettings "smtp_username");
                   ("smtp_host", prop connectionSettings "smtp_host") ])).

(** Two strings that differ at a position both have. *)
Fixpoint mismatch (a b : string) : bool :=
  match a, b with
  | String x a', String y b' => if Ascii.eqb x y then mismatch a' b' else true
  | _, _ => false
  end.

Definition all_ascii : list ascii := map ascii_of_nat (seq 0 256).

(** ** Further sample deployments *)

Module Cases.
Import Demo Scenario.

(** The sample deployment with other tables, network, parser and
    connection test. *)
Definition deployment (structured : list MailcoreProvider) (presets : gmap string Preset)
    (net : Request -> option Response) (parser : string -> option JS)
    (validator : Account -> option Error) : Env :=
  {| MailcoreProviderSettings := structured;
     MailspringProviderSettings := presets;
     resolveMx := dns;
     fetch := net;
     parseStringPromise := parser;
     containerFolderDefaultGetter := containerFolderDefaultGetter env;
     mailsync_test := validator;
     now := now env;
     localized := localized env;
     GMAIL_CLIENT_ID := GMAIL_CLIENT_ID env;
     GMAIL_CLIENT_SECRET := GMAIL_CLIENT_SECRET env;
     LOCAL_SERVER_PORT := LOCAL_SERVER_PORT env;
     O365_SCOPES := O365_SCOPES env;
     O365_CLIENT_ID := O365_CLIENT_ID env;
     CODE_VERIFIER := CODE_VERIFIER env |}.

(** A structured template that lists no IMAP server. *)
Definition provider_relay : MailcoreProvider :=
  {| domain_match := ["relay\.example"];
     mx_match := [];
     servers_imap := [];
     servers_smtp :=
       [ {| hostname := Some "out.{domain}"; port := JNum (Int 465);
            starttls := false; ssl := true; tls := false |} ] |}.

(** A preset that only names another one, and one whose alias is no key
    of the table. *)
Definition preset_alias_of (a : string) : Preset :=
  {| alias := Some a;
     imap_host := Some "ignored.example";
     imap_port := JNum (Int 1143);
     imap_security := JUndef;
     imap_user_format := JUndef;
     imap_allow_insecure_ssl := JUndef;
     smtp_host := Some "ignored.example";
     smtp_port := JUndef;
     smtp_security := JUndef;
     smtp_user_format := JUndef;
     smtp_allow_insecure_ssl := JUndef;
     container_folder := JUndef |}.

Definition presets : gmap string Preset :=
  <[ "alias.example" := preset_alias_of "legacy.example" ]>
    (<[ "dangling.example" := preset_alias_of "nowhere.example" ]>
       (MailspringProviderSettings env)).

(** Documents: one without provider, one with three providers, the second
    of which lists three incoming servers, one with a foreign provider
    only, and one whose provider lists no server. *)
Definition body_of (tag : string) : string := "<clientConfig><!-- " +:+ tag +:+ " --></clientConfig>".

Definition doc_empty : JS := JObj [ ("$", JObj [("version", JStr "1.1")]) ].

Definition imap_entry (h : list (string * JS)) : JS :=
  JObj (("$", JObj [("type", JStr "imap")])
        :: h ++ [ ("port", JStr "143"); ("socketType", JStr "STARTTLS");
                  ("username", JStr "%EMAILADDRESS%") ]).

Definition imap_first : JS := imap_entry [ ("hostname", JStr "in.multi.example") ].
Definition imap_second : JS := imap_entry [ ("hostname", JStr "backup.multi.example") ].

Definition provider_of (i : string) (servers : list (string * JS)) : JS :=
  JObj (("$", JObj [("id", JStr i)]) :: servers).

Definition provider_foreign : JS :=
  provider_of "other.example"
    [ ("incomingServer", imap_second); ("outgoingServer", smtp_entry) ].

Definition provider_multi : JS :=
  provider_of "multi.example"
    [ ("incomingServer", JArr [pop_entry; imap_first; imap_second]);
      ("outgoingServer", smtp_entry) ].

Definition provider_late : JS :=
  provider_of "multi.example"
    [ ("incomingServer", imap_second); ("outgoingServer", smtp_entry) ].

Definition doc_multi : JS :=
  JObj [ ("emailProvider", JArr [provider_foreign; provider_multi; provider_late]) ].

Definition doc_foreign : JS := JObj [ ("emailProvider", JArr [provider_foreign]) ].

Definition doc_unserved : JS :=
  JObj [ ("emailProvider", provider_of "unserved.example" []) ].

Definition parser (b : string) : option JS :=
  if String.eqb b (body_of "empty") then Some doc_empty
  else if String.eqb b (body_of "multi") then Some doc_multi
  else if String.eqb b (body_of "foreign") then Some doc_foreign
  else if String.eqb b (body_of "unserved") then Some doc_unserved
  else if String.eqb b "" then Some JNull
  else None.

Definition served (domain tag : string) (r : Request) : option Response :=
  if String.eqb (url r) (autoconfig_url_1 domain)
  then Some (response true 200 (Some tag) None)
  else None.

Definition documents (r : Request) : option Response :=
  match served "empty.example" (body_of "empty") r with
  | Some a => Some a
  | None =>
  match served "multi.example" (body_of "multi") r with
  | Some a => Some a
  | None =>
  match served "foreign.example" (body_of "foreign") r with
  | Some a => Some a
  | None =>
  match served "unserved.example" (body_of "unserved") r with
  | Some a => Some a
  | None => served "null.example" "" r
  end end end end.

Definition env_documents : Env :=
  deployment [provider_example_org; provider_relay] presets documents parser (fun _ => None).

(** No network at all. *)
Definition env_offline : Env :=
  deployment [provider_example_org] presets (fun _ => None) parser (fun _ => None).

(** Token endpoints that answer and profile endpoints that do not, or that
    answer with a profile without address. *)
Definition tokens : JS :=
  JObj [ ("access_token", JStr "at"); ("refresh_token", JStr "rt") ].

Definition token_endpoints (profile : option Response) (r : Request) : option Response :=
  if String.eqb (method r) "POST" then Some (response true 200 None (Some tokens))
  else profile.

Definition env_no_profile : Env :=
  deployment [provider_example_org] presets
    (token_endpoints (Some (response false 401 None (Some (JObj [])))))
    parser (fun _ => None).

Definition env_no_mailbox : Env :=
  deployment [provider_example_org] presets
    (token_endpoints
       (Some (response true 200 None (Some (JObj [ ("displayName", JStr "Bob") ])))))
    parser (fun _ => None).

(** A connection test that rejects every account. *)
Definition env_rejecting : Env :=
  deployment [provider_example_org] presets network xml
    (fun _ => Some (ErrorMsg "Authentication failed")).

(** Accounts. *)
Definition carl_alias : Account := account_of "carl@alias.example" password_only.
Definition carl_dangling : Account := account_of "carl@dangling.example" password_only.
Definition dora : Account := account_of "dora@down.example" ∅.
Definition erin_relay : Account := account_of "erin@relay.example" password_only.
Definition erin_empty : Account := account_of "erin@empty.example" password_only.
Definition erin_multi : Account := account_of "erin@multi.example" password_only.
Definition erin_foreign : Account := account_of "erin@foreign.example" password_only.
Definition erin_unserved : Account := account_of "erin@unserved.example" password_only.
Definition erin_null : Account := account_of "erin@null.example" password_only.

(** An account as a settings form leaves it: hosts with blanks around
    them, a port typed as text, a label that is an address. *)
Definition typed_settings : gmap string JS :=
  <[ "imap_host" := JStr " imap.example.org " ]>
    (<[ "imap_port" := JStr "993" ]>
       (<[ "smtp_host" := JStr "" ]>
          (<[ "email" := JStr "frank@example.org" ]>
             (<[ "imap_security" := JStr "SSL / TLS" ]> password_only)))).

Definition frank : Account :=
  set_label (account_of "frank@example.org" typed_settings) "Frank@Example.org".

Definition frank_numeric_host : Account :=
  account_of "frank@example.org" (<[ "imap_host" := JNum (Int 5) ]> password_only).

(** Settings with a given IMAP user name and host. *)
Definition identity (u h : string) : gmap string JS :=
  <[ "imap_username" := JStr u ]>
    (<[ "imap_host" := JStr h ]>
       (<[ "smtp_username" := JStr "ann" ]> (<[ "smtp_host" := JStr "c" ]> ∅))).

End Cases.

(** * Properties *)

Ltac run := vm_compute; reflexivity.

Ltac lookup_key :=
  repeat first [ rewrite lookup_insert_eq
               | rewrite lookup_insert_ne by (intros ?; discriminate)
               | rewrite lookup_empty ].

Ltac dom_keys :=
  rewrite !dom_insert_L, dom_empty_L; unfold default_keys; cbn [list_to_set foldr];
  set_solver.

(** ** SHA-256 test vectors *)

Example sha256_constants :
  List.length SHA256.K = 64%nat
  /\ List.hd 0 SHA256.K = 0x428a2f98
  /\ List.last SHA256.K 0 = 0xc67178f2
  /\ SHA256.h0 SHA256.init = 0x6a09e667
  /\ SHA256.h7 SHA256.init = 0x5be0cd19.
Proof. repeat split; vm_compute; reflexivity. Qed.

Example sha256_abc :
  SHA256.hex "abc" = "ba7816bf8f01cfea414140de5dae2223b00361a396177a9cb410ff61f20015ad".
Proof. vm_compute. reflexivity. Qed.

Example sha256_two_blocks :
  SHA256.hex "abcdbcdecdefdefgefghfghighijhijkijkljklmklmnlmnomnopnopq"
  = "248d6a61d20638b8e5c026930c3e6039a33ce45964ff2167f6ecedd419db06c1".
Proof. vm_compute. reflexivity. Qed.

Example idForAccount_sample :
  idForAccount (JStr "a@b.com")
    (<[ "imap_host" := JStr "imap.b.com" ]>
       (<[ "imap_username" := JStr "a@b.com" ]>
          (<[ "smtp_host" := JStr "smtp.b.com" ]>
             (<[ "smtp_username" := JStr "a@b.com" ]>
                (<[ "imap_password" := JStr "hunter2" ]> ∅)))))
  = "de6ad221".
Proof. vm_compute. reflexivity. Qed.

(** ** Computations *)

Section MonadFacts.
Context {Ev A B : Type}.
Implicit Types (m : @M Ev A) (k : A -> @M Ev B).

Lemma outcome_bind_Ok m k (r : B) :
  outcome (bind m k) = Ok r ->
  exists a, outcome m = Ok a /\ outcome (k a) = Ok r.
Proof.
  unfold outcome, bind. destruct m as [l [a | e]]; simpl; intros H.
  - exists a. split; [reflexivity |]. by destruct (k a).
  - discriminate H.
Qed.

Lemma bind_Ok m k (l : list Ev) (a : A) :
  m = (l, Ok a) -> bind m k = (l ++ fst (k a), snd (k a)).
Proof. intros ->. unfold bind. by destruct (k a). Qed.

Lemma bind_Throw m k (l : list Ev) (e : Error) :
  m = (l, Throw e) -> bind m k = (l, Throw e).
Proof. intros ->. reflexivity. Qed.
End MonadFacts.

Lemma outcome_lift {Ev A : Type} (o : Outcome A) : outcome (@lift Ev A o) = o.
Proof. reflexivity. Qed.

Lemma obind_Ok {A B : Type} (o : Outcome A) (k : A -> Outcome B) (r : B) :
  obind o k = Ok r -> exists a, o = Ok a /\ k a = Ok r.
Proof. destruct o as [a | e]; simpl; intros H; [eauto | discriminate]. Qed.

(** ** Settings objects *)

Lemma prop_insert_eq (s : gmap string JS) (k : string) (v : JS) :
  prop (<[ k := v ]> s) k = v.
Proof. unfold prop. by rewrite lookup_insert_eq. Qed.

Lemma prop_insert_ne (s : gmap string JS) (k k' : string) (v : JS) :
  k ≠ k' -> prop (<[ k := v ]> s) k' = prop s k'.
Proof. intros Hne. unfold prop. by rewrite lookup_insert_ne. Qed.

Lemma Object_assign_existing (defaults existing : gmap string JS) (k : string) (v : JS) :
  existing !! k = Some v -> Object_assign defaults existing !! k = Some v.
Proof. intros H. unfold Object_assign. by apply lookup_union_Some_l. Qed.

Lemma Object_assign_default (defaults existing : gmap string JS) (k : string) :
  existing !! k = None -> Object_assign defaults existing !! k = defaults !! k.
Proof. intros H. unfold Object_assign. by apply lookup_union_r. Qed.

Lemma Object_assign_lookup (defaults existing : gmap string JS) (k : string) :
  Object_assign defaults existing !! k
  = match existing !! k with Some v => Some v | None => defaults !! k end.
Proof.
  destruct (existing !! k) as [v |] eqn:E.
  - by apply Object_assign_existing.
  - by apply Object_assign_default.
Qed.

(** ** Identity hashing *)

Lemma idForAccount_identity_hash (e : JS) (s : gmap string JS) :
  idForAccount e s
  = identity_hash e (prop s "imap_username") (prop s "imap_host")
                    (prop s "smtp_username") (prop s "smtp_host").
Proof. reflexivity. Qed.

Lemma idForAccount_ext (e : JS) (s1 s2 : gmap string JS) :
  prop s1 "imap_username" = prop s2 "imap_username" ->
  prop s1 "imap_host" = prop s2 "imap_host" ->
  prop s1 "smtp_username" = prop s2 "smtp_username" ->
  prop s1 "smtp_host" = prop s2 "smtp_host" ->
  idForAccount e s1 = idForAccount e s2.
Proof.
  intros H1 H2 H3 H4. rewrite !idForAccount_identity_hash.
  by rewrite H1, H2, H3, H4.
Qed.

Lemma hex_digit_hex_char (z : Z) : 0 <= z < 16 -> hex_char (Str.hex_digit z) = true.
Proof.
  intros Hz.
  assert (z = 0 \/ z = 1 \/ z = 2 \/ z = 3 \/ z = 4 \/ z = 5 \/ z = 6 \/ z = 7 \/
          z = 8 \/ z = 9 \/ z = 10 \/ z = 11 \/ z = 12 \/ z = 13 \/ z = 14 \/ z = 15)
    as Hcases by lia.
  repeat (destruct Hcases as [-> | Hcases]; [reflexivity |]).
  subst z. reflexivity.
Qed.

Lemma first_word_of_digest (x : Z) (rest : string) :
  String.substring 0 8 (SHA256.hex_word x rest) = SHA256.hex_word x "".
Proof. destruct rest; reflexivity. Qed.

Lemma hex_word_shape (x : Z) :
  String.length (SHA256.hex_word x "") = 8%nat
  /\ all_chars hex_char (SHA256.hex_word x "") = true.
Proof.
  split; [reflexivity |].
  unfold SHA256.hex_word, SHA256.hex_nibble. cbn [all_chars].
  rewrite !hex_digit_hex_char; [reflexivity | | | | | | | |];
    apply Z.mod_pos_bound; lia.
Qed.

Lemma identity_hash_shape (e u h u' h' : JS) :
  String.length (identity_hash e u h u' h') = 8%nat
  /\ all_chars hex_char (identity_hash e u h u' h') = true.
Proof.
  unfold identity_hash, SHA256.hex. rewrite first_word_of_digest.
  apply hex_word_shape.
Qed.

Lemma append_assoc (a b c : string) : (a +:+ b) +:+ c = a +:+ (b +:+ c).
Proof.
  induction a as [| x a IH]; [reflexivity |].
  change (String x ((a +:+ b) +:+ c) = String x (a +:+ (b +:+ c))).
  by rewrite IH.
Qed.

(** C2. [idForAccount] depends on the settings through the four fields
    [imap_username], [imap_host], [smtp_username] and [smtp_host] only:
    two settings objects that agree on them (whatever their passwords,
    ports or security modes) give the same id for the same address. The
    id has 8 characters, all hexadecimal digits, and is the first 8
    characters of the SHA-256 hex digest of the address followed by the
    JSON text of the object holding the four fields; for four strings that
    text is spelled out. *)
Theorem idForAccount_four_fields (emailAddress : string) (s1 s2 : gmap string JS) :
  prop s1 "imap_username" = prop s2 "imap_username" ->
  prop s1 "imap_host" = prop s2 "imap_host" ->
  prop s1 "smtp_username" = prop s2 "smtp_username" ->
  prop s1 "smtp_host" = prop s2 "smtp_host" ->
  idForAccount (JStr emailAddress) s1 = idForAccount (JStr emailAddress) s2
  /\ String.length (idForAccount (JStr emailAddress) s1) = 8%nat
  /\ all_chars hex_char (idForAccount (JStr emailAddress) s1) = true
  /\ idForAccount (JStr emailAddress) s1
     = String.substring 0 8
         (SHA256.hex
            (emailAddress
             +:+ default "undefined"
                   (Js.stringify
                      (JObj [ ("imap_username", prop s1 "imap_username");
                              ("imap_host", prop s1 "imap_host");
                              ("smtp_username", prop s1 "smtp_username");
                              ("smtp_host", prop s1 "smtp_host") ]))))
  /\ (forall u h u' h' : string,
        prop s1 "imap_username" = JStr u -> prop s1 "imap_host" = JStr h ->
        prop s1 "smtp_username" = JStr u' -> prop s1 "smtp_host" = JStr h' ->
        idForAccount (JStr emailAddress) s1
        = String.substring 0 8
            (SHA256.hex
               (emailAddress
                +:+ "{" +:+ Js.quote "imap_username" +:+ ":" +:+ Js.quote u
                +:+ "," +:+ Js.quote "imap_host" +:+ ":" +:+ Js.quote h
                +:+ "," +:+ Js.quote "smtp_username" +:+ ":" +:+ Js.quote u'
                +:+ "," +:+ Js.quote "smtp_host" +:+ ":" +:+ Js.quote h'
                +:+ "}"))).
Proof.
  intros H1 H2 H3 H4.
  split; [by apply idForAccount_ext |].
  rewrite idForAccount_identity_hash.
  split; [apply identity_hash_shape |].
  split; [apply identity_hash_shape |].
  split; [reflexivity |].
  intros u h u' h' -> -> -> ->.
  unfold identity_hash. do 2 f_equal.
  cbn [Js.ToString Js.stringify map concat fst snd app Str.join default].
  by rewrite !append_assoc.
Qed.

(** ** Comparisons of JavaScript values *)

Lemma eq_str_true (v : JS) (s : string) : Js.eq_str v s = true <-> v = JStr s.
Proof.
  destruct v; simpl; try (split; [discriminate | intros [=]]); [].
  rewrite String.eqb_eq. split; [by intros -> | by intros [= ->]].
Qed.

Lemma eq_str_false (v : JS) (s : string) : Js.eq_str v s = false <-> v ≠ JStr s.
Proof.
  rewrite <- eq_str_true. destruct (Js.eq_str v s); split; try done.
Qed.

Lemma eq_str_refl (s : string) : Js.eq_str (JStr s) s = true.
Proof. by apply eq_str_true. Qed.

(** ** MX resolver *)

Section MxResolver.
Context {rt : JSRuntime} (env : Env).

(** C9. [mxRecordsForDomain] never rejects. When the DNS lookup reports
    an error it resolves to the empty list; when the lookup succeeds it
    resolves to the exchange host names in lower case, one per record and
    in the order of the records. *)
Theorem mxRecordsForDomain_never_rejects (domain : string) :
  (exists l, outcome (mxRecordsForDomain env domain) = Ok l)
  /\ (resolveMx env domain = None ->
      outcome (mxRecordsForDomain env domain) = Ok [])
  /\ (forall addresses : list MxRecord,
        resolveMx env domain = Some addresses ->
        outcome (mxRecordsForDomain env domain)
        = Ok (map (fun a => toLowerCase (exchange a)) addresses)
        /\ (forall (i : nat) (a : MxRecord),
              addresses !! i = Some a ->
              map (fun a => toLowerCase (exchange a)) addresses !! i
              = Some (toLowerCase (exchange a)))
        /\ List.length (map (fun a => toLowerCase (exchange a)) addresses)
           = List.length addresses).
Proof.
  unfold mxRecordsForDomain, outcome, bind, emit, ret. simpl.
  destruct (resolveMx env domain) as [addresses |] eqn:E; simpl.
  - split; [eauto |]. split; [discriminate |].
    intros ? [= <-]. split; [reflexivity |]. split.
    + intros i a Hi. by rewrite list_lookup_fmap, Hi.
    + apply length_map.
  - split; [eauto |]. split; [reflexivity | discriminate].
Qed.
End MxResolver.

(** ** Server entries of an autoconfig document *)

Lemma get_field (server : JS) (k : string) :
  server ≠ JUndef -> server ≠ JNull -> Js.get server k = Ok (field server k).
Proof. intros H1 H2. unfold field. by destruct server. Qed.

Lemma split_local_part (l r : string) :
  Str.includes "@" l = false ->
  Str.split "@" (l +:+ String "@" r) = l :: Str.split "@" r.
Proof.
  induction l as [| c l IH]; intros Hl.
  - reflexivity.
  - simpl in Hl. apply orb_false_iff in Hl as [Hc Hl].
    change (String c l +:+ String "@" r) with (String c (l +:+ String "@" r)).
    cbn [Str.split]. rewrite Hc, (IH Hl). reflexivity.
Qed.

Section ServerDetails.
Context {rt : JSRuntime}.

Lemma local_part_before_at (l r : string) :
  Str.includes "@" l = false -> local_part (l +:+ String "@" r) = l.
Proof. intros Hl. unfold local_part. by rewrite split_local_part. Qed.

(** C8. For a server entry of an autoconfig document (an entry that
    carries an attribute bag, hence neither [undefined] nor [null]),
    [extractServerDetails] returns details whose username is the local
    part of the address, the text before its first [@], when the entry's
    [username] is the string [%EMAILLOCALPART%], and the full address in
    every other case; and whose security is [None] for socketType
    [plain], [STARTTLS] for [STARTTLS], [SSL / TLS] for [SSL], and
    [STARTTLS] for any other or missing socketType. *)
Theorem extractServerDetails_username_security (server : JS) (account : Account) :
  server ≠ JUndef -> server ≠ JNull ->
  exists d : ServerDetails,
    extractServerDetails server account = Ok d
    /\ host d = field server "hostname"
    /\ sd_port d = field server "port"
    /\ (field server "username" = JStr "%EMAILLOCALPART%" ->
        username d = local_part (emailAddress account)
        /\ forall l r : string,
             emailAddress account = l +:+ String "@" r ->
             Str.includes "@" l = false -> username d = l)
    /\ (field server "username" ≠ JStr "%EMAILLOCALPART%" ->
        username d = emailAddress account)
    /\ (field server "socketType" = JStr "plain" -> security d = "None")
    /\ (field server "socketType" = JStr "STARTTLS" -> security d = "STARTTLS")
    /\ (field server "socketType" = JStr "SSL" -> security d = "SSL / TLS")
    /\ (field server "socketType" ≠ JStr "plain" ->
        field server "socketType" ≠ JStr "STARTTLS" ->
        field server "socketType" ≠ JStr "SSL" ->
        security d = "STARTTLS").
Proof.
  intros H1 H2. unfold extractServerDetails.
  rewrite !get_field by assumption. cbn [obind].
  eexists. split; [reflexivity |]. cbn [host sd_port username security].
  split; [reflexivity |]. split; [reflexivity |].
  split.
  { intros ->. rewrite eq_str_refl. split; [reflexivity |].
    intros l r -> Hl. by apply local_part_before_at. }
  split.
  { intros Hu. apply eq_str_false in Hu. by rewrite Hu. }
  split; [by intros -> |]. split; [by intros -> |]. split; [by intros -> |].
  intros Ha Hb Hc.
  apply eq_str_false in Ha, Hb, Hc. by rewrite Ha, Hb, Hc.
Qed.
End ServerDetails.

(** ** Synthesized defaults *)



Section Inference.
Context {rt : JSRuntime}.
Variables (p : JSNumber) (sec : JS).






End Inference.

Section PresetDefaults.
Context {rt : JSRuntime}.
Variables (account populated : Account) (domain : string).



Lemma preset_defaults_container_folder (t : Preset) (ih sh : string) :
  preset_defaults account populated domain t ih sh !! "container_folder"
  = Some (container_folder t).
Proof.
  unfold preset_defaults.
  destruct (infer_imap _ _) as [p s], (infer_smtp _ _) as [p' s'].
  lookup_key. reflexivity.
Qed.

End PresetDefaults.

(** ** Resolution chain *)

Section Resolution.
Context {rt : JSRuntime}.

Variable env : Env.

Lemma mxRecordsForDomain_eq (domain : string) :
  mxRecordsForDomain env domain = ([EvResolveMx domain], Ok (mx_list env domain)).
Proof.
  unfold mxRecordsForDomain, mx_list, bind, emit, ret. simpl.
  by destruct (resolveMx env domain).
Qed.

Lemma getThunderbirdAutoconfig_eq (u : string) :
  getThunderbirdAutoconfig env u = ([EvFetch (GET u)], Ok (fetched_document env u)).
Proof.
  unfold getThunderbirdAutoconfig, fetched_document, catch, bind, emit, ret, throw. simpl.
  destruct (fetch env (GET u)) as [response |]; [| reflexivity].
  destruct (ok response); simpl; [| reflexivity].
  destruct (text response) as [b |]; [| reflexivity].
  by destruct (parseStringPromise env b).
Qed.

Lemma fetch_fails_document (u : string) :
  fetch_fails env u -> fetched_document env u = JBool false.
Proof.
  unfold fetched_document.
  intros [H | r H Hok | r H Hok Ht | r b H Hok Ht Hp]; rewrite H; try reflexivity.
  - by rewrite Hok.
  - by rewrite Hok, Ht.
  - by rewrite Hok, Ht, Hp.
Qed.

Lemma TryThunderbirdAutoconfig_eq (populated account : Account) :
  let domain := domain_of (emailAddress account) in
  TryThunderbirdAutoconfig env populated account
  = if Js.is_false (fetched_document env (autoconfig_url_1 domain))
    then ([EvFetch (GET (autoconfig_url_1 domain)); EvFetch (GET (autoconfig_url_2 domain))],
          interpret_autoconfig populated account domain
            (fetched_document env (autoconfig_url_2 domain)))
    else ([EvFetch (GET (autoconfig_url_1 domain))],
          interpret_autoconfig populated account domain
            (fetched_document env (autoconfig_url_1 domain))).
Proof.
  intros domain. unfold TryThunderbirdAutoconfig. fold domain.
  rewrite (bind_Ok _ _ _ _ (getThunderbirdAutoconfig_eq _)).
  destruct (Js.is_false (fetched_document env (autoconfig_url_1 domain))).
  - rewrite (bind_Ok _ _ _ _ (getThunderbirdAutoconfig_eq _)). reflexivity.
  - reflexivity.
Qed.

Lemma expand_structured (account : Account) (t : MailcoreProvider) :
  let domain := domain_of (emailAddress account) in
  structured_template env account = Some t ->
  expandAccountWithCommonSettings env account
  = ([EvResolveMx domain],
     Ok (set_settings account
           (Object_assign (mailcore_defaults account account domain t)
                          (settings account)))).
Proof.
  intros domain Ht. unfold expandAccountWithCommonSettings. fold domain.
  rewrite (bind_Ok _ _ _ _ (mxRecordsForDomain_eq _)).
  unfold structured_template in Ht. fold domain in Ht. rewrite Ht.
  reflexivity.
Qed.

Lemma expand_unstructured (account : Account) :
  let domain := domain_of (emailAddress account) in
  structured_template env account = None ->
  expandAccountWithCommonSettings env account
  = (EvResolveMx domain :: events (TryThunderbirdAutoconfig env account account),
     match outcome (TryThunderbirdAutoconfig env account account) with
     | Ok (Some populated') => Ok populated'
     | Ok None => preset_path env account account domain
     | Throw e => Throw e
     end).
Proof.
  intros domain Ht. unfold expandAccountWithCommonSettings. fold domain.
  rewrite (bind_Ok _ _ _ _ (mxRecordsForDomain_eq _)).
  unfold structured_template in Ht. fold domain in Ht. rewrite Ht.
  unfold clone, bind, events, outcome.
  destruct (TryThunderbirdAutoconfig env account account) as [l [[p |] | e]];
    simpl; rewrite ?app_nil_r; reflexivity.
Qed.
End Resolution.

Section Priority.
Context {rt : JSRuntime}.

Lemma structured_template_same (env env' : Env) (account : Account) :
  same_structured_source env env' (domain_of (emailAddress account)) ->
  structured_template env' account = structured_template env account.
Proof.
  intros [Ht Hmx]. unfold structured_template, mx_list. by rewrite Ht, Hmx.
Qed.

Lemma fetched_document_same (env env' : Env) (u : string) :
  same_remote_source env env' -> fetched_document env' u = fetched_document env u.
Proof.
  intros [Hf Hp]. unfold fetched_document. rewrite Hf.
  destruct (fetch env (GET u)) as [r |]; [| reflexivity].
  destruct (negb (ok r)); [reflexivity |].
  destruct (text r) as [b |]; [| reflexivity]. by rewrite Hp.
Qed.

Lemma TryThunderbirdAutoconfig_same (env env' : Env) (populated account : Account) :
  same_remote_source env env' ->
  TryThunderbirdAutoconfig env' populated account
  = TryThunderbirdAutoconfig env populated account.
Proof.
  intros H. rewrite !TryThunderbirdAutoconfig_eq.
  by rewrite !(fetched_document_same env env' _ H).
Qed.

(** C1. [expandAccountWithCommonSettings] consults its sources in the
    order structured table, remote autoconfig document, preset table, and
    the first one that yields a template decides the result.
    - When a provider of the structured table matches, the first such
      provider gives the settings, the only I/O is the MX lookup, and the
      result is the same in every environment with the same structured
      table and MX answer: neither the network nor the preset table is
      consulted.
    - Otherwise the autoconfig document is tried: the first URL is
      fetched, and the second one only when the first fetch gave nothing.
      When this yields settings they are returned, and the result is the
      same whatever the preset table and the container-folder default.
    - Otherwise the result is that of the preset table (with its
      generated fallback). *)
Theorem resolution_priority (env : Env) (account : Account) :
  let domain := domain_of (emailAddress account) in
  (forall t : MailcoreProvider,
      structured_template env account = Some t ->
      expandAccountWithCommonSettings env account
      = ([EvResolveMx domain],
         Ok (set_settings account
               (Object_assign (mailcore_defaults account account domain t)
                              (settings account))))
      /\ forall env' : Env,
           same_structured_source env env' domain ->
           expandAccountWithCommonSettings env' account
           = expandAccountWithCommonSettings env account)
  /\ (structured_template env account = None ->
      events (expandAccountWithCommonSettings env account)
      = EvResolveMx domain
        :: EvFetch (GET (autoconfig_url_1 domain))
        :: (if Js.is_false (fetched_document env (autoconfig_url_1 domain))
            then [EvFetch (GET (autoconfig_url_2 domain))]
            else []))
  /\ (structured_template env account = None ->
      forall populated' : Account,
        outcome (TryThunderbirdAutoconfig env account account) = Ok (Some populated') ->
        outcome (expandAccountWithCommonSettings env account) = Ok populated'
        /\ forall env' : Env,
             same_structured_source env env' domain ->
             same_remote_source env env' ->
             expandAccountWithCommonSettings env' account
             = expandAccountWithCommonSettings env account)
  /\ (structured_template env account = None ->
      outcome (TryThunderbirdAutoconfig env account account) = Ok None ->
      outcome (expandAccountWithCommonSettings env account)
      = preset_path env account account domain).
Proof.
  intros domain. split; [| split; [| split]].
  - intros t Ht. split; [by apply expand_structured |].
    intros env' Hs.
    rewrite (expand_structured env account t Ht).
    apply expand_structured. by rewrite (structured_template_same env env').
  - intros Hn. rewrite (expand_unstructured env account Hn).
    unfold events. cbn [fst]. fold domain. f_equal.
    rewrite TryThunderbirdAutoconfig_eq. fold domain.
    by destruct (Js.is_false (fetched_document env (autoconfig_url_1 domain))).
  - intros Hn p Hp. split.
    + rewrite (expand_unstructured env account Hn). unfold outcome at 1. cbn [snd].
      by rewrite Hp.
    + intros env' Hs Hr.
      assert (structured_template env' account = None) as Hn'
        by (by rewrite (structured_template_same env env')).
      rewrite (expand_unstructured env account Hn), (expand_unstructured env' account Hn').
      rewrite (TryThunderbirdAutoconfig_same env env' _ _ Hr). by rewrite Hp.
  - intros Hn Hp. rewrite (expand_unstructured env account Hn).
    unfold outcome at 1. cbn [snd]. by rewrite Hp.
Qed.

(** Failed fetches. A fetch of an autoconfig URL that fails (network
    failure, non-2xx status, unreadable body, XML parse failure) makes
    [getThunderbirdAutoconfig] return [false]; the function never throws.
    After a failed first fetch the second URL is fetched. When both fail,
    [TryThunderbirdAutoconfig] returns [false] and, no structured template
    having matched, [expandAccountWithCommonSettings] continues with the
    preset table: its result is the preset table's, which is an account
    whenever the selected template names both hosts, as the generated
    fallback does. The fallback is generated when neither the domain nor
    the provider is a key of the table or the name of a member of
    [Object.prototype]. *)
Theorem autoconfig_fetch_failures (env : Env) (account : Account) :
  let domain := domain_of (emailAddress account) in
  let url1 := autoconfig_url_1 domain in
  let url2 := autoconfig_url_2 domain in
  (forall u : string,
      exists v : JS, getThunderbirdAutoconfig env u = ([EvFetch (GET u)], Ok v))
  /\ (forall u : string,
        fetch_fails env u ->
        getThunderbirdAutoconfig env u = ([EvFetch (GET u)], Ok (JBool false)))
  /\ (forall populated : Account,
        fetch_fails env url1 ->
        events (TryThunderbirdAutoconfig env populated account)
        = [EvFetch (GET url1); EvFetch (GET url2)])
  /\ (forall populated : Account,
        fetch_fails env url1 -> fetch_fails env url2 ->
        TryThunderbirdAutoconfig env populated account
        = ([EvFetch (GET url1); EvFetch (GET url2)], Ok None))
  /\ (fetch_fails env url1 -> fetch_fails env url2 ->
      structured_template env account = None ->
      expandAccountWithCommonSettings env account
      = ([EvResolveMx domain; EvFetch (GET url1); EvFetch (GET url2)],
         preset_path env account account domain)
      /\ (forall (t : Preset) (ih sh : string),
            select_mstemplate env domain account = Some t ->
            imap_host t = Some ih -> smtp_host t = Some sh ->
            exists r : Account,
              outcome (expandAccountWithCommonSettings env account) = Ok r)
      /\ (MailspringProviderSettings env !! domain = None ->
          MailspringProviderSettings env !! provider account = None ->
          inherited domain = false -> inherited (provider account) = false ->
          exists r : Account,
            outcome (expandAccountWithCommonSettings env account) = Ok r)).
Proof.
  intros domain url1 url2.
  assert (forall populated : Account,
             fetch_fails env url1 -> fetch_fails env url2 ->
             TryThunderbirdAutoconfig env populated account
             = ([EvFetch (GET url1); EvFetch (GET url2)], Ok None)) as Hboth.
  { intros populated H1 H2. rewrite TryThunderbirdAutoconfig_eq.
    fold domain url1 url2.
    by rewrite (fetch_fails_document env url1 H1), (fetch_fails_document env url2 H2). }
  split; [| split; [| split; [| split]]].
  - intros u. eexists. apply getThunderbirdAutoconfig_eq.
  - intros u Hu. rewrite getThunderbirdAutoconfig_eq.
    by rewrite (fetch_fails_document env u Hu).
  - intros populated H1. rewrite TryThunderbirdAutoconfig_eq.
    fold domain url1 url2. by rewrite (fetch_fails_document env url1 H1).
  - exact Hboth.
  - intros H1 H2 Hn.
    assert (expandAccountWithCommonSettings env account
            = ([EvResolveMx domain; EvFetch (GET url1); EvFetch (GET url2)],
               preset_path env account account domain)) as Heq.
    { rewrite (expand_unstructured env account Hn). fold domain.
      by rewrite (Hboth account H1 H2). }
    split; [exact Heq |]. rewrite Heq. unfold outcome. cbn [snd].
    split.
    + intros t ih sh Ht Hi Hs. unfold preset_path. rewrite Ht, Hi, Hs. eauto.
    + intros Hd Hpv Hid Hip. unfold preset_path, select_mstemplate, table_get.
      rewrite Hd, Hpv, Hid, Hip. cbn. eauto.
Qed.
End Priority.

(** ** The three routes of a successful resolution *)

Section Routes.
Context {rt : JSRuntime}.

Lemma mailcore_defaults_dom (account populated : Account) (domain : string)
    (t : MailcoreProvider) :
  dom (mailcore_defaults account populated domain t) = default_keys.
Proof. unfold mailcore_defaults. cbv zeta. dom_keys. Qed.

Lemma autoconfig_settings_dom (populated : Account) (domain : string)
    (i s : option ServerDetails) :
  dom (autoconfig_settings populated domain i s) = default_keys.
Proof. unfold autoconfig_settings. cbv zeta. dom_keys. Qed.

Lemma preset_defaults_dom (account populated : Account) (domain : string)
    (t : Preset) (ih sh : string) :
  dom (preset_defaults account populated domain t ih sh) = default_keys.
Proof.
  unfold preset_defaults.
  destruct (infer_imap _ _) as [p s], (infer_smtp _ _) as [p' s'].
  dom_keys.
Qed.

Lemma mailcore_defaults_container_folder (account populated : Account)
    (domain : string) (t : MailcoreProvider) :
  mailcore_defaults account populated domain t !! "container_folder" = Some (JStr "").
Proof. unfold mailcore_defaults. cbv zeta. lookup_key. reflexivity. Qed.

Lemma autoconfig_settings_container_folder (populated : Account) (domain : string)
    (i s : option ServerDetails) :
  autoconfig_settings populated domain i s !! "container_folder" = Some (JStr "").
Proof. unfold autoconfig_settings. cbv zeta. lookup_key. reflexivity. Qed.

Lemma interpret_autoconfig_Some (populated account : Account) (domain : string)
    (doc : JS) (p : Account) :
  interpret_autoconfig populated account domain doc = Ok (Some p) ->
  exists i s : option ServerDetails,
    p = set_settings populated
          (Object_assign (autoconfig_settings populated domain i s) (settings populated)).
Proof.
  unfold interpret_autoconfig.
  destruct (Js.is_false doc); [discriminate |].
  intros H. apply obind_Ok in H as (ep & _ & H).
  destruct (negb (Js.truthy ep)); [discriminate |].
  apply obind_Ok in H as (selected & _ & H).
  destruct selected as [provider |]; [| discriminate].
  apply obind_Ok in H as (incoming & _ & H).
  destruct (Js.is_undefined incoming); [discriminate |].
  apply obind_Ok in H as (outgoing & _ & H).
  destruct (Js.is_undefined outgoing); [discriminate |].
  apply obind_Ok in H as (i & _ & H).
  apply obind_Ok in H as (s & _ & H).
  injection H as <-. eauto.
Qed.

Lemma TryThunderbirdAutoconfig_Some (env : Env) (populated account p : Account) :
  outcome (TryThunderbirdAutoconfig env populated account) = Ok (Some p) ->
  exists i s : option ServerDetails,
    p = set_settings populated
          (Object_assign
             (autoconfig_settings populated (domain_of (emailAddress account)) i s)
             (settings populated)).
Proof.
  rewrite TryThunderbirdAutoconfig_eq. cbv zeta.
  destruct (Js.is_false _); unfold outcome; cbn [snd];
    apply interpret_autoconfig_Some.
Qed.

Lemma preset_path_Ok (env : Env) (account populated r : Account) (domain : string) :
  preset_path env account populated domain = Ok r ->
  exists (t : Preset) (ih sh : string),
    select_mstemplate env domain account = Some t
    /\ imap_host t = Some ih /\ smtp_host t = Some sh
    /\ r = set_settings populated
             (container_folder_override env
                (Object_assign (preset_defaults account populated domain t ih sh)
                               (settings populated))).
Proof.
  unfold preset_path.
  destruct (select_mstemplate env domain account) as [t |]; [| discriminate].
  destruct (imap_host t) as [ih |] eqn:Hi, (smtp_host t) as [sh |] eqn:Hs;
    try discriminate.
  intros [= <-]. exists t, ih, sh. repeat split; done.
Qed.

Lemma expand_route (env : Env) (account r : Account) :
  outcome (expandAccountWithCommonSettings env account) = Ok r ->
  route env account r.
Proof.
  destruct (structured_template env account) as [t |] eqn:Ht.
  - rewrite (expand_structured env account t Ht). unfold outcome. cbn [snd].
    intros [= <-]. by eapply via_structured.
  - rewrite (expand_unstructured env account Ht). unfold outcome at 1. cbn [snd].
    destruct (outcome (TryThunderbirdAutoconfig env account account))
      as [[p |] | e] eqn:Hp; [| | discriminate].
    + intros [= ->].
      destruct (TryThunderbirdAutoconfig_Some env account account r Hp) as (i & s & Hr).
      by eapply via_autoconfig.
    + intros H. apply preset_path_Ok in H as (t & ih & sh & H1 & H2 & H3 & H4).
      by eapply via_preset.
Qed.

Lemma container_folder_override_other (env : Env) (s : gmap string JS) (k : string) :
  k ≠ "container_folder" -> container_folder_override env s !! k = s !! k.
Proof.
  intros Hk. unfold container_folder_override.
  destruct (_ && _); [| reflexivity]. by rewrite lookup_insert_ne.
Qed.

Lemma container_folder_override_kept (env : Env) (s : gmap string JS) :
  containerFolderDefaultGetter env = "Mailspring"
  \/ (prop s "container_folder" ≠ JStr "" /\ prop s "container_folder" ≠ JUndef) ->
  container_folder_override env s = s.
Proof.
  unfold container_folder_override. intros [-> | [H1 H2]]; [reflexivity |].
  apply eq_str_false in H1. rewrite H1.
  destruct (prop s "container_folder"); try done; cbn; by rewrite andb_false_r.
Qed.

Lemma container_folder_override_lookup (env : Env) (s : gmap string JS) :
  containerFolderDefaultGetter env ≠ "Mailspring" ->
  prop s "container_folder" = JStr "" \/ prop s "container_folder" = JUndef ->
  container_folder_override env s !! "container_folder"
  = Some (JStr (containerFolderDefaultGetter env)).
Proof.
  intros Hd Hc. unfold container_folder_override.
  apply String.eqb_neq in Hd. rewrite Hd.
  destruct Hc as [-> | ->]; cbn; apply lookup_insert_eq.
Qed.

Lemma container_folder_override_applied (env : Env) (s : gmap string JS) :
  containerFolderDefaultGetter env ≠ "Mailspring" ->
  prop s "container_folder" = JStr "" \/ prop s "container_folder" = JUndef ->
  prop (container_folder_override env s) "container_folder"
  = JStr (containerFolderDefaultGetter env).
Proof.
  intros Hd Hc. unfold prop at 1. by rewrite container_folder_override_lookup.
Qed.
End Routes.

(** ** Merging with the account's own settings *)

Section Merge.
Context {rt : JSRuntime}.

Lemma route_settings (env : Env) (account r : Account) :
  route env account r ->
  exists defaults : gmap string JS,
    dom defaults = default_keys
    /\ defaults !! "container_folder" <> None
    /\ (settings r = Object_assign defaults (settings account)
        \/ (structured_template env account = None
            /\ outcome (TryThunderbirdAutoconfig env account account) = Ok None
            /\ settings r
               = container_folder_override env
                   (Object_assign defaults (settings account)))).
Proof.
  intros [t Ht -> | i s Hn Hp -> | t ih sh Hn Hp Ht Hi Hs ->].
  - eexists. split; [apply mailcore_defaults_dom |].
    split; [by rewrite mailcore_defaults_container_folder |]. by left.
  - eexists. split; [apply autoconfig_settings_dom |].
    split; [by rewrite autoconfig_settings_container_folder |]. by left.
  - eexists. split; [apply preset_defaults_dom |].
    split; [by rewrite preset_defaults_container_folder |]. by right.
Qed.

(** C4, as amended. The settings returned by
    [expandAccountWithCommonSettings] are thirteen synthesized defaults
    with the account's own settings overlaid field by field, followed, on
    the preset-table route only, by the container-folder rule. Every
    field the account already had keeps its value, a pre-set
    [imap_password] in particular; the one exception is a pre-set
    [container_folder] that is the empty string or [undefined], on the
    preset-table route, when the deployment default differs from
    [Mailspring]. *)
Theorem existing_settings_win (env : Env) (account r : Account) :
  outcome (expandAccountWithCommonSettings env account) = Ok r ->
  (exists defaults : gmap string JS,
      dom defaults = default_keys
      /\ (settings r = Object_assign defaults (settings account)
          \/ (structured_template env account = None
              /\ outcome (TryThunderbirdAutoconfig env account account) = Ok None
              /\ settings r
                 = container_folder_override env
                     (Object_assign defaults (settings account)))))
  /\ (forall (k : string) (v : JS),
        k ≠ "container_folder" ->
        settings account !! k = Some v -> settings r !! k = Some v)
  /\ (forall v : JS,
        settings account !! "imap_password" = Some v ->
        settings r !! "imap_password" = Some v)
  /\ (forall v : JS,
        settings account !! "container_folder" = Some v ->
        containerFolderDefaultGetter env = "Mailspring"
        \/ (v ≠ JStr "" /\ v ≠ JUndef)
        \/ structured_template env account ≠ None
        \/ (exists p : Account,
               outcome (TryThunderbirdAutoconfig env account account) = Ok (Some p)) ->
        settings r !! "container_folder" = Some v)
  /\ (forall v : JS,
        settings account !! "container_folder" = Some v ->
        structured_template env account = None ->
        outcome (TryThunderbirdAutoconfig env account account) = Ok None ->
        containerFolderDefaultGetter env ≠ "Mailspring" ->
        v = JStr "" \/ v = JUndef ->
        settings r !! "container_folder" = Some (JStr (containerFolderDefaultGetter env))).
Proof.
  intros Hr. apply expand_route in Hr.
  assert (forall v : JS,
             settings account !! "container_folder" = Some v ->
             structured_template env account = None ->
             outcome (TryThunderbirdAutoconfig env account account) = Ok None ->
             containerFolderDefaultGetter env ≠ "Mailspring" ->
             v = JStr "" \/ v = JUndef ->
             settings r !! "container_folder"
             = Some (JStr (containerFolderDefaultGetter env))) as Hreplaced.
  { intros v Hv Hn Hp Hd Hc.
    destruct Hr as [t Ht _ | i s _ Hq _ | t ih sh _ _ _ _ _ ->].
    - rewrite Hn in Ht. discriminate.
    - rewrite Hp in Hq. discriminate.
    - cbn [settings set_settings]. apply container_folder_override_lookup; [exact Hd |].
      unfold prop. by rewrite (Object_assign_existing _ _ _ _ Hv). }
  destruct (route_settings env account r Hr) as (defaults & Hdom & _ & Hset).
  assert (forall (k : string) (v : JS),
             k ≠ "container_folder" ->
             settings account !! k = Some v -> settings r !! k = Some v) as Hother.
  { intros k v Hk Hv. destruct Hset as [-> | (_ & _ & ->)].
    - by apply Object_assign_existing.
    - rewrite container_folder_override_other by assumption.
      by apply Object_assign_existing. }
  split; [by exists defaults |]. split; [exact Hother |].
  split; [intros v; by apply Hother |].
  split; [| exact Hreplaced].
  intros v Hv Hcase.
  destruct Hset as [-> | (Hn & Hp & ->)]; [by apply Object_assign_existing |].
  rewrite container_folder_override_kept; [by apply Object_assign_existing |].
  destruct Hcase as [Hd | [[H1 H2] | [Hs | [p Hq]]]].
  - by left.
  - right. unfold prop. by rewrite (Object_assign_existing _ _ _ _ Hv).
  - by destruct Hs.
  - rewrite Hp in Hq. discriminate.
Qed.

(** C5, as amended. The container-folder rule belongs to the
    preset-table route alone. There, the value tested is the template's
    [container_folder] overlaid by the account's own: when it is the empty
    string or [undefined] and the deployment default differs from
    [Mailspring], the returned [container_folder] is the deployment
    default; otherwise it is that merged value. On the structured-table
    and autoconfig routes nothing is substituted: the returned value is
    the account's own [container_folder] when it has one and the empty
    string otherwise, whatever the deployment default. *)
Theorem container_folder_rule (env : Env) (account r : Account) :
  outcome (expandAccountWithCommonSettings env account) = Ok r ->
  let existing := settings account !! "container_folder" in
  let fallback := containerFolderDefaultGetter env in
  (structured_template env account ≠ None ->
     prop (settings r) "container_folder" = default (JStr "") existing)
  /\ (forall p : Account,
        structured_template env account = None ->
        outcome (TryThunderbirdAutoconfig env account account) = Ok (Some p) ->
        prop (settings r) "container_folder" = default (JStr "") existing)
  /\ (forall t : Preset,
        structured_template env account = None ->
        outcome (TryThunderbirdAutoconfig env account account) = Ok None ->
        select_mstemplate env (domain_of (emailAddress account)) account = Some t ->
        let merged := default (container_folder t) existing in
        (fallback ≠ "Mailspring" -> merged = JStr "" \/ merged = JUndef ->
           prop (settings r) "container_folder" = JStr fallback)
        /\ (fallback = "Mailspring" \/ (merged ≠ JStr "" /\ merged ≠ JUndef) ->
            prop (settings r) "container_folder" = merged)).
Proof.
  intros Hr existing fallback. apply expand_route in Hr.
  assert (forall d : gmap string JS,
             d !! "container_folder" = Some (JStr "") ->
             prop (Object_assign d (settings account)) "container_folder"
             = default (JStr "") existing) as Hplain.
  { intros d Hd. unfold prop. rewrite Object_assign_lookup. fold existing.
    destruct existing; [reflexivity | by rewrite Hd]. }
  split; [| split].
  - intros Hs.
    destruct Hr as [t Ht -> | i s Hn Hp -> | t ih sh Hn Hp Ht Hi Hsh ->];
      try (by destruct Hs).
    apply Hplain, mailcore_defaults_container_folder.
  - intros p Hn Hp.
    destruct Hr as [t Ht -> | i s _ _ -> | t ih sh _ Hq Ht Hi Hsh ->].
    + rewrite Hn in Ht. discriminate.
    + apply Hplain, autoconfig_settings_container_folder.
    + rewrite Hp in Hq. discriminate.
  - intros t Hn Hp Ht merged.
    destruct Hr as [t' Ht' -> | i s _ Hq -> | t' ih sh _ _ Ht' Hi Hsh ->].
    + rewrite Hn in Ht'. discriminate.
    + rewrite Hp in Hq. discriminate.
    + rewrite Ht in Ht'. injection Ht' as <-.
      cbn [settings set_settings].
      assert (prop (Object_assign
                      (preset_defaults account account
                         (domain_of (emailAddress account)) t ih sh)
                      (settings account)) "container_folder" = merged) as Hm.
      { unfold prop. rewrite Object_assign_lookup. fold existing.
        subst merged. destruct existing; [reflexivity |].
        by rewrite preset_defaults_container_folder. }
      split.
      * intros Hd Hc. apply container_folder_override_applied; [exact Hd |].
        by rewrite Hm.
      * intros Hc. rewrite container_folder_override_kept; [exact Hm |].
        by rewrite Hm.
Qed.
End Merge.

(** ** Autoconfig documents without a server of the wanted type *)

Section MissingServer.
Context {rt : JSRuntime}.

Lemma TryThunderbirdAutoconfig_outcome (env : Env) (populated account : Account) :
  outcome (TryThunderbirdAutoconfig env populated account)
  = interpret_autoconfig populated account (domain_of (emailAddress account))
      (obtained_document env (domain_of (emailAddress account))).
Proof.
  rewrite TryThunderbirdAutoconfig_eq. cbv zeta. unfold obtained_document.
  by destruct (Js.is_false _).
Qed.

Lemma scan_servers_none (type : string) (account : Account) (l : list JS) :
  Forall (fun server => has_type type server = Ok false) l ->
  scan_servers type account l = Ok None.
Proof.
  induction 1 as [| server rest Hs _ IH]; [reflexivity |].
  cbn [scan_servers]. rewrite Hs. exact IH.
Qed.

Lemma select_server_none (type : string) (account : Account) (servers : JS) :
  no_entry_of_type type servers -> select_server type account servers = Ok None.
Proof.
  destruct servers; cbn [no_entry_of_type select_server]; intros H;
    try (by rewrite H).
  by apply scan_servers_none.
Qed.

Lemma autoconfig_settings_imap_missing (populated : Account) (domain : string)
    (s : option ServerDetails) :
  let d := autoconfig_settings populated domain None s in
  d !! "imap_host" = Some (JStr ("imap." +:+ domain))
  /\ d !! "imap_port" = Some JUndef
  /\ d !! "imap_username" = Some JUndef
  /\ d !! "imap_security" = Some JUndef.
Proof.
  unfold autoconfig_settings. cbv zeta.
  repeat split; lookup_key; reflexivity.
Qed.

Lemma autoconfig_settings_smtp_missing (populated : Account) (domain : string)
    (i : option ServerDetails) :
  let d := autoconfig_settings populated domain i None in
  d !! "smtp_host" = Some (JStr ("smtp." +:+ domain))
  /\ d !! "smtp_port" = Some JUndef
  /\ d !! "smtp_username" = Some JUndef
  /\ d !! "smtp_security" = Some JUndef.
Proof.
  unfold autoconfig_settings. cbv zeta.
  repeat split; lookup_key; reflexivity.
Qed.

Variables (env : Env) (account : Account).
Let domain := domain_of (emailAddress account).
Let doc := obtained_document env domain.

(** What C10 describes, for entries that carry an attribute bag. Let the
    selected provider of the autoconfig document have both an
    [incomingServer] and an [outgoingServer]. If every incoming entry
    carries an attribute bag and none has type [imap],
    while the outgoing side is read without error, then
    [TryThunderbirdAutoconfig] succeeds: it returns the account with its
    own settings overlaid on defaults in which [imap_host] is the fallback
    [imap.<domain>] and [imap_port], [imap_username] and [imap_security]
    are [undefined]. The same holds with the sides exchanged, for
    [smtp.<domain>]. When no structured template matched,
    [expandAccountWithCommonSettings] returns that account and does not go
    on to the preset table. *)
Theorem autoconfig_without_typed_server (ep provider incoming outgoing : JS) :
  Js.is_false doc = false ->
  Js.get doc "emailProvider" = Ok ep -> Js.truthy ep = true ->
  select_provider domain ep = Ok (Some provider) ->
  Js.get provider "incomingServer" = Ok incoming -> incoming ≠ JUndef ->
  Js.get provider "outgoingServer" = Ok outgoing -> outgoing ≠ JUndef ->
  (forall smtpDetails : option ServerDetails,
      no_entry_of_type "imap" incoming ->
      select_server "smtp" account outgoing = Ok smtpDetails ->
      exists d : gmap string JS,
        outcome (TryThunderbirdAutoconfig env account account)
        = Ok (Some (set_settings account (Object_assign d (settings account))))
        /\ d !! "imap_host" = Some (JStr ("imap." +:+ domain))
        /\ d !! "imap_port" = Some JUndef
        /\ d !! "imap_username" = Some JUndef
        /\ d !! "imap_security" = Some JUndef
        /\ (structured_template env account = None ->
            outcome (expandAccountWithCommonSettings env account)
            = Ok (set_settings account (Object_assign d (settings account)))))
  /\ (forall imapDetails : option ServerDetails,
        no_entry_of_type "smtp" outgoing ->
        select_server "imap" account incoming = Ok imapDetails ->
        exists d : gmap string JS,
          outcome (TryThunderbirdAutoconfig env account account)
          = Ok (Some (set_settings account (Object_assign d (settings account))))
          /\ d !! "smtp_host" = Some (JStr ("smtp." +:+ domain))
          /\ d !! "smtp_port" = Some JUndef
          /\ d !! "smtp_username" = Some JUndef
          /\ d !! "smtp_security" = Some JUndef
          /\ (structured_template env account = None ->
              outcome (expandAccountWithCommonSettings env account)
              = Ok (set_settings account (Object_assign d (settings account))))).
Proof.
  intros Hdoc Hep Htruthy Hsel Hin Hin' Hout Hout'.
  assert (forall i s : option ServerDetails,
             select_server "imap" account incoming = Ok i ->
             select_server "smtp" account outgoing = Ok s ->
             outcome (TryThunderbirdAutoconfig env account account)
             = Ok (Some (set_settings account
                           (Object_assign (autoconfig_settings account domain i s)
                                          (settings account))))) as Htry.
  { intros i s Hi Hs. rewrite TryThunderbirdAutoconfig_outcome.
    fold domain. fold doc. unfold interpret_autoconfig.
    rewrite Hdoc, Hep. cbn [obind]. rewrite Htruthy. cbn [negb].
    rewrite Hsel. cbn [obind]. rewrite Hin. cbn [obind].
    replace (Js.is_undefined incoming) with false by (by destruct incoming).
    rewrite Hout. cbn [obind].
    replace (Js.is_undefined outgoing) with false by (by destruct outgoing).
    by rewrite Hi, Hs. }
  assert (forall p : Account,
             outcome (TryThunderbirdAutoconfig env account account) = Ok (Some p) ->
             structured_template env account = None ->
             outcome (expandAccountWithCommonSettings env account) = Ok p) as Hexp.
  { intros p Hp Hn. rewrite (expand_unstructured env account Hn).
    unfold outcome at 1. cbn [snd]. by rewrite Hp. }
  split.
  - intros s Hnone Hs. apply select_server_none with (account := account) in Hnone.
    exists (autoconfig_settings account domain None s).
    destruct (autoconfig_settings_imap_missing account domain s) as (H1 & H2 & H3 & H4).
    repeat (split; [done || by apply Htry |]).
    apply Hexp. by apply Htry.
  - intros i Hnone Hi. apply select_server_none with (account := account) in Hnone.
    exists (autoconfig_settings account domain i None).
    destruct (autoconfig_settings_smtp_missing account domain i) as (H1 & H2 & H3 & H4).
    repeat (split; [done || by apply Htry |]).
    apply Hexp. by apply Htry.
Qed.
End MissingServer.

(** ** Finalizer and OAuth builders *)

Section Builders.
Context {rt : JSRuntime} (env : Env).

Lemma trim_host_other (k k' : string) (s s' : gmap string JS) :
  trim_host k s = Ok s' -> k ≠ k' -> prop s' k' = prop s k'.
Proof.
  unfold trim_host. destruct (Js.truthy (prop s k)); [| by intros [= <-]].
  destruct (prop s k); try discriminate.
  intros [= <-] Hne. by apply prop_insert_ne.
Qed.

Lemma coerce_port_other (k k' : string) (s : gmap string JS) :
  k ≠ k' -> prop (coerce_port k s) k' = prop s k'.
Proof.
  intros Hne. unfold coerce_port.
  destruct (Js.truthy (prop s k)); [by apply prop_insert_ne | reflexivity].
Qed.

(** The id assigned by the finalizer is the identity hash of the account
    it returns. *)
Lemma finalizeAndValidateAccount_id (account r : Account) :
  outcome (finalizeAndValidateAccount env account) = Ok r ->
  emailAddress r = emailAddress account
  /\ id r = Some (idForAccount (JStr (emailAddress r)) (settings r)).
Proof.
  unfold finalizeAndValidateAccount. intros H.
  apply outcome_bind_Ok in H as (s1 & _ & H).
  apply outcome_bind_Ok in H as (s2 & _ & H).
  cbv zeta in H.
  match type of H with
  | outcome (bind (emit (EvMailsyncTest ?x)) _) = _ => remember x as a eqn:Ha in H
  end.
  assert (emailAddress a = emailAddress account
          /\ settings a
             = coerce_port "smtp_port"
                 (coerce_port "imap_port"
                    (<[ "username" := Js.or (prop s2 "username") (prop s2 "email") ]> s2))
          /\ id a = Some (idForAccount (JStr (emailAddress account)) s2))
    as (Ha1 & Ha2 & Ha3).
  { subst a. unfold normalize_label. cbn [label set_settings set_id].
    destruct (label account) as [l |]; [destruct (_ && _) |]; repeat split. }
  clear Ha.
  apply outcome_bind_Ok in H as (_ & _ & H).
  destruct (mailsync_test env a); [discriminate |].
  unfold outcome, ret in H. cbn [snd] in H. injection H as <-.
  cbn [emailAddress id settings set_authedAt].
  split; [exact Ha1 |]. rewrite Ha3, Ha1, Ha2. f_equal.
  apply idForAccount_ext;
    rewrite !coerce_port_other, prop_insert_ne by (intros ?; discriminate);
    reflexivity.
Qed.

(** C7. Every account returned by [buildGmailAccountFromAuthResponse] or
    [buildMicrosoftAccountFromAuthResponse] carries as id the identity
    hash of its own address and final settings, that is a function of its
    [emailAddress] and of the [imap_username], [imap_host],
    [smtp_username] and [smtp_host] of its settings. *)
Theorem builders_assign_identity_hash (code provider0 : string) (r : Account) :
  outcome (buildGmailAccountFromAuthResponse env code) = Ok r
  \/ outcome (buildMicrosoftAccountFromAuthResponse env code provider0) = Ok r ->
  id r = Some (idForAccount (JStr (emailAddress r)) (settings r))
  /\ id r = Some (identity_hash (JStr (emailAddress r))
                    (prop (settings r) "imap_username") (prop (settings r) "imap_host")
                    (prop (settings r) "smtp_username") (prop (settings r) "smtp_host")).
Proof.
  intros H. rewrite <- idForAccount_identity_hash.
  enough (exists a : Account, outcome (finalizeAndValidateAccount env a) = Ok r)
    as [a Ha] by (by destruct (finalizeAndValidateAccount_id a r Ha)).
  destruct H as [H | H].
  - unfold buildGmailAccountFromAuthResponse in H.
    do 8 (apply outcome_bind_Ok in H as (? & _ & H)). eauto.
  - unfold buildMicrosoftAccountFromAuthResponse in H.
    do 5 (apply outcome_bind_Ok in H as (? & _ & H)).
    destruct (negb (Js.truthy _)); [discriminate |].
    do 4 (apply outcome_bind_Ok in H as (? & _ & H)). eauto.
Qed.
End Builders.

(** ** A domain that names a member of [Object.prototype] *)

Section InheritedKeys.
Context {rt : JSRuntime} (env : Env) (account : Account).
Let domain := domain_of (emailAddress account).
Let url1 := autoconfig_url_1 domain.
Let url2 := autoconfig_url_2 domain.

(** C6. Both autoconfig fetches fail, no structured template matched, and
    the domain is no key of the preset table but the name of a member every
    object inherits, such as [constructor]. The failed fetches raise
    nothing: [TryThunderbirdAutoconfig] returns [false] after the two
    requests. The resolution goes on to the preset table, and there an
    error does reach the caller: the lookup finds the inherited member, no
    fallback template is generated, and reading the member's [imap_host]
    throws a [TypeError]. *)
Theorem inherited_key_throws :
  fetch_fails env url1 -> fetch_fails env url2 ->
  structured_template env account = None ->
  MailspringProviderSettings env !! domain = None ->
  inherited domain = true ->
  TryThunderbirdAutoconfig env account account
  = ([EvFetch (GET url1); EvFetch (GET url2)], Ok None)
  /\ expandAccountWithCommonSettings env account
     = ([EvResolveMx domain; EvFetch (GET url1); EvFetch (GET url2)],
        Throw (TypeError "Cannot read properties of undefined (reading 'replace')")).
Proof.
  intros H1 H2 Hn Hd Hi.
  assert (TryThunderbirdAutoconfig env account account
          = ([EvFetch (GET url1); EvFetch (GET url2)], Ok None)) as Hboth.
  { rewrite TryThunderbirdAutoconfig_eq. fold domain url1 url2.
    by rewrite (fetch_fails_document env url1 H1), (fetch_fails_document env url2 H2). }
  split; [exact Hboth |].
  rewrite (expand_unstructured env account Hn). fold domain. rewrite Hboth.
  unfold events, outcome. cbn [fst snd]. f_equal.
  unfold preset_path, select_mstemplate, table_get. by rewrite Hd, Hi.
Qed.
End InheritedKeys.

(** ** Port and security inference on the preset path *)

Section PresetInference.
Context {rt : JSRuntime} (env : Env) (account : Account).
Let domain := domain_of (emailAddress account).

End PresetInference.

(** * Further properties *)

(** ** Addresses *)

Lemma append_cons (c : ascii) (p s : string) : String c p +:+ s = String c (p +:+ s).
Proof. reflexivity. Qed.

Lemma append_empty (s : string) : "" +:+ s = s.
Proof. reflexivity. Qed.

Lemma split_without_separator (c : ascii) (s : string) :
  Str.includes c s = false -> Str.split c s = [s].
Proof.
  induction s as [| d s IH]; [reflexivity |].
  cbn [Str.includes Str.split]. intros H. apply orb_false_iff in H as [Hd Hs].
  rewrite Hd, (IH Hs). reflexivity.
Qed.

Lemma split_ends_with_last_part (c : ascii) (l d : string) :
  Str.includes c d = false ->
  exists (p : string) (ps : list string),
    Str.split c (l +:+ String c d) = (p :: ps) ++ [d].
Proof.
  intros Hd. induction l as [| x l IH].
  - exists "", []. rewrite append_empty.
    cbn [Str.split]. rewrite Ascii.eqb_refl.
    by rewrite split_without_separator.
  - destruct IH as (p & ps & IH).
    rewrite append_cons. cbn [Str.split]. rewrite IH. destruct (Ascii.eqb x c).
    + by exists "", (p :: ps).
    + by exists (String x p), ps.
Qed.

Section Addresses.
Context {rt : JSRuntime} (env : Env) (account : Account).

(** X1. The parts of the address the resolution works with. For an
    address [l@d] with no [@] in [d], the domain is [d] in lower case: the
    MX lookup, which is the first thing the resolution does, is for that
    domain, and so is the first autoconfig URL fetched when no structured
    template matched. When [l] holds no [@] either and the account is
    resolved through the preset table, a user name the account did not
    hold already is [l] for the format [email-without-domain] and the
    whole address for the format [email]. *)
Theorem address_parts (l d : string) :
  emailAddress account = l +:+ String "@" d ->
  Str.includes "@" d = false ->
  domain_of (emailAddress account) = toLowerCase d
  /\ (exists rest : list Event,
        events (expandAccountWithCommonSettings env account)
        = EvResolveMx (toLowerCase d) :: rest)
  /\ (structured_template env account = None ->
      exists rest : list Event,
        events (expandAccountWithCommonSettings env account)
        = EvResolveMx (toLowerCase d)
          :: EvFetch (GET (autoconfig_url_1 (toLowerCase d))) :: rest)
  /\ (Str.includes "@" l = false ->
      forall (t : Preset) (ih sh : string),
        structured_template env account = None ->
        outcome (TryThunderbirdAutoconfig env account account) = Ok None ->
        select_mstemplate env (toLowerCase d) account = Some t ->
        imap_host t = Some ih -> smtp_host t = Some sh ->
        exists r : Account,
          outcome (expandAccountWithCommonSettings env account) = Ok r
          /\ (settings account !! "imap_username" = None ->
              (imap_user_format t = JStr "email-without-domain" ->
               settings r !! "imap_username" = Some (JStr l))
              /\ (imap_user_format t = JStr "email" ->
                  settings r !! "imap_username" = Some (JStr (l +:+ String "@" d))))
          /\ (settings account !! "smtp_username" = None ->
              (smtp_user_format t = JStr "email-without-domain" ->
               settings r !! "smtp_username" = Some (JStr l))
              /\ (smtp_user_format t = JStr "email" ->
                  settings r !! "smtp_username" = Some (JStr (l +:+ String "@" d))))).
Proof.
  intros He Hd.
  assert (domain_of (emailAddress account) = toLowerCase d) as Hdom.
  { unfold domain_of. rewrite He.
    destruct (split_ends_with_last_part "@" l d Hd) as (p & ps & ->).
    by rewrite last_last. }
  split; [exact Hdom |]. split; [| split].
  - destruct (structured_template env account) as [t |] eqn:Ht.
    + rewrite (expand_structured env account t Ht), Hdom. by eexists.
    + rewrite (expand_unstructured env account Ht), Hdom. by eexists.
  - intros Hn. rewrite (expand_unstructured env account Hn), Hdom.
    unfold events. cbn [fst]. rewrite TryThunderbirdAutoconfig_eq, Hdom.
    destruct (Js.is_false _); by eexists.
  - intros Hl t ih sh Hn Hp Ht Hi Hs.
    eexists. split.
    { rewrite (expand_unstructured env account Hn). unfold outcome at 1. cbn [snd].
      rewrite Hp. unfold preset_path. rewrite Hdom, Ht, Hi, Hs. reflexivity. }
    cbn [settings set_settings].
    assert (local_part (emailAddress account) = l) as Hlocal
      by (rewrite He; by apply local_part_before_at).
    split; intros Ha;
      rewrite !container_folder_override_other by discriminate;
      rewrite !Object_assign_default by assumption;
      unfold preset_defaults;
      destruct (infer_imap _ _) as [p s], (infer_smtp _ _) as [p' s'];
      lookup_key; split; intros ->; unfold usernameWithFormat;
      cbn [Js.eq_str String.eqb Ascii.eqb Bool.eqb]; by rewrite ?Hlocal, ?He.
Qed.
End Addresses.

(** ** Placeholder substitution *)

Lemma startsWith_append (p s : string) : Str.startsWith p (p +:+ s) = true.
Proof.
  induction p as [| c p IH]; [reflexivity |].
  rewrite append_cons. cbn [Str.startsWith]. by rewrite Ascii.eqb_refl, IH.
Qed.

Lemma drop_append (p s : string) : Str.drop (String.length p) (p +:+ s) = s.
Proof. induction p as [| c p IH]; [by destruct s | exact IH]. Qed.

Lemma find_first_absent (c : ascii) (pat s : string) :
  Str.includes c s = false -> Str.find_first (String c pat) s = None.
Proof.
  induction s as [| x s IH]; [reflexivity |].
  cbn [Str.includes]. intros H. apply orb_false_iff in H as [Hx Hs].
  cbn [Str.find_first Str.startsWith]. rewrite Ascii.eqb_sym, Hx. cbn [andb].
  by rewrite (IH Hs).
Qed.

Lemma substitution_plain (m b a repl : string) :
  Str.includes "$" repl = false -> Str.substitution m b a repl = repl.
Proof.
  induction repl as [| x repl IH]; [reflexivity |].
  cbn [Str.includes]. intros H. apply orb_false_iff in H as [Hx Hr].
  cbn [Str.substitution]. by rewrite Hx, (IH Hr).
Qed.

Lemma replace_absent (c : ascii) (pat repl s : string) :
  Str.includes c s = false -> Str.replace (String c pat) repl s = s.
Proof. intros H. unfold Str.replace. by rewrite find_first_absent. Qed.

Lemma includes_append (c : ascii) (a b : string) :
  Str.includes c (a +:+ b) = Str.includes c a || Str.includes c b.
Proof.
  induction a as [| x a IH]; [reflexivity |].
  rewrite append_cons. cbn [Str.includes]. by rewrite IH, orb_assoc.
Qed.

Lemma find_first_unfold (pat s : string) :
  Str.find_first pat s
  = if Str.startsWith pat s then Some ("", Str.drop (String.length pat) s)
    else match s with
         | EmptyString => None
         | String c r =>
             match Str.find_first pat r with
             | Some (b, a) => Some (String c b, a)
             | None => None
             end
         end.
Proof. by destruct s. Qed.

Lemma find_first_occurrence (pat pre post : string) :
  first_occurrence pat pre post ->
  Str.find_first pat (pre +:+ pat +:+ post) = Some (pre, post).
Proof.
  induction pre as [| c pre IH]; intros H.
  - rewrite append_empty, find_first_unfold.
    by rewrite startsWith_append, drop_append.
  - rewrite append_cons, find_first_unfold.
    pose proof (H "" (String c pre) eq_refl) as H0.
    rewrite append_cons in H0. rewrite H0 by discriminate.
    rewrite IH; [reflexivity |].
    intros a b -> Hb. by apply (H (String c a) b).
Qed.

Lemma find_first_free (pat s : string) :
  free_of pat s -> Str.find_first pat s = None.
Proof.
  induction s as [| c s IH]; intros H; rewrite find_first_unfold.
  - by rewrite (H "" "" eq_refl).
  - rewrite (H "" (String c s) eq_refl). rewrite IH; [reflexivity |].
    intros a b ->. by apply (H (String c a) b).
Qed.

Lemma replace_filled (pat domain template : string) :
  Str.includes "$" domain = false ->
  filled pat domain template (Str.replace pat domain template).
Proof.
  intros Hd. unfold Str.replace. split.
  - intros pre post -> H.
    by rewrite (find_first_occurrence pat pre post H), substitution_plain.
  - intros H. by rewrite find_first_free.
Qed.

(** A prefix without the first character of the placeholder. *)
Lemma first_occurrence_fresh (c : ascii) (pat pre post : string) :
  Str.includes c pre = false -> first_occurrence (String c pat) pre post.
Proof.
  intros H a b -> Hb. rewrite includes_append in H.
  destruct b as [| x b]; [by destruct Hb |].
  rewrite append_cons. cbn [Str.startsWith].
  cbn [Str.includes] in H. apply orb_false_iff in H as [_ H].
  apply orb_false_iff in H as [H _]. by rewrite Ascii.eqb_sym, H.
Qed.

Section Placeholders.
Context {rt : JSRuntime} (env : Env) (account : Account).
Let domain := domain_of (emailAddress account).

(** X2. Host templates. The hosts of a resolved account are the
    template's with the placeholder filled in: the first [{domain}] of the
    first IMAP and of the first SMTP server's hostname of a structured
    template, and the first [%EMAILDOMAIN%] of the IMAP and of the SMTP
    host of a preset, are replaced by the domain; what follows that
    occurrence, a second placeholder included, is kept as it is, and a
    host without the placeholder is taken unchanged. This holds for a
    domain without [$] (a character [String.prototype.replace] treats
    specially) and for a host the account did not hold already. *)
Theorem host_placeholders :
  Str.includes "$" domain = false ->
  (forall t : MailcoreProvider,
      structured_template env account = Some t ->
      exists r : Account,
        outcome (expandAccountWithCommonSettings env account) = Ok r
        /\ (forall (s : MailcoreServer) (rest : list MailcoreServer) (h : string),
              servers_imap t = s :: rest -> hostname s = Some h ->
              settings account !! "imap_host" = None ->
              exists h' : string,
                settings r !! "imap_host" = Some (JStr h')
                /\ filled "{domain}" domain h h')
        /\ (forall (s : MailcoreServer) (rest : list MailcoreServer) (h : string),
              servers_smtp t = s :: rest -> hostname s = Some h ->
              settings account !! "smtp_host" = None ->
              exists h' : string,
                settings r !! "smtp_host" = Some (JStr h')
                /\ filled "{domain}" domain h h'))
  /\ (forall (t : Preset) (ih sh : string),
        structured_template env account = None ->
        outcome (TryThunderbirdAutoconfig env account account) = Ok None ->
        select_mstemplate env domain account = Some t ->
        imap_host t = Some ih -> smtp_host t = Some sh ->
        exists r : Account,
          outcome (expandAccountWithCommonSettings env account) = Ok r
          /\ (settings account !! "imap_host" = None ->
              exists h' : string,
                settings r !! "imap_host" = Some (JStr h')
                /\ filled "%EMAILDOMAIN%" domain ih h')
          /\ (settings account !! "smtp_host" = None ->
              exists h' : string,
                settings r !! "smtp_host" = Some (JStr h')
                /\ filled "%EMAILDOMAIN%" domain sh h')).
Proof.
  intros Hd. split.
  - intros t Ht. rewrite (expand_structured env account t Ht). fold domain.
    eexists. split; [reflexivity |]. cbn [settings set_settings].
    split; intros s rest h Hs Hh Ha; rewrite Object_assign_default by assumption;
      unfold mailcore_defaults; cbv zeta; rewrite Hs; cbn [List.hd]; rewrite Hh;
      cbn [default from_option Datatypes.id]; lookup_key;
      eexists; (split; [reflexivity | by apply replace_filled]).
  - intros t ih sh Hn Hp Ht Hi Hs.
    eexists. split.
    { rewrite (expand_unstructured env account Hn). unfold outcome at 1. cbn [snd].
      rewrite Hp. unfold preset_path. fold domain. rewrite Ht, Hi, Hs. reflexivity. }
    cbn [settings set_settings].
    split; intros Ha;
      rewrite container_folder_override_other by discriminate;
      rewrite Object_assign_default by assumption;
      unfold preset_defaults;
      destruct (infer_imap _ _) as [p s], (infer_smtp _ _) as [p' s'];
      lookup_key; eexists; (split; [reflexivity | by apply replace_filled]).
Qed.
End Placeholders.

(** ** Matching against the structured table *)

Lemma find_first_match {A : Type} (f : A -> bool) (before after : list A) (x : A) :
  Forall (fun y => f y = false) before -> f x = true ->
  List.find f (before ++ x :: after) = Some x.
Proof.
  induction 1 as [| y before Hy _ IH]; intros Hx; cbn [app List.find].
  - by rewrite Hx.
  - rewrite Hy. by apply IH.
Qed.

Section StructuredTable.
Context {rt : JSRuntime} (env : Env) (account : Account).
Let domain := domain_of (emailAddress account).

(** X3. Matching a provider of the structured table. A provider one of
    whose [domain-match] patterns matches the domain matches whatever the
    MX records are, also when there are none; when the MX lookup fails only
    the [domain-match] patterns count. Among several matching providers
    the first of the table is selected. *)
Theorem structured_table_matching :
  (forall (p : MailcoreProvider) (mxRecords : list string),
      existsb (fun test => regexp_test (anchored test) domain) (domain_match p) = true ->
      mailcore_matches domain mxRecords p = true)
  /\ (resolveMx env domain = None ->
      forall p : MailcoreProvider,
        mailcore_matches domain (mx_list env domain) p
        = existsb (fun test => regexp_test (anchored test) domain) (domain_match p))
  /\ (forall (before after : list MailcoreProvider) (p : MailcoreProvider),
        MailcoreProviderSettings env = before ++ p :: after ->
        Forall (fun q => mailcore_matches domain (mx_list env domain) q = false) before ->
        mailcore_matches domain (mx_list env domain) p = true ->
        structured_template env account = Some p).
Proof.
  split; [| split].
  - intros p mx H. unfold mailcore_matches. by rewrite H.
  - intros Hmx p. unfold mailcore_matches, mx_list. rewrite Hmx.
    cbn [existsb]. replace (existsb (fun _ : string => false) (mx_match p)) with false.
    + apply orb_false_r.
    + induction (mx_match p); [reflexivity | assumption].
  - intros before after p Ht Hb Hp. unfold structured_template. fold domain.
    rewrite Ht. by apply find_first_match.
Qed.
End StructuredTable.

(** ** What a resolved account holds *)

#[local] Set Warnings "-clear-no-such-hyp".

Ltac default_key := unfold default_keys; cbn [list_to_set foldr]; set_solver.

Section Resolved.
Context {rt : JSRuntime} (env : Env).

Lemma defaults_passwords (account populated : Account) (domain : string)
    (d : gmap string JS) :
  (exists t : MailcoreProvider, d = mailcore_defaults account populated domain t)
  \/ (exists i s : option ServerDetails, d = autoconfig_settings populated domain i s)
  \/ (exists (t : Preset) (ih sh : string),
        d = preset_defaults account populated domain t ih sh) ->
  d !! "imap_password" = Some (prop (settings populated) "imap_password")
  /\ d !! "smtp_password"
     = Some (Js.or (prop (settings populated) "smtp_password")
                   (prop (settings populated) "imap_password")).
Proof.
  intros [[t ->] | [(i & s & ->) | (t & ih & sh & ->)]].
  - unfold mailcore_defaults. cbv zeta. split; lookup_key; reflexivity.
  - unfold autoconfig_settings. cbv zeta. split; lookup_key; reflexivity.
  - unfold preset_defaults.
    destruct (infer_imap _ _) as [p s], (infer_smtp _ _) as [p' s'].
    split; lookup_key; reflexivity.
Qed.

(** The defaults object behind a route, and what was done after the merge. *)
Lemma route_defaults (account r : Account) :
  route env account r ->
  exists d : gmap string JS,
    ((exists t : MailcoreProvider,
         d = mailcore_defaults account account (domain_of (emailAddress account)) t)
     \/ (exists i s : option ServerDetails,
            d = autoconfig_settings account (domain_of (emailAddress account)) i s)
     \/ (exists (t : Preset) (ih sh : string),
            d = preset_defaults account account (domain_of (emailAddress account)) t ih sh))
    /\ dom d = default_keys
    /\ (forall k : string,
          k ≠ "container_folder" ->
          settings r !! k = Object_assign d (settings account) !! k)
    /\ dom (settings r) = dom (Object_assign d (settings account))
    /\ name r = name account /\ emailAddress r = emailAddress account
    /\ provider r = provider account /\ id r = id account
    /\ label r = label account /\ authedAt r = authedAt account.
Proof.
  intros [t Ht -> | i s Hn Hp -> | t ih sh Hn Hp Ht Hi Hs ->]; eexists.
  - split; [left; eauto |]. split; [apply mailcore_defaults_dom |].
    repeat split.
  - split; [right; left; eauto |]. split; [apply autoconfig_settings_dom |].
    repeat split.
  - split; [right; right; eauto |]. split; [apply preset_defaults_dom |].
    cbn [settings set_settings name emailAddress provider id label authedAt].
    split; [intros k Hk; by apply container_folder_override_other |].
    split; [| repeat split].
    unfold container_folder_override. destruct (_ && _); [| reflexivity].
    rewrite dom_insert_L. unfold Object_assign. rewrite dom_union_L, preset_defaults_dom.
    default_key.
Qed.

(** X4. Passwords of a resolved account. The returned [imap_password] is
    the one the account came with ([undefined] if it had none): it is never
    taken from the SMTP password. The returned [smtp_password] is the
    account's own when its settings have that property, whatever its
    value, and the account's [imap_password] otherwise. This holds on all
    three routes. *)
Theorem password_defaults (account r : Account) :
  outcome (expandAccountWithCommonSettings env account) = Ok r ->
  settings r !! "imap_password" = Some (prop (settings account) "imap_password")
  /\ settings r !! "smtp_password"
     = Some (match settings account !! "smtp_password" with
             | Some v => v
             | None => prop (settings account) "imap_password"
             end).
Proof.
  intros Hr. apply expand_route in Hr.
  destruct (route_defaults account r Hr) as (d & Hd & _ & Hk & _).
  destruct (defaults_passwords account account _ d Hd) as [Hi Hs].
  rewrite !Hk by (intros ?; discriminate). rewrite !Object_assign_lookup, Hi, Hs.
  unfold prop. split.
  - by destruct (settings account !! "imap_password").
  - by destruct (settings account !! "smtp_password").
Qed.

(** X5. The settings of a resolved account have exactly the properties
    the account had and the thirteen synthesized ones: nothing the account
    held is dropped, none of the thirteen is missing, nothing else is
    added. *)
Theorem resolved_settings_keys (account r : Account) :
  outcome (expandAccountWithCommonSettings env account) = Ok r ->
  dom (settings r) = dom (settings account) ∪ default_keys.
Proof.
  intros Hr. apply expand_route in Hr.
  destruct (route_defaults account r Hr) as (d & _ & Hd & _ & -> & _).
  unfold Object_assign. by rewrite dom_union_L, Hd.
Qed.

(** X6. Resolution changes the settings only: name, address, provider,
    id, label and authentication date of the returned account are those of
    the account given; in particular no id is assigned. *)
Theorem resolution_keeps_attributes (account r : Account) :
  outcome (expandAccountWithCommonSettings env account) = Ok r ->
  name r = name account /\ emailAddress r = emailAddress account
  /\ provider r = provider account /\ id r = id account
  /\ label r = label account /\ authedAt r = authedAt account.
Proof.
  intros Hr. apply expand_route in Hr.
  by destruct (route_defaults account r Hr) as (d & _ & _ & _ & _ & H).
Qed.
End Resolved.

(** ** The preset table and the generated fallback *)

Section PresetTable.
Context {rt : JSRuntime} (env : Env) (account : Account).
Let domain := domain_of (emailAddress account).
Let table := MailspringProviderSettings env.

Lemma expand_preset_route :
  structured_template env account = None ->
  outcome (TryThunderbirdAutoconfig env account account) = Ok None ->
  outcome (expandAccountWithCommonSettings env account)
  = preset_path env account account domain.
Proof.
  intros Hn Hp. rewrite (expand_unstructured env account Hn).
  unfold outcome at 1. cbn [snd]. by rewrite Hp.
Qed.

(** X7. The generic fallback. When no structured template matched, the
    autoconfig document gave nothing, and neither the domain nor the
    provider is a key of the preset table or the name of a member of
    [Object.prototype], resolution does not fail: for an account holding
    none of the thirteen properties it returns
    [imap.<domain>] on port 993 and [smtp.<domain>] on port 465, both with
    SSL / TLS and the full address as user name, certificate checks on, and
    as container folder the deployment default unless that is [Mailspring],
    in which case the folder stays empty. *)
Theorem generic_fallback_settings :
  structured_template env account = None ->
  outcome (TryThunderbirdAutoconfig env account account) = Ok None ->
  table !! domain = None -> table !! provider account = None ->
  inherited domain = false -> inherited (provider account) = false ->
  (forall k : string, k ∈ default_keys -> settings account !! k = None) ->
  Str.includes "%" domain = false ->
  exists r : Account,
    outcome (expandAccountWithCommonSettings env account) = Ok r
    /\ prop (settings r) "imap_host" = JStr ("imap." +:+ domain)
    /\ prop (settings r) "imap_port" = JNum (Int 993)
    /\ prop (settings r) "imap_security" = JStr "SSL / TLS"
    /\ prop (settings r) "imap_username" = JStr (emailAddress account)
    /\ prop (settings r) "imap_allow_insecure_ssl" = JBool false
    /\ prop (settings r) "smtp_host" = JStr ("smtp." +:+ domain)
    /\ prop (settings r) "smtp_port" = JNum (Int 465)
    /\ prop (settings r) "smtp_security" = JStr "SSL / TLS"
    /\ prop (settings r) "smtp_username" = JStr (emailAddress account)
    /\ prop (settings r) "smtp_allow_insecure_ssl" = JBool false
    /\ prop (settings r) "container_folder"
       = JStr (if String.eqb (containerFolderDefaultGetter env) "Mailspring"
               then "" else containerFolderDefaultGetter env).
Proof.
  intros Hn Hp Hd Hpv Hid Hip Hfresh Hpercent.
  rewrite (expand_preset_route Hn Hp).
  unfold preset_path, select_mstemplate, table_get. fold table domain.
  rewrite Hd, Hpv, Hid, Hip.
  cbn [fallback_template imap_host smtp_host]. eexists. split; [reflexivity |].
  cbn [settings set_settings].
  set (d := preset_defaults account account domain (fallback_template domain)
              ("imap." +:+ domain) ("smtp." +:+ domain)).
  assert (forall k : string, k ∈ default_keys ->
            Object_assign d (settings account) !! k = d !! k) as Hmerge.
  { intros k Hk. apply Object_assign_default. by apply Hfresh. }
  assert (forall k : string, k ∈ default_keys -> k ≠ "container_folder" ->
            prop (container_folder_override env (Object_assign d (settings account))) k
            = default JUndef (d !! k)) as Hread.
  { intros k Hk Hne. unfold prop.
    by rewrite container_folder_override_other, Hmerge. }
  assert (Str.replace "%EMAILDOMAIN%" domain ("imap." +:+ domain) = "imap." +:+ domain)
    as Hi by (apply replace_absent; by rewrite includes_append, Hpercent).
  assert (Str.replace "%EMAILDOMAIN%" domain ("smtp." +:+ domain) = "smtp." +:+ domain)
    as Hs by (apply replace_absent; by rewrite includes_append, Hpercent).
  assert (d !! "container_folder" = Some (JStr "")) as Hcf
    by apply preset_defaults_container_folder.
  repeat (split; [rewrite Hread by (default_key || (intros ?; discriminate));
                  subst d; unfold preset_defaults; cbn; lookup_key;
                  rewrite ?Hi, ?Hs; reflexivity |]).
  unfold container_folder_override, prop at 1 2. rewrite !Hmerge, Hcf by default_key.
  cbn. destruct (String.eqb (containerFolderDefaultGetter env) "Mailspring"); cbn.
  - unfold prop. by rewrite Hmerge, Hcf by default_key.
  - apply prop_insert_eq.
Qed.

(** X8. Aliases of the preset table. When the entry found for the domain
    names an alias, the entry of that name is used in its place and the
    fields of the aliasing entry are ignored. The alias is followed once:
    the alias of the entry reached is not looked up. If the alias names no
    entry, or the entry reached lacks a host, resolution throws instead of
    falling back to the generic template. *)
Theorem alias_resolution (p : Preset) (a : string) :
  structured_template env account = None ->
  outcome (TryThunderbirdAutoconfig env account account) = Ok None ->
  table !! domain = Some p -> alias p = Some a -> a ≠ "" ->
  (table !! a = None ->
   exists e : Error, outcome (expandAccountWithCommonSettings env account) = Throw e)
  /\ (forall q : Preset,
        table !! a = Some q -> imap_host q = None \/ smtp_host q = None ->
        exists e : Error, outcome (expandAccountWithCommonSettings env account) = Throw e)
  /\ (forall (q : Preset) (ih sh : string),
        table !! a = Some q -> imap_host q = Some ih -> smtp_host q = Some sh ->
        outcome (expandAccountWithCommonSettings env account)
        = Ok (set_settings account
                (container_folder_override env
                   (Object_assign (preset_defaults account account domain q ih sh)
                                  (settings account))))).
Proof.
  intros Hn Hp Hd Ha Hne.
  rewrite (expand_preset_route Hn Hp).
  assert (select_mstemplate env domain account = table_get env a) as Hsel.
  { unfold select_mstemplate, alias_truthy, table_get at 1. fold table. rewrite Hd, Ha.
    apply String.eqb_neq in Hne. by rewrite Hne. }
  unfold preset_path. rewrite Hsel. unfold table_get. fold table. split; [| split].
  - intros ->. destruct (inherited a); eauto.
  - intros q -> [Hq | Hq]; rewrite Hq; [eauto |].
    destruct (imap_host q); eauto.
  - intros q ih sh -> -> ->. reflexivity.
Qed.
End PresetTable.

(** ** Servers of a structured template *)

Section StructuredServers.
Context {rt : JSRuntime} (env : Env) (account : Account).
Let domain := domain_of (emailAddress account).

(** X9. Which server of a structured template is used. Only the first
    server of [servers.imap] counts, and its [starttls] flag wins over [ssl]
    and [tls]. A template that lists no IMAP server does not make the
    resolution fail or fall back to [imap.<domain>]: the account gets an
    empty [imap_host], an [undefined] port and security [none]. *)
Theorem structured_server_choice (t : MailcoreProvider) :
  structured_template env account = Some t ->
  settings account !! "imap_host" = None ->
  settings account !! "imap_port" = None ->
  settings account !! "imap_security" = None ->
  exists r : Account,
    outcome (expandAccountWithCommonSettings env account) = Ok r
    /\ (servers_imap t = [] ->
        prop (settings r) "imap_host" = JStr ""
        /\ prop (settings r) "imap_port" = JUndef
        /\ prop (settings r) "imap_security" = JStr "none")
    /\ (forall (s : MailcoreServer) (rest : list MailcoreServer),
          servers_imap t = s :: rest ->
          prop (settings r) "imap_port" = port s
          /\ (starttls s = true -> prop (settings r) "imap_security" = JStr "STARTTLS")
          /\ (starttls s = false -> ssl s = true \/ tls s = true ->
              prop (settings r) "imap_security" = JStr "SSL / TLS")
          /\ (starttls s = false -> ssl s = false -> tls s = false ->
              prop (settings r) "imap_security" = JStr "none")).
Proof.
  intros Ht Hh Hp Hs. rewrite (expand_structured env account t Ht). fold domain.
  eexists. split; [reflexivity |]. cbn [settings set_settings].
  unfold prop. rewrite !Object_assign_default by assumption.
  unfold mailcore_defaults. cbv zeta. split.
  - intros ->. cbn [List.hd]. repeat split; lookup_key; reflexivity.
  - intros s rest ->. cbn [List.hd]. unfold mailcore_security.
    split; [lookup_key; reflexivity |].
    split; [intros ->; lookup_key; reflexivity |].
    split.
    + intros -> [-> | ->]; lookup_key; cbn; [reflexivity |].
      by rewrite orb_true_r.
    + intros -> -> ->. lookup_key. reflexivity.
Qed.
End StructuredServers.

(** ** Reading an autoconfig document *)

Section Documents.
Context {rt : JSRuntime} (env : Env) (account : Account).
Let domain := domain_of (emailAddress account).
Let url1 := autoconfig_url_1 domain.
Let url2 := autoconfig_url_2 domain.

(** Once a provider with both server elements is selected, the result is
    decided by the two scans. *)
Lemma interpret_autoconfig_scans (populated : Account) (doc ep provider incoming outgoing : JS) :
  Js.is_false doc = false ->
  Js.get doc "emailProvider" = Ok ep -> Js.truthy ep = true ->
  select_provider domain ep = Ok (Some provider) ->
  Js.get provider "incomingServer" = Ok incoming -> incoming ≠ JUndef ->
  Js.get provider "outgoingServer" = Ok outgoing -> outgoing ≠ JUndef ->
  interpret_autoconfig populated account domain doc
  = (imapDetails <~ select_server "imap" account incoming ;;
     smtpDetails <~ select_server "smtp" account outgoing ;;
     Ok (Some (set_settings populated
                 (Object_assign
                    (autoconfig_settings populated domain imapDetails smtpDetails)
                    (settings populated))))).
Proof.
  intros Hdoc Hep Ht Hsel Hin Hin' Hout Hout'. unfold interpret_autoconfig.
  rewrite Hdoc, Hep. cbn [obind]. rewrite Ht. cbn [negb].
  rewrite Hsel. cbn [obind]. rewrite Hin. cbn [obind].
  replace (Js.is_undefined incoming) with false by (by destruct incoming).
  rewrite Hout. cbn [obind].
  by replace (Js.is_undefined outgoing) with false by (by destruct outgoing).
Qed.

(** X10. A document obtained from the first URL is final. When the first
    fetch yields a document, the second URL is never fetched, even if the
    document cannot be used: without an [emailProvider] element
    [TryThunderbirdAutoconfig] returns [false], and when no structured
    template matched the resolution continues with the preset table after
    exactly one fetch. *)
Theorem first_document_is_final (ep : JS) :
  Js.is_false (fetched_document env url1) = false ->
  events (TryThunderbirdAutoconfig env account account) = [EvFetch (GET url1)]
  /\ (Js.get (fetched_document env url1) "emailProvider" = Ok ep ->
      Js.truthy ep = false ->
      outcome (TryThunderbirdAutoconfig env account account) = Ok None
      /\ (structured_template env account = None ->
          expandAccountWithCommonSettings env account
          = ([EvResolveMx domain; EvFetch (GET url1)],
             preset_path env account account domain))).
Proof.
  intros Hdoc.
  assert (TryThunderbirdAutoconfig env account account
          = ([EvFetch (GET url1)],
             interpret_autoconfig account account domain (fetched_document env url1)))
    as Htry.
  { rewrite TryThunderbirdAutoconfig_eq. fold domain url1. by rewrite Hdoc. }
  split; [by rewrite Htry |].
  intros Hep Hfalsy.
  assert (interpret_autoconfig account account domain (fetched_document env url1)
          = Ok None) as Hnone.
  { unfold interpret_autoconfig. rewrite Hdoc, Hep. cbn [obind]. by rewrite Hfalsy. }
  rewrite Hnone in Htry. split; [by rewrite Htry |].
  intros Hn. rewrite (expand_unstructured env account Hn). fold domain.
  by rewrite Htry.
Qed.

(** X11. Choosing the provider. When [emailProvider] is an array, the
    first element whose [id] attribute is the domain is the provider, and
    the elements after it are not looked at; if every element has another
    id, [TryThunderbirdAutoconfig] returns [false]. It also returns [false]
    when the provider lacks the [incomingServer] or the [outgoingServer]
    element. *)
Theorem provider_selection (ep : JS) :
  let doc := obtained_document env domain in
  let other_id (p : JS) :=
    exists attrs i : JS,
      Js.get p "$" = Ok attrs /\ Js.get attrs "id" = Ok i /\ i ≠ JStr domain in
  Js.is_false doc = false ->
  Js.get doc "emailProvider" = Ok ep -> Js.truthy ep = true ->
  (forall (before after : list JS) (p attrs : JS),
      ep = JArr (before ++ p :: after) -> Forall other_id before ->
      Js.get p "$" = Ok attrs -> Js.get attrs "id" = Ok (JStr domain) ->
      select_provider domain ep = Ok (Some p))
  /\ (forall l : list JS,
        ep = JArr l -> Forall other_id l ->
        outcome (TryThunderbirdAutoconfig env account account) = Ok None)
  /\ (forall provider incoming : JS,
        select_provider domain ep = Ok (Some provider) ->
        Js.get provider "incomingServer" = Ok JUndef
        \/ (Js.get provider "incomingServer" = Ok incoming
            /\ Js.get provider "outgoingServer" = Ok JUndef) ->
        outcome (TryThunderbirdAutoconfig env account account) = Ok None).
Proof.
  intros doc other_id Hdoc Hep Ht.
  assert (forall l : list JS, Forall other_id l -> find_provider domain l = Ok None)
    as Hnone.
  { induction 1 as [| p l (attrs & i & Ha & Hi & Hne) _ IH]; [reflexivity |].
    cbn [find_provider]. rewrite Ha. cbn [obind]. rewrite Hi. cbn [obind].
    apply eq_str_false in Hne. by rewrite Hne. }
  split; [| split].
  - intros before after p attrs -> Hb Ha Hi. cbn [select_provider].
    clear Hep Ht. induction Hb as [| q l (attrs' & i & Ha' & Hi' & Hne) _ IH]; cbn [app find_provider].
    + rewrite Ha. cbn [obind]. rewrite Hi. cbn [obind]. by rewrite eq_str_refl.
    + rewrite Ha'. cbn [obind]. rewrite Hi'. cbn [obind].
      apply eq_str_false in Hne. by rewrite Hne.
  - intros l -> Hl. rewrite TryThunderbirdAutoconfig_outcome. fold domain doc.
    unfold interpret_autoconfig. rewrite Hdoc, Hep. cbn [obind negb].
    cbn [Js.truthy negb select_provider]. by rewrite (Hnone l Hl).
  - intros provider incoming Hsel Hmiss.
    rewrite TryThunderbirdAutoconfig_outcome. fold domain doc.
    unfold interpret_autoconfig. rewrite Hdoc, Hep. cbn [obind]. rewrite Ht. cbn [negb].
    rewrite Hsel. cbn [obind].
    destruct Hmiss as [-> | [-> ->]]; cbn [obind Js.is_undefined]; [reflexivity |].
    by destruct (Js.is_undefined incoming).
Qed.

(** X12. A document that is [null] or [undefined]. [getThunderbirdAutoconfig]
    passes on whatever the XML parser resolves to; when that is [null] or
    [undefined] (it is not [false]), reading its [emailProvider] throws:
    [TryThunderbirdAutoconfig] throws, and so does
    [expandAccountWithCommonSettings] when no structured template matched,
    without consulting the preset table. *)
Theorem null_document_throws :
  obtained_document env domain = JNull \/ obtained_document env domain = JUndef ->
  (exists e : Error, outcome (TryThunderbirdAutoconfig env account account) = Throw e)
  /\ (structured_template env account = None ->
      exists e : Error, outcome (expandAccountWithCommonSettings env account) = Throw e).
Proof.
  intros Hdoc.
  assert (exists e : Error,
             outcome (TryThunderbirdAutoconfig env account account) = Throw e)
    as [e He].
  { rewrite TryThunderbirdAutoconfig_outcome. fold domain.
    destruct Hdoc as [-> | ->]; cbn; eauto. }
  split; [eauto |].
  intros Hn. exists e. rewrite (expand_unstructured env account Hn).
  unfold outcome at 1. cbn [snd]. by rewrite He.
Qed.

Lemma extractServerDetails_total (server : JS) :
  server ≠ JUndef -> server ≠ JNull ->
  exists d : ServerDetails,
    extractServerDetails server account = Ok d
    /\ host d = field server "hostname" /\ sd_port d = field server "port".
Proof.
  intros H1 H2. unfold extractServerDetails.
  rewrite !get_field by assumption. cbn [obind]. eexists. by repeat split.
Qed.

Lemma has_type_not_null (type : string) (server : JS) (b : bool) :
  has_type type server = Ok b -> server ≠ JUndef /\ server ≠ JNull.
Proof. destruct server; cbn; intros H; by try discriminate. Qed.

Lemma scan_servers_first (type : string) (before after : list JS) (server : JS) :
  Forall (fun s => has_type type s = Ok false) before ->
  has_type type server = Ok true ->
  scan_servers type account (before ++ server :: after)
  = (d <~ extractServerDetails server account ;; Ok (Some d)).
Proof.
  intros Hb Hs. induction Hb as [| s l Hf _ IH]; cbn [app scan_servers].
  - by rewrite Hs.
  - by rewrite Hf.
Qed.

(** X13. Choosing the IMAP server. When [incomingServer] is an array, the
    first entry of type [imap] is used; entries before it must carry an
    attribute bag, entries after it are not looked at. Its port is copied
    as the document gives it, and its host too unless that is missing or
    empty, in which case [imap_host] is [imap.<domain>]. *)
Theorem first_imap_entry_is_used
    (ep provider outgoing server : JS) (before after : list JS)
    (smtpDetails : option ServerDetails) :
  let doc := obtained_document env domain in
  Js.is_false doc = false ->
  Js.get doc "emailProvider" = Ok ep -> Js.truthy ep = true ->
  select_provider domain ep = Ok (Some provider) ->
  Js.get provider "incomingServer" = Ok (JArr (before ++ server :: after)) ->
  Js.get provider "outgoingServer" = Ok outgoing -> outgoing ≠ JUndef ->
  Forall (fun s => has_type "imap" s = Ok false) before ->
  has_type "imap" server = Ok true ->
  select_server "smtp" account outgoing = Ok smtpDetails ->
  exists d : gmap string JS,
    outcome (TryThunderbirdAutoconfig env account account)
    = Ok (Some (set_settings account (Object_assign d (settings account))))
    /\ d !! "imap_port" = Some (field server "port")
    /\ (Js.truthy (field server "hostname") = true ->
        d !! "imap_host" = Some (field server "hostname"))
    /\ (Js.truthy (field server "hostname") = false ->
        d !! "imap_host" = Some (JStr ("imap." +:+ domain))).
Proof.
  intros doc Hdoc Hep Ht Hsel Hin Hout Hout' Hb Hs Hsmtp.
  destruct (has_type_not_null _ _ _ Hs) as [H1 H2].
  destruct (extractServerDetails_total server H1 H2) as (d & Hd & Hhost & Hport).
  exists (autoconfig_settings account domain (Some d) smtpDetails).
  split.
  - rewrite TryThunderbirdAutoconfig_outcome. fold domain doc.
    rewrite (interpret_autoconfig_scans account doc ep provider _ outgoing
               Hdoc Hep Ht Hsel Hin ltac:(discriminate) Hout Hout').
    cbn [select_server]. rewrite (scan_servers_first _ _ _ _ Hb Hs), Hd. cbn [obind].
    by rewrite Hsmtp.
  - unfold autoconfig_settings. cbv zeta. rewrite Hhost, Hport. unfold Js.or.
    split; [lookup_key; reflexivity |].
    split; intros Hh; lookup_key; by rewrite Hh.
Qed.
End Documents.

(** ** Form posts *)

Section FormPost.
Context {rt : JSRuntime} (env : Env).

Lemma fetchPostWithFormBody_eq (u : string) (form : list (string * string)) :
  fetchPostWithFormBody env u form
  = ([EvFetch (form_request u form)],
     match fetch env (form_request u form) with
     | None => Throw (HttpError "fetch failed")
     | Some resp =>
         match json resp with
         | None => Throw (ErrorMsg "invalid json response body")
         | Some j =>
             if ok resp then Ok (Js.or j (JObj []))
             else Throw (HttpError "OAuth Code exchange returned an error status")
         end
     end).
Proof.
  unfold fetchPostWithFormBody. fold (form_request u form).
  unfold bind, emit, throw, ret. cbn.
  destruct (fetch env (form_request u form)) as [resp |]; [| reflexivity].
  destruct (json resp) as [j |]; [| reflexivity].
  by destruct (ok resp).
Qed.

(** X14. [fetchPostWithFormBody] sends exactly one request, whatever
    happens. It throws when the request fails, when the body is not JSON,
    and when the status is not 2xx even though the body is JSON. What it
    returns is never [null], [undefined] or another falsy value: a falsy
    JSON body is replaced by the empty object, so reading a property of the
    result cannot throw. *)
Theorem fetchPostWithFormBody_outcomes (u : string) (form : list (string * string)) :
  let req := form_request u form in
  events (fetchPostWithFormBody env u form) = [EvFetch req]
  /\ (fetch env req = None ->
      exists e : Error, outcome (fetchPostWithFormBody env u form) = Throw e)
  /\ (forall resp : Response,
        fetch env req = Some resp -> json resp = None \/ ok resp = false ->
        exists e : Error, outcome (fetchPostWithFormBody env u form) = Throw e)
  /\ (forall v : JS,
        outcome (fetchPostWithFormBody env u form) = Ok v ->
        Js.truthy v = true
        /\ (forall k : string, exists w : JS, Js.get v k = Ok w)
        /\ exists (resp : Response) (j : JS),
             fetch env req = Some resp /\ ok resp = true /\ json resp = Some j
             /\ v = (if Js.truthy j then j else JObj [])).
Proof.
  intros req. rewrite fetchPostWithFormBody_eq. fold req. unfold events, outcome.
  cbn [fst snd]. split; [reflexivity |]. split; [| split].
  - intros ->. eauto.
  - intros resp -> [Hj | Hok].
    + rewrite Hj. eauto.
    + rewrite Hok. destruct (json resp); eauto.
  - intros v. destruct (fetch env req) as [resp |]; [| discriminate].
    destruct (json resp) as [j |] eqn:Hj; [| discriminate].
    destruct (ok resp) eqn:Hok; [| discriminate].
    intros [= <-].
    assert (Js.truthy (Js.or j (JObj [])) = true) as Ht
      by (unfold Js.or; by destruct (Js.truthy j) eqn:E).
    split; [exact Ht |]. split.
    + intros k. destruct (Js.or j (JObj [])); try discriminate; cbn; eauto.
    + exists resp, j. by repeat split.
Qed.
End FormPost.

(** ** The finalizer *)

Section Finalizer.
Context {rt : JSRuntime} (env : Env).

Lemma finalizeAndValidateAccount_eq (account : Account) :
  finalizeAndValidateAccount env account
  = match trim_host "imap_host" (settings account) with
    | Throw e => ([], Throw e)
    | Ok s1 =>
        match trim_host "smtp_host" s1 with
        | Throw e => ([], Throw e)
        | Ok s2 =>
            ([EvMailsyncTest (prepared_account account s2)],
             match mailsync_test env (prepared_account account s2) with
             | Some e => Throw e
             | None => Ok (set_authedAt (prepared_account account s2) (now env))
             end)
        end
    end.
Proof.
  unfold finalizeAndValidateAccount, bind, lift, emit, throw, ret.
  destruct (trim_host "imap_host" (settings account)) as [s1 | e]; [| reflexivity].
  destruct (trim_host "smtp_host" s1) as [s2 | e]; [| reflexivity].
  cbv zeta. fold (prepared_account account s2). cbn.
  by destruct (mailsync_test env (prepared_account account s2)).
Qed.

Lemma trim_host_cases (k : string) (s : gmap string JS) :
  (Js.truthy (prop s k) = false /\ trim_host k s = Ok s)
  \/ (exists h : string, prop s k = JStr h /\ h ≠ ""
                         /\ trim_host k s = Ok (<[ k := JStr (trim h) ]> s))
  \/ (Js.truthy (prop s k) = true /\ (forall h : string, prop s k ≠ JStr h)
      /\ exists e : Error, trim_host k s = Throw e).
Proof.
  unfold trim_host. destruct (Js.truthy (prop s k)) eqn:Ht; [| by left].
  right. destruct (prop s k) as [| | b | n | h | l | o] eqn:E;
    try (right; split; [reflexivity |]; split; [intros ?; discriminate | eauto]).
  left. exists h. split; [reflexivity |]. split; [| reflexivity].
  intros ->. discriminate Ht.
Qed.

(** X15. A host that is set but is not a string. When [imap_host] or
    [smtp_host] holds a truthy value other than a string, the finalizer
    throws before the connection test: the validator is never called. *)
Theorem finalizer_rejects_non_string_host (account : Account) (k : string) :
  k = "imap_host" \/ k = "smtp_host" ->
  Js.truthy (prop (settings account) k) = true ->
  (forall h : string, prop (settings account) k ≠ JStr h) ->
  events (finalizeAndValidateAccount env account) = []
  /\ exists e : Error, outcome (finalizeAndValidateAccount env account) = Throw e.
Proof.
  intros Hk Ht Hns. rewrite finalizeAndValidateAccount_eq.
  destruct (trim_host_cases "imap_host" (settings account))
    as [[Hf ->] | [(h & Hh & _ & ->) | (_ & _ & e & ->)]]; [| | by eauto].
  - destruct Hk as [-> | ->]; [congruence |].
    destruct (trim_host_cases "smtp_host" (settings account))
      as [[Hf' _] | [(h & Hh & _) | (_ & _ & e & ->)]]; [congruence | | by eauto].
    by destruct (Hns h).
  - destruct Hk as [-> | ->]; [by destruct (Hns h) |].
    assert (prop (<[ "imap_host" := JStr (trim h) ]> (settings account)) "smtp_host"
            = prop (settings account) "smtp_host") as Hsame
      by (by apply prop_insert_ne).
    destruct (trim_host_cases "smtp_host"
                (<[ "imap_host" := JStr (trim h) ]> (settings account)))
      as [[Hf' _] | [(h' & Hh' & _) | (_ & _ & e & ->)]]; [| | by eauto].
    + rewrite Hsame in Hf'. congruence.
    + rewrite Hsame in Hh'. by destruct (Hns h').
Qed.

(** X16. The connection test decides. The finalizer calls the validator
    once, with the account as it will be returned except for the
    authentication date. If the validator rejects, the finalizer throws the
    validator's own error and returns no account; if it accepts, the
    account is returned with the current time as authentication date. *)
Theorem finalizer_validates (account : Account) :
  (forall s1 s2 : gmap string JS,
      trim_host "imap_host" (settings account) = Ok s1 ->
      trim_host "smtp_host" s1 = Ok s2 ->
      let a := prepared_account account s2 in
      events (finalizeAndValidateAccount env account) = [EvMailsyncTest a]
      /\ (forall e : Error,
            mailsync_test env a = Some e ->
            outcome (finalizeAndValidateAccount env account) = Throw e)
      /\ (mailsync_test env a = None ->
          outcome (finalizeAndValidateAccount env account)
          = Ok (set_authedAt a (now env))))
  /\ (forall r : Account,
        outcome (finalizeAndValidateAccount env account) = Ok r ->
        authedAt r = Some (now env)
        /\ exists a : Account,
             events (finalizeAndValidateAccount env account) = [EvMailsyncTest a]
             /\ mailsync_test env a = None
             /\ settings a = settings r /\ id a = id r
             /\ emailAddress a = emailAddress r).
Proof.
  rewrite finalizeAndValidateAccount_eq. split.
  - intros s1 s2 -> -> a. subst a. unfold events, outcome. cbn [fst snd].
    split; [reflexivity |]. split; [by intros e -> | by intros ->].
  - intros r.
    destruct (trim_host "imap_host" (settings account)) as [s1 | e]; [| discriminate].
    destruct (trim_host "smtp_host" s1) as [s2 | e]; [| discriminate].
    unfold events, outcome. cbn [fst snd].
    destruct (mailsync_test env (prepared_account account s2)) eqn:Hm; [discriminate |].
    intros [= <-]. split; [reflexivity |].
    exists (prepared_account account s2). by repeat split.
Qed.
End Finalizer.

(** ** What the finalizer changes *)

Section FinalizerEffects.
Context {rt : JSRuntime} (env : Env).

Lemma trim_host_lookup (k k' : string) (s s' : gmap string JS) :
  trim_host k s = Ok s' -> k ≠ k' -> s' !! k' = s !! k'.
Proof.
  unfold trim_host. destruct (Js.truthy (prop s k)); [| by intros [= <-]].
  destruct (prop s k); try discriminate.
  intros [= <-] Hne. by rewrite lookup_insert_ne.
Qed.

Lemma coerce_port_lookup (k k' : string) (s : gmap string JS) :
  k ≠ k' -> coerce_port k s !! k' = s !! k'.
Proof.
  intros Hne. unfold coerce_port.
  destruct (Js.truthy (prop s k)); [by rewrite lookup_insert_ne | reflexivity].
Qed.

Lemma coerce_port_at (k : string) (s : gmap string JS) :
  coerce_port k s !! k
  = if Js.truthy (prop s k) then Some (JNum (Number (prop s k))) else s !! k.
Proof.
  unfold coerce_port. destruct (Js.truthy (prop s k)); [| reflexivity].
  by rewrite lookup_insert_eq.
Qed.

Lemma normalize_label_keeps (a : Account) :
  settings (normalize_label a) = settings a /\ id (normalize_label a) = id a
  /\ emailAddress (normalize_label a) = emailAddress a
  /\ name (normalize_label a) = name a /\ provider (normalize_label a) = provider a
  /\ authedAt (normalize_label a) = authedAt a.
Proof.
  unfold normalize_label. destruct (label a) as [l |]; [| by repeat split].
  destruct (_ && _); by repeat split.
Qed.

Lemma prepared_account_settings (account : Account) (s2 : gmap string JS) :
  settings (prepared_account account s2)
  = coerce_port "smtp_port"
      (coerce_port "imap_port"
         (<[ "username" := Js.or (prop s2 "username") (prop s2 "email") ]> s2)).
Proof.
  unfold prepared_account. cbv zeta.
  match goal with
  | |- context [normalize_label ?a] => destruct (normalize_label_keeps a) as [-> _]
  end.
  reflexivity.
Qed.

(** What a successful run went through. *)
Lemma finalizer_success (account r : Account) :
  outcome (finalizeAndValidateAccount env account) = Ok r ->
  exists s1 s2 : gmap string JS,
    trim_host "imap_host" (settings account) = Ok s1
    /\ trim_host "smtp_host" s1 = Ok s2
    /\ r = set_authedAt (prepared_account account s2) (now env).
Proof.
  rewrite finalizeAndValidateAccount_eq.
  destruct (trim_host "imap_host" (settings account)) as [s1 | e] eqn:H1;
    [| discriminate].
  destruct (trim_host "smtp_host" s1) as [s2 | e] eqn:H2; [| discriminate].
  unfold outcome. cbn [snd].
  destruct (mailsync_test env (prepared_account account s2)); [discriminate |].
  intros [= <-]. exists s1, s2. by repeat split.
Qed.

Lemma finalizer_success_events (account r : Account) :
  outcome (finalizeAndValidateAccount env account) = Ok r ->
  exists a : Account,
    finalizeAndValidateAccount env account = ([EvMailsyncTest a], Ok r)
    /\ r = set_authedAt a (now env) /\ mailsync_test env a = None.
Proof.
  intros Hr. destruct (finalizer_success account r Hr) as (s1 & s2 & H1 & H2 & ->).
  exists (prepared_account account s2). revert Hr.
  rewrite finalizeAndValidateAccount_eq, H1, H2. unfold outcome. cbn [snd].
  destruct (mailsync_test env (prepared_account account s2)); [discriminate |].
  by intros _.
Qed.

Lemma finalizer_keeps_key (account r : Account) (k : string) :
  outcome (finalizeAndValidateAccount env account) = Ok r ->
  k ∉ finalized_keys -> settings r !! k = settings account !! k.
Proof.
  intros Hr Hk. destruct (finalizer_success account r Hr) as (s1 & s2 & H1 & H2 & ->).
  unfold finalized_keys in Hk.
  repeat (apply not_elem_of_cons in Hk as [? Hk]).
  cbn [settings set_authedAt]. rewrite prepared_account_settings.
  rewrite !coerce_port_lookup, lookup_insert_ne by done.
  rewrite (trim_host_lookup _ _ _ _ H2), (trim_host_lookup _ _ _ _ H1) by done.
  reflexivity.
Qed.

Lemma finalizer_keeps_attributes (account r : Account) :
  outcome (finalizeAndValidateAccount env account) = Ok r ->
  name r = name account /\ emailAddress r = emailAddress account
  /\ provider r = provider account /\ authedAt r = Some (now env).
Proof.
  intros Hr. destruct (finalizer_success account r Hr) as (s1 & s2 & _ & _ & ->).
  cbn [name emailAddress provider authedAt set_authedAt]. unfold prepared_account.
  cbv zeta.
  match goal with
  | |- context [normalize_label ?a] =>
      destruct (normalize_label_keeps a) as (_ & _ & -> & -> & -> & _)
  end.
  by repeat split.
Qed.

(** X17. The settings after the finalizer. Apart from [imap_host],
    [smtp_host], [username], [imap_port] and [smtp_port] every property is
    returned as it was given, passwords and security modes included. A host
    that is a non-empty string is trimmed, a falsy one is left alone. A port
    that is set becomes the number [Number] gives for it, so a port read
    from an autoconfig document as text is returned as a number; a falsy
    one is left alone. [username] is always written: the old [username] if
    truthy, else the [email] property. *)
Theorem finalizer_settings (account r : Account) :
  outcome (finalizeAndValidateAccount env account) = Ok r ->
  (forall k : string, k ∉ finalized_keys -> settings r !! k = settings account !! k)
  /\ (forall k : string,
        k = "imap_host" \/ k = "smtp_host" ->
        (forall h : string,
            prop (settings account) k = JStr h -> h ≠ "" ->
            settings r !! k = Some (JStr (trim h)))
        /\ (Js.truthy (prop (settings account) k) = false ->
            settings r !! k = settings account !! k))
  /\ (forall k : string,
        k = "imap_port" \/ k = "smtp_port" ->
        (Js.truthy (prop (settings account) k) = true ->
         settings r !! k = Some (JNum (Number (prop (settings account) k))))
        /\ (Js.truthy (prop (settings account) k) = false ->
            settings r !! k = settings account !! k))
  /\ settings r !! "username"
     = Some (Js.or (prop (settings account) "username") (prop (settings account) "email")).
Proof.
  intros Hr. split; [intros k; by apply finalizer_keeps_key |].
  destruct (finalizer_success account r Hr) as (s1 & s2 & H1 & H2 & ->).
  cbn [settings set_authedAt]. rewrite prepared_account_settings.
  assert (forall k : string, k ≠ "imap_host" -> k ≠ "smtp_host" ->
            s2 !! k = settings account !! k) as Hs2.
  { intros k Ha Hb.
    by rewrite (trim_host_lookup _ _ _ _ H2), (trim_host_lookup _ _ _ _ H1). }
  assert (forall k : string, k ≠ "imap_host" -> k ≠ "smtp_host" ->
            prop s2 k = prop (settings account) k) as Hp2.
  { intros k Ha Hb. unfold prop. by rewrite Hs2. }
  split; [| split].
  - intros k Hk.
    assert (coerce_port "smtp_port"
              (coerce_port "imap_port"
                 (<[ "username" := Js.or (prop s2 "username") (prop s2 "email") ]> s2))
            !! k = s2 !! k) as ->.
    { destruct Hk as [-> | ->];
        by rewrite !coerce_port_lookup, lookup_insert_ne by done. }
    assert (prop s1 "smtp_host" = prop (settings account) "smtp_host") as Hsame.
    { unfold prop. by rewrite (trim_host_lookup _ _ _ _ H1). }
    destruct Hk as [-> | ->].
    + rewrite (trim_host_lookup _ _ _ _ H2) by done. unfold trim_host in H1. split.
      * intros h Hh Hne. rewrite Hh in H1. cbn in H1.
        apply String.eqb_neq in Hne. rewrite Hne in H1. cbn in H1.
        injection H1 as <-. by rewrite lookup_insert_eq.
      * intros Hf. rewrite Hf in H1. by injection H1 as <-.
    + unfold trim_host in H2. rewrite Hsame in H2. split.
      * intros h Hh Hne. rewrite Hh in H2. cbn in H2.
        apply String.eqb_neq in Hne. rewrite Hne in H2. cbn in H2.
        injection H2 as <-. by rewrite lookup_insert_eq.
      * intros Hf. rewrite Hf in H2. injection H2 as <-.
        by rewrite (trim_host_lookup _ _ _ _ H1).
  - intros k [-> | ->].
    + rewrite coerce_port_lookup, coerce_port_at by done.
      rewrite prop_insert_ne, lookup_insert_ne, Hp2, Hs2 by done.
      split; by intros ->.
    + rewrite coerce_port_at, coerce_port_other, coerce_port_lookup by done.
      rewrite prop_insert_ne, lookup_insert_ne, Hp2, Hs2 by done.
      split; by intros ->.
  - rewrite !coerce_port_lookup, lookup_insert_eq, !Hp2 by done. reflexivity.
Qed.

(** X18. The attributes after the finalizer. Name, address and provider
    are returned as given and the authentication date is the current time.
    A label that contains an [@] is replaced by the address; any other
    label, also a missing one, is kept. *)
Theorem finalizer_attributes (account r : Account) :
  outcome (finalizeAndValidateAccount env account) = Ok r ->
  name r = name account /\ emailAddress r = emailAddress account
  /\ provider r = provider account /\ authedAt r = Some (now env)
  /\ (forall l : string,
        label account = Some l -> Str.includes "@" l = true ->
        label r = Some (emailAddress account))
  /\ (label account = None
      \/ (exists l : string, label account = Some l /\ Str.includes "@" l = false) ->
      label r = label account).
Proof.
  intros Hr. destruct (finalizer_keeps_attributes account r Hr) as (Hn & He & Hp & Ha).
  repeat (split; [assumption |]).
  destruct (finalizer_success account r Hr) as (s1 & s2 & _ & _ & ->).
  unfold prepared_account, normalize_label, set_authedAt, set_label, set_settings, set_id.
  cbv zeta. cbn [label emailAddress]. split.
  - intros l -> Hl. rewrite Hl.
    assert (l ≠ "") as Hne by (intros ->; discriminate).
    apply String.eqb_neq in Hne. by rewrite Hne.
  - intros [-> | (l & -> & Hl)]; [reflexivity |].
    rewrite Hl, andb_false_r. reflexivity.
Qed.
End FinalizerEffects.

(** ** The OAuth builders *)

Section Sequencing.
Context {Ev A B : Type}.
Implicit Types (m : @M Ev A) (k : A -> @M Ev B).

Lemma bind_outcome_Ok m k (a : A) :
  outcome m = Ok a -> bind m k = (events m ++ events (k a), outcome (k a)).
Proof.
  destruct m as [l o]. unfold outcome, events. cbn [fst snd]. intros ->.
  unfold bind. by destruct (k a).
Qed.

Lemma bind_outcome_Throw m k (e : Error) :
  outcome m = Throw e -> bind m k = (events m, Throw e).
Proof. destruct m as [l o]. unfold outcome, events. cbn [fst snd]. by intros ->. Qed.

Lemma bind_lift_Ok (a : A) k : bind (lift (Ok a)) k = k a.
Proof. unfold bind, lift. by destruct (k a). Qed.

Lemma bind_lift_Throw (e : Error) k : bind (lift (Throw e : Outcome A)) k = ([], Throw e).
Proof. reflexivity. Qed.
End Sequencing.

Section OAuth.
Context {rt : JSRuntime} (env : Env).

Lemma fetch_profile_eq (u : string) (access_token : JS) (what : string) :
  fetch_profile env u access_token what
  = ([EvFetch (bearer_request u access_token)],
     match fetch env (bearer_request u access_token) with
     | None => Throw (HttpError "fetch failed")
     | Some meResp =>
         match json meResp with
         | None => Throw (ErrorMsg "invalid json response body")
         | Some me => if ok meResp then Ok me else Throw (HttpError what)
         end
     end).
Proof.
  unfold fetch_profile, bind, emit, throw, ret. cbn.
  destruct (fetch env (bearer_request u access_token)) as [resp |]; [| reflexivity].
  destruct (json resp) as [me |]; [| reflexivity].
  by destruct (ok resp).
Qed.

Lemma post_fails (u : string) (form : list (string * string)) :
  request_fails env (form_request u form) ->
  exists e : Error,
    fetchPostWithFormBody env u form = ([EvFetch (form_request u form)], Throw e).
Proof.
  rewrite fetchPostWithFormBody_eq. intros [-> | (resp & -> & [Hj | Hok])].
  - eauto.
  - rewrite Hj. eauto.
  - rewrite Hok. destruct (json resp); eauto.
Qed.

Lemma post_succeeds (u : string) (form : list (string * string)) (tokens : JS) :
  outcome (fetchPostWithFormBody env u form) = Ok tokens ->
  fetchPostWithFormBody env u form = ([EvFetch (form_request u form)], Ok tokens)
  /\ tokens ≠ JUndef /\ tokens ≠ JNull
  /\ exists j : JS,
       request_answers env (form_request u form) j
       /\ tokens = (if Js.truthy j then j else JObj []).
Proof.
  rewrite fetchPostWithFormBody_eq. unfold outcome. cbn [snd].
  destruct (fetch env (form_request u form)) as [resp |] eqn:Hf; [| discriminate].
  destruct (json resp) as [j |] eqn:Hj; [| discriminate].
  destruct (ok resp) eqn:Hok; [| discriminate].
  intros [= <-]. split; [reflexivity |].
  assert (Js.truthy (Js.or j (JObj [])) = true) as Ht
    by (unfold Js.or; by destruct (Js.truthy j) eqn:E).
  split; [intros E; by rewrite E in Ht |]. split; [intros E; by rewrite E in Ht |].
  exists j. split; [| reflexivity]. exists resp. by rewrite Hf.
Qed.

Lemma profile_fails (u : string) (access_token : JS) (what : string) :
  request_fails env (bearer_request u access_token) ->
  exists e : Error,
    fetch_profile env u access_token what
    = ([EvFetch (bearer_request u access_token)], Throw e).
Proof.
  rewrite fetch_profile_eq. intros [-> | (resp & -> & [Hj | Hok])].
  - eauto.
  - rewrite Hj. eauto.
  - rewrite Hok. destruct (json resp); eauto.
Qed.

Lemma profile_succeeds (u : string) (access_token : JS) (what : string) (me : JS) :
  outcome (fetch_profile env u access_token what) = Ok me ->
  fetch_profile env u access_token what = ([EvFetch (bearer_request u access_token)], Ok me)
  /\ request_answers env (bearer_request u access_token) me.
Proof.
  rewrite fetch_profile_eq. unfold outcome. cbn [snd].
  destruct (fetch env (bearer_request u access_token)) as [resp |] eqn:Hf; [| discriminate].
  destruct (json resp) as [j |] eqn:Hj; [| discriminate].
  destruct (ok resp) eqn:Hok; [| discriminate].
  intros [= <-]. split; [reflexivity |]. exists resp. by rewrite Hf.
Qed.

Lemma profile_answers (u : string) (access_token : JS) (what : string) (me : JS) :
  request_answers env (bearer_request u access_token) me ->
  fetch_profile env u access_token what = ([EvFetch (bearer_request u access_token)], Ok me).
Proof.
  intros (resp & Hf & Hok & Hj). by rewrite fetch_profile_eq, Hf, Hj, Hok.
Qed.

(** X19. A failed OAuth exchange stops a builder at once. If the token
    request fails, is answered with a non-2xx status or with a body that is
    not JSON, the builder throws after that single request. If the token
    exchange succeeds and the profile request fails in one of these ways,
    the builder throws after these two requests. In both cases no DNS
    lookup, no autoconfig fetch and no connection test takes place. *)
Theorem oauth_failure_stops_builder (code provider0 : string) :
  let gmail_post := form_request gmail_token_url (gmail_token_form env code) in
  let ms_post := form_request microsoft_token_url (microsoft_token_form env code) in
  (request_fails env gmail_post ->
   events (buildGmailAccountFromAuthResponse env code) = [EvFetch gmail_post]
   /\ exists e : Error, outcome (buildGmailAccountFromAuthResponse env code) = Throw e)
  /\ (request_fails env ms_post ->
      events (buildMicrosoftAccountFromAuthResponse env code provider0) = [EvFetch ms_post]
      /\ exists e : Error,
           outcome (buildMicrosoftAccountFromAuthResponse env code provider0) = Throw e)
  /\ (forall tokens : JS,
        outcome (fetchPostWithFormBody env gmail_token_url (gmail_token_form env code))
        = Ok tokens ->
        request_fails env (gmail_profile_request tokens) ->
        events (buildGmailAccountFromAuthResponse env code)
        = [EvFetch gmail_post; EvFetch (gmail_profile_request tokens)]
        /\ exists e : Error, outcome (buildGmailAccountFromAuthResponse env code) = Throw e)
  /\ (forall tokens : JS,
        outcome (fetchPostWithFormBody env microsoft_token_url (microsoft_token_form env code))
        = Ok tokens ->
        request_fails env (microsoft_profile_request tokens) ->
        events (buildMicrosoftAccountFromAuthResponse env code provider0)
        = [EvFetch ms_post; EvFetch (microsoft_profile_request tokens)]
        /\ exists e : Error,
             outcome (buildMicrosoftAccountFromAuthResponse env code provider0) = Throw e).
Proof.
  intros gmail_post ms_post. split; [| split; [| split]].
  - intros Hf. destruct (post_fails _ _ Hf) as [e He].
    unfold buildGmailAccountFromAuthResponse.
    fold gmail_token_url (gmail_token_form env code).
    rewrite (bind_Throw _ _ _ _ He). split; [reflexivity | eauto].
  - intros Hf. destruct (post_fails _ _ Hf) as [e He].
    unfold buildMicrosoftAccountFromAuthResponse.
    fold microsoft_token_url (microsoft_token_form env code).
    rewrite (bind_Throw _ _ _ _ He). split; [reflexivity | eauto].
  - intros tokens Htok Hf.
    destruct (post_succeeds _ _ _ Htok) as (Hpost & H1 & H2 & _).
    unfold buildGmailAccountFromAuthResponse.
    fold gmail_token_url (gmail_token_form env code).
    rewrite (bind_Ok _ _ _ _ Hpost), !get_field, !bind_lift_Ok by assumption.
    destruct (profile_fails _ _ "Gmail profile request returned an error status" Hf)
      as [e He].
    unfold gmail_profile_request in *. rewrite (bind_Throw _ _ _ _ He).
    split; [reflexivity | cbn; eauto].
  - intros tokens Htok Hf.
    destruct (post_succeeds _ _ _ Htok) as (Hpost & H1 & H2 & _).
    unfold buildMicrosoftAccountFromAuthResponse.
    fold microsoft_token_url (microsoft_token_form env code).
    rewrite (bind_Ok _ _ _ _ Hpost), !get_field, !bind_lift_Ok by assumption.
    destruct (profile_fails _ _ "O365 profile request returned an error status" Hf)
      as [e He].
    unfold microsoft_profile_request in *. rewrite (bind_Throw _ _ _ _ He).
    split; [reflexivity | cbn; eauto].
Qed.

(** X20. A Microsoft profile without a mailbox. When the token exchange
    and the profile request succeed but the profile has no [mail] (it is
    missing, [null] or empty), the builder throws the localized message
    about the missing mailbox, after these two requests and before any DNS
    lookup or connection test. *)
Theorem microsoft_profile_without_mailbox (code provider0 : string) (tokens me : JS) :
  outcome (fetchPostWithFormBody env microsoft_token_url (microsoft_token_form env code))
  = Ok tokens ->
  request_answers env (microsoft_profile_request tokens) me ->
  me ≠ JUndef -> me ≠ JNull ->
  Js.truthy (field me "mail") = false ->
  buildMicrosoftAccountFromAuthResponse env code provider0
  = ([ EvFetch (form_request microsoft_token_url (microsoft_token_form env code));
       EvFetch (microsoft_profile_request tokens) ],
     Throw (ErrorMsg (localized env
                        "There is no email mailbox associated with this account."))).
Proof.
  intros Htok Hme Hu Hn Hmail.
  destruct (post_succeeds _ _ _ Htok) as (Hpost & H1 & H2 & _).
  unfold buildMicrosoftAccountFromAuthResponse.
  fold microsoft_token_url (microsoft_token_form env code).
  rewrite (bind_Ok _ _ _ _ Hpost), !get_field, !bind_lift_Ok by assumption.
  unfold microsoft_profile_request in *.
  rewrite (bind_Ok _ _ _ _
             (profile_answers _ _ "O365 profile request returned an error status" _ Hme)).
  rewrite (get_field me) by assumption. rewrite bind_lift_Ok, Hmail. reflexivity.
Qed.
End OAuth.

Section OAuthResults.
Context {rt : JSRuntime} (env : Env).

Lemma as_address_Ok (v : JS) (address : string) :
  as_address v = Ok address -> v = JStr address.
Proof. destruct v; cbn; intros H; try discriminate. by injection H as ->. Qed.

Lemma get_Ok_field (v w : JS) (k : string) : Js.get v k = Ok w -> field v k = w.
Proof. unfold field. by intros ->. Qed.

(** What resolution and finalization keep of the account a builder made. *)
Lemma oauth_account_kept (n : JS) (address provider0 client_id : string) (tokens : JS)
    (resolved r : Account) (i : string) :
  outcome (expandAccountWithCommonSettings env
             (oauth_account n address provider0 client_id tokens)) = Ok resolved ->
  outcome (finalizeAndValidateAccount env (set_id resolved i)) = Ok r ->
  emailAddress r = address /\ name r = n /\ provider r = provider0
  /\ settings r !! "refresh_token" = Some (field tokens "refresh_token")
  /\ settings r !! "refresh_client_id" = Some (JStr client_id)
  /\ authedAt r = Some (now env).
Proof.
  intros Hexp Hfin. apply expand_route in Hexp.
  destruct (route_defaults env _ _ Hexp)
    as (d & _ & _ & Hkeys & _ & Hn & He & Hp & _).
  destruct (finalizer_keeps_attributes env _ _ Hfin) as (Hn' & He' & Hp' & Ha).
  cbn [name emailAddress provider set_id] in Hn', He', Hp'.
  rewrite Hn', He', Hp', Hn, He, Hp.
  repeat (split; [reflexivity |]).
  rewrite !(finalizer_keeps_key env _ _ _ Hfin)
    by (unfold finalized_keys; intros Hin;
        repeat (apply elem_of_cons in Hin as [? | Hin]; [discriminate |]);
        by apply elem_of_nil in Hin).
  cbn [settings set_id]. rewrite !Hkeys by (intros ?; discriminate).
  rewrite !Object_assign_lookup. cbn [settings oauth_account new_Account].
  split; [| split; [| exact Ha]]; lookup_key; reflexivity.
Qed.

(** X21. An account returned by the Gmail builder. The token exchange and
    the profile request were both answered; the requests came first, then
    the I/O of the resolution, and the connection test last, on the account
    that is returned. The account has the profile's [email] as address and
    its [name] as name, the provider [gmail], and its settings hold the
    refresh token of the exchange and the Gmail client id, whatever the
    resolution added. *)
Theorem gmail_builder_result (code : string) (r : Account) :
  outcome (buildGmailAccountFromAuthResponse env code) = Ok r ->
  exists (tokens me : JS) (address : string) (a : Account),
    outcome (fetchPostWithFormBody env gmail_token_url (gmail_token_form env code))
    = Ok tokens
    /\ request_answers env (gmail_profile_request tokens) me
    /\ field me "email" = JStr address
    /\ events (buildGmailAccountFromAuthResponse env code)
       = EvFetch (form_request gmail_token_url (gmail_token_form env code))
         :: EvFetch (gmail_profile_request tokens)
         :: events (expandAccountWithCommonSettings env
                      (oauth_account (field me "name") address "gmail"
                         (GMAIL_CLIENT_ID env) tokens))
         ++ [EvMailsyncTest a]
    /\ r = set_authedAt a (now env) /\ mailsync_test env a = None
    /\ emailAddress r = address /\ name r = field me "name" /\ provider r = "gmail"
    /\ settings r !! "refresh_token" = Some (field tokens "refresh_token")
    /\ settings r !! "refresh_client_id" = Some (JStr (GMAIL_CLIENT_ID env))
    /\ authedAt r = Some (now env).
Proof.
  intros H. pose proof H as Hall. unfold buildGmailAccountFromAuthResponse in H.
  fold gmail_token_url (gmail_token_form env code) in H.
  apply outcome_bind_Ok in H as (tokens & Htok & H).
  destruct (post_succeeds env _ _ _ Htok) as (Hpost & H1 & H2 & _).
  rewrite !get_field, !bind_lift_Ok in H by assumption.
  apply outcome_bind_Ok in H as (me & Hme & H).
  destruct (profile_succeeds env _ _ _ _ Hme) as (Hprofile & Hanswer).
  apply outcome_bind_Ok in H as (n & Hn & H). rewrite outcome_lift in Hn.
  apply outcome_bind_Ok in H as (e & He & H). rewrite outcome_lift in He.
  apply outcome_bind_Ok in H as (address & Ha & H). rewrite outcome_lift in Ha.
  apply as_address_Ok in Ha as ->.
  apply outcome_bind_Ok in H as (resolved & Hexp & H). cbv zeta in H.
  destruct (finalizer_success_events env _ _ H) as (a & Hfin & Hr & Hm).
  rewrite <- (get_Ok_field _ _ _ Hn) in Hexp.
  fold (oauth_account (field me "name") address "gmail" (GMAIL_CLIENT_ID env) tokens)
    in Hexp.
  exists tokens, me, address, a.
  split; [exact Htok |]. split; [exact Hanswer |].
  split; [by apply get_Ok_field |].
  split.
  { unfold buildGmailAccountFromAuthResponse.
    fold gmail_token_url (gmail_token_form env code).
    rewrite (bind_Ok _ _ _ _ Hpost), !get_field, !bind_lift_Ok by assumption.
    fold (gmail_profile_request tokens) in Hprofile.
    unfold gmail_profile_request in Hprofile |- *.
    rewrite (bind_Ok _ _ _ _ Hprofile), Hn, bind_lift_Ok, He, bind_lift_Ok.
    cbn [as_address]. rewrite bind_lift_Ok.
    rewrite <- (get_Ok_field _ _ _ Hn).
    fold (oauth_account (field me "name") address "gmail" (GMAIL_CLIENT_ID env) tokens).
    rewrite (bind_outcome_Ok _ _ _ Hexp). cbv zeta. rewrite Hfin.
    reflexivity. }
  split; [exact Hr |]. split; [exact Hm |].
  exact (oauth_account_kept _ _ _ _ _ _ _ _ Hexp H).
Qed.

(** X22. An account returned by the Microsoft builder. As for Gmail, with
    the profile's [mail] as address and its [displayName] as name, the
    provider the builder was called with ([office365] or [outlook] for the
    two entry points), and the Microsoft client id. *)
Theorem microsoft_builder_result (code provider0 : string) (r : Account) :
  outcome (buildMicrosoftAccountFromAuthResponse env code provider0) = Ok r ->
  (exists (tokens me : JS) (address : string) (a : Account),
      outcome (fetchPostWithFormBody env microsoft_token_url
                 (microsoft_token_form env code)) = Ok tokens
      /\ request_answers env (microsoft_profile_request tokens) me
      /\ field me "mail" = JStr address /\ address ≠ ""
      /\ events (buildMicrosoftAccountFromAuthResponse env code provider0)
         = EvFetch (form_request microsoft_token_url (microsoft_token_form env code))
           :: EvFetch (microsoft_profile_request tokens)
           :: events (expandAccountWithCommonSettings env
                        (oauth_account (field me "displayName") address provider0
                           (O365_CLIENT_ID env) tokens))
           ++ [EvMailsyncTest a]
      /\ r = set_authedAt a (now env) /\ mailsync_test env a = None
      /\ emailAddress r = address /\ name r = field me "displayName"
      /\ provider r = provider0
      /\ settings r !! "refresh_token" = Some (field tokens "refresh_token")
      /\ settings r !! "refresh_client_id" = Some (JStr (O365_CLIENT_ID env))
      /\ authedAt r = Some (now env))
  /\ (forall r' : Account,
        (outcome (buildO365AccountFromAuthResponse env code) = Ok r' ->
         provider r' = "office365")
        /\ (outcome (buildOutlookAccountFromAuthResponse env code) = Ok r' ->
            provider r' = "outlook")).
Proof.
  assert (forall (p : string) (r0 : Account),
             outcome (buildMicrosoftAccountFromAuthResponse env code p) = Ok r0 ->
             exists (tokens me : JS) (address : string) (a : Account),
               outcome (fetchPostWithFormBody env microsoft_token_url
                          (microsoft_token_form env code)) = Ok tokens
               /\ request_answers env (microsoft_profile_request tokens) me
               /\ field me "mail" = JStr address /\ address ≠ ""
               /\ events (buildMicrosoftAccountFromAuthResponse env code p)
                  = EvFetch (form_request microsoft_token_url (microsoft_token_form env code))
                    :: EvFetch (microsoft_profile_request tokens)
                    :: events (expandAccountWithCommonSettings env
                                 (oauth_account (field me "displayName") address p
                                    (O365_CLIENT_ID env) tokens))
                    ++ [EvMailsyncTest a]
               /\ r0 = set_authedAt a (now env) /\ mailsync_test env a = None
               /\ emailAddress r0 = address /\ name r0 = field me "displayName"
               /\ provider r0 = p
               /\ settings r0 !! "refresh_token" = Some (field tokens "refresh_token")
               /\ settings r0 !! "refresh_client_id" = Some (JStr (O365_CLIENT_ID env))
               /\ authedAt r0 = Some (now env)) as Hgen.
  { intros p r0 H. unfold buildMicrosoftAccountFromAuthResponse in H.
    fold microsoft_token_url (microsoft_token_form env code) in H.
    apply outcome_bind_Ok in H as (tokens & Htok & H).
    destruct (post_succeeds env _ _ _ Htok) as (Hpost & H1 & H2 & _).
    rewrite !get_field, !bind_lift_Ok in H by assumption.
    apply outcome_bind_Ok in H as (me & Hme & H).
    destruct (profile_succeeds env _ _ _ _ Hme) as (Hprofile & Hanswer).
    apply outcome_bind_Ok in H as (m & Hmail & H). rewrite outcome_lift in Hmail.
    destruct (Js.truthy m) eqn:Htruthy; [| discriminate]. cbn [negb] in H.
    apply outcome_bind_Ok in H as (n & Hn & H). rewrite outcome_lift in Hn.
    apply outcome_bind_Ok in H as (address & Ha & H). rewrite outcome_lift in Ha.
    apply as_address_Ok in Ha as ->.
    apply outcome_bind_Ok in H as (resolved & Hexp & H).
    apply outcome_bind_Ok in H as (e & He & H). rewrite outcome_lift in He.
    cbv zeta in H.
    destruct (finalizer_success_events env _ _ H) as (a & Hfin & Hr & Hm).
    rewrite <- (get_Ok_field _ _ _ Hn) in Hexp.
    fold (oauth_account (field me "displayName") address p (O365_CLIENT_ID env) tokens)
      in Hexp.
    exists tokens, me, address, a.
    split; [exact Htok |]. split; [exact Hanswer |].
    split; [by apply get_Ok_field |].
    split; [intros ->; discriminate Htruthy |].
    split.
    { unfold buildMicrosoftAccountFromAuthResponse.
      fold microsoft_token_url (microsoft_token_form env code).
      rewrite (bind_Ok _ _ _ _ Hpost), !get_field, !bind_lift_Ok by assumption.
      unfold microsoft_profile_request in Hprofile |- *.
      rewrite (bind_Ok _ _ _ _ Hprofile), Hmail, bind_lift_Ok.
      rewrite Htruthy. cbn [negb].
      rewrite Hn, bind_lift_Ok. cbn [as_address]. rewrite bind_lift_Ok.
      rewrite <- (get_Ok_field _ _ _ Hn).
      fold (oauth_account (field me "displayName") address p (O365_CLIENT_ID env) tokens).
      rewrite (bind_outcome_Ok _ _ _ Hexp), He, bind_lift_Ok. cbv zeta. rewrite Hfin.
      reflexivity. }
    split; [exact Hr |]. split; [exact Hm |].
    exact (oauth_account_kept _ _ _ _ _ _ _ _ Hexp H). }
  intros H. split; [by apply Hgen |].
  intros r'. split; intros H'.
  - by destruct (Hgen "office365" r' H')
      as (? & ? & ? & ? & _ & _ & _ & _ & _ & _ & _ & _ & _ & Hp & _).
  - by destruct (Hgen "outlook" r' H')
      as (? & ? & ? & ? & _ & _ & _ & _ & _ & _ & _ & _ & _ & Hp & _).
Qed.
End OAuthResults.

(** ** Authorization URLs and token requests *)

Section AuthorizationRequests.
Context {rt : JSRuntime} (env : Env).
Variables (qs_escape : string -> string) (GMAIL_SCOPES : list string)
  (CODE_CHALLENGE : string).

(** X23. The authorization URL and the token request of a provider agree.
    Each URL is its endpoint followed by the query string of a parameter
    list. For Gmail and for Microsoft the [client_id] and the
    [redirect_uri] of that list are those sent with the token exchange. The
    Microsoft authorization URL asks for all of [O365_SCOPES]; the token
    exchange sends, in the same order, exactly those that do not start with
    [https://outlook.office.com]. *)
Theorem authorization_matches_token_request (code : string) :
  (buildGmailAuthURL qs_escape GMAIL_SCOPES env
   = "https://accounts.google.com/o/oauth2/auth?"
     +:+ qs_stringify qs_escape (gmail_auth_params GMAIL_SCOPES env)
   /\ buildO365AuthURL qs_escape CODE_CHALLENGE env
      = "https://login.microsoftonline.com/common/oauth2/v2.0/authorize?"
        +:+ qs_stringify qs_escape (o365_auth_params CODE_CHALLENGE env))
  /\ (forall k : string,
      k = "client_id" \/ k = "redirect_uri" ->
      param k (gmail_auth_params GMAIL_SCOPES env) = param k (gmail_token_form env code)
      /\ param k (o365_auth_params CODE_CHALLENGE env)
         = param k (microsoft_token_form env code)
      /\ param k (gmail_token_form env code) <> None
      /\ param k (microsoft_token_form env code) <> None)
  /\ param "scope" (o365_auth_params CODE_CHALLENGE env)
     = Some (Str.join " " (O365_SCOPES env))
  /\ exists sent : list string,
       param "scope" (microsoft_token_form env code) = Some (Str.join " " sent)
       /\ sent `sublist_of` O365_SCOPES env
       /\ forall f : string,
            f ∈ sent
            <-> f ∈ O365_SCOPES env /\ Str.startsWith "https://outlook.office.com" f = false.
Proof.
  split; [| split; [| split]].
  - by split.
  - intros k [-> | ->]; by repeat split.
  - reflexivity.
  - eexists. split; [reflexivity |]. split.
    + apply sublist_filter.
    + intros f. rewrite list_elem_of_filter.
      destruct (Str.startsWith "https://outlook.office.com" f); cbn [negb Is_true];
        intuition discriminate.
Qed.
End AuthorizationRequests.

(** ** The hashed text is unambiguous *)

Lemma append_cancel (p x y : string) : p +:+ x = p +:+ y -> x = y.
Proof.
  induction p as [| c p IH]; [by rewrite !append_empty |].
  rewrite !append_cons. intros [= H]. by apply IH.
Qed.

Lemma mismatch_append (a b x y : string) :
  mismatch a b = true -> a +:+ x ≠ b +:+ y.
Proof.
  revert b. induction a as [| c a IH]; intros [| d b]; try discriminate.
  cbn [mismatch]. rewrite !append_cons. destruct (Ascii.eqb c d) eqn:E.
  - intros Hm [= _ H]. by apply (IH b Hm).
  - intros _ [= H _]. apply Ascii.eqb_neq in E. by destruct E.
Qed.

Lemma elem_of_all_ascii (c : ascii) : In c all_ascii.
Proof.
  unfold all_ascii. rewrite <- (ascii_nat_embedding c). apply in_map.
  apply in_seq. pose proof (nat_ascii_bounded c). lia.
Qed.

Lemma escape_char_table :
  forallb (fun c1 =>
    forallb (fun c2 => Ascii.eqb c1 c2 || mismatch (Js.escape_char c1) (Js.escape_char c2))
            all_ascii
    && mismatch (Js.escape_char c1) (String Str.dquote ""))
    all_ascii = true.
Proof. vm_compute. reflexivity. Qed.

Lemma escape_char_distinct (c1 c2 : ascii) (x y : string) :
  Js.escape_char c1 +:+ x = Js.escape_char c2 +:+ y -> c1 = c2 /\ x = y.
Proof.
  intros H. pose proof escape_char_table as T.
  rewrite forallb_forall in T. specialize (T c1 (elem_of_all_ascii c1)).
  apply andb_true_iff in T as [T _].
  rewrite forallb_forall in T. specialize (T c2 (elem_of_all_ascii c2)).
  apply orb_true_iff in T as [T | T].
  - apply Ascii.eqb_eq in T as ->. split; [reflexivity |]. by apply append_cancel in H.
  - by destruct (mismatch_append _ _ x y T).
Qed.

Lemma escape_char_not_quote (c : ascii) (x y : string) :
  Js.escape_char c +:+ x ≠ String Str.dquote y.
Proof.
  pose proof escape_char_table as T.
  rewrite forallb_forall in T. specialize (T c (elem_of_all_ascii c)).
  apply andb_true_iff in T as [_ T].
  exact (mismatch_append _ _ x y T).
Qed.

(** An escaped string ends at the first quote: the text is cut in one way. *)
Lemma escape_delimited (s1 s2 r1 r2 : string) :
  Js.escape s1 +:+ String Str.dquote r1 = Js.escape s2 +:+ String Str.dquote r2 ->
  s1 = s2 /\ r1 = r2.
Proof.
  revert s2. induction s1 as [| c1 s1 IH]; intros [| c2 s2]; cbn [Js.escape].
  - rewrite !append_empty. by intros [= ->].
  - rewrite append_empty, append_assoc. intros H. symmetry in H.
    by destruct (escape_char_not_quote _ _ _ H).
  - rewrite append_empty, append_assoc. intros H.
    by destruct (escape_char_not_quote _ _ _ H).
  - rewrite !append_assoc. intros H.
    apply escape_char_distinct in H as [-> H].
    by destruct (IH _ H) as [-> ->].
Qed.

Lemma quote_delimited (s1 s2 r1 r2 : string) :
  Js.quote s1 +:+ r1 = Js.quote s2 +:+ r2 -> s1 = s2 /\ r1 = r2.
Proof.
  unfold Js.quote. rewrite !append_cons, !append_assoc. intros [= H].
  exact (escape_delimited _ _ _ _ H).
Qed.

Lemma member_delimited (k s1 s2 r1 r2 : string) :
  Js.quote k +:+ ":" +:+ Js.quote s1 +:+ r1 = Js.quote k +:+ ":" +:+ Js.quote s2 +:+ r2 ->
  s1 = s2 /\ r1 = r2.
Proof.
  intros H. apply append_cancel in H. apply append_cancel in H.
  exact (quote_delimited _ _ _ _ H).
Qed.

(** X24. The text [idForAccount] hashes determines the four fields. The
    id is the first 8 hex characters of the SHA-256 digest of [id_string];
    for one address and settings whose four fields are strings, two
    settings objects have the same [id_string] only if they agree on the
    four fields. Quotes and backslashes inside a field are escaped, so no
    field value can imitate a field boundary; two accounts get the same id
    only through a collision of the truncated digest. *)
Theorem id_string_unambiguous (emailAddress : string) (s1 s2 : gmap string JS)
    (u1 h1 v1 g1 u2 h2 v2 g2 : string) :
  prop s1 "imap_username" = JStr u1 -> prop s1 "imap_host" = JStr h1 ->
  prop s1 "smtp_username" = JStr v1 -> prop s1 "smtp_host" = JStr g1 ->
  prop s2 "imap_username" = JStr u2 -> prop s2 "imap_host" = JStr h2 ->
  prop s2 "smtp_username" = JStr v2 -> prop s2 "smtp_host" = JStr g2 ->
  (forall e : JS, idForAccount e s1 = String.substring 0 8 (SHA256.hex (id_string e s1)))
  /\ (id_string (JStr emailAddress) s1 = id_string (JStr emailAddress) s2 ->
      u1 = u2 /\ h1 = h2 /\ v1 = v2 /\ g1 = g2).
Proof.
  intros A1 B1 C1 D1 A2 B2 C2 D2. split; [reflexivity |].
  unfold id_string. rewrite A1, B1, C1, D1, A2, B2, C2, D2.
  cbn [Js.ToString Js.stringify map concat fst snd app Str.join default
       from_option Datatypes.id].
  intros H. apply append_cancel in H. apply append_cancel in H.
  rewrite !append_assoc in H.
  apply member_delimited in H as [-> H]. apply append_cancel in H.
  apply member_delimited in H as [-> H]. apply append_cancel in H.
  apply member_delimited in H as [-> H]. apply append_cancel in H.
  apply member_delimited in H as [-> _].
  by repeat split.
Qed.

(** ** The properties on the sample deployment *)

Import Demo Scenario.

(** The three routes: a structured template for [example.org], an
    autoconfig document for [pop.example], the preset table for
    [down.example]. *)
Lemma resolution_priority_witness :
  expandAccountWithCommonSettings env ann
  = ([EvResolveMx "example.org"],
     Ok (set_settings ann
           (Object_assign (mailcore_defaults ann ann "example.org" provider_example_org)
                          (settings ann))))
  /\ outcome (expandAccountWithCommonSettings env bob_pop)
     = Ok (returned (expandAccountWithCommonSettings env bob_pop) bob_pop)
  /\ outcome (expandAccountWithCommonSettings env bob_down)
     = preset_path env bob_down bob_down "down.example".
Proof.
  destruct (resolution_priority env ann) as (Hfirst & _).
  destruct (resolution_priority env bob_pop) as (_ & _ & Hsecond & _).
  destruct (resolution_priority env bob_down) as (_ & _ & _ & Hlast).
  assert (structured_template env bob_pop = None) as Hn' by run.
  assert (outcome (TryThunderbirdAutoconfig env bob_pop bob_pop)
          = Ok (Some (returned (expandAccountWithCommonSettings env bob_pop) bob_pop)))
    as Hp' by run.
  pose proof (proj1 (Hsecond Hn' _ Hp')) as H3.
  assert (structured_template env ann = Some provider_example_org) as Ht by run.
  assert (structured_template env bob_down = None) as Hn by run.
  assert (outcome (TryThunderbirdAutoconfig env bob_down bob_down) = Ok None) as Hp by run.
  pose proof (proj1 (Hfirst provider_example_org Ht)) as H1.
  pose proof (Hlast Hn Hp) as H2.
  change (domain_of (emailAddress ann)) with "example.org" in H1.
  change (domain_of (emailAddress bob_down)) with "down.example" in H2.
  exact (conj H1 (conj H3 H2)).
Defined.

(** Two settings objects that differ in password, port and security. *)
Lemma idForAccount_four_fields_witness :
  idForAccount (JStr "ann@example.org")
    (<[ "imap_host" := JStr "imap.example.org" ]>
       (<[ "imap_password" := JStr "one" ]> (<[ "imap_port" := JNum (Int 993) ]> ∅)))
  = idForAccount (JStr "ann@example.org")
      (<[ "imap_host" := JStr "imap.example.org" ]>
         (<[ "imap_password" := JStr "two" ]> (<[ "imap_security" := JStr "none" ]> ∅))).
Proof.
  refine (proj1 (idForAccount_four_fields "ann@example.org" _ _ _ _ _ _)); run.
Defined.


(** C4, counterexample. An account whose settings already hold
    [container_folder] (the empty string) is resolved through the preset
    table in a deployment whose default container folder is [Folders]: the
    returned [container_folder] is [Folders], not the value the account
    had. *)
Lemma existing_container_folder_replaced :
  let r := returned (expandAccountWithCommonSettings env bob_down_cf) bob_down_cf in
  outcome (expandAccountWithCommonSettings env bob_down_cf) = Ok r
  /\ settings bob_down_cf !! "container_folder" = Some (JStr "")
  /\ settings r !! "container_folder" = Some (JStr "Folders").
Proof.
  intros r. split; [run |]. split; run.
Qed.

(** The password the account came with is returned. *)
Lemma existing_settings_win_witness :
  let r := returned (expandAccountWithCommonSettings env bob_down_cf) bob_down_cf in
  outcome (expandAccountWithCommonSettings env bob_down_cf) = Ok r
  /\ settings r !! "imap_password" = Some (JStr "secret").
Proof.
  intros r.
  assert (outcome (expandAccountWithCommonSettings env bob_down_cf) = Ok r) as Hr by run.
  destruct (existing_settings_win env bob_down_cf r Hr) as (_ & _ & Hpw & _ & _).
  split; [exact Hr |]. apply Hpw. reflexivity.
Defined.

(** C5, counterexample. The address matches a provider of the structured
    table, whose template leaves [container_folder] empty; the account has
    no [container_folder] of its own and the deployment default is
    [Folders], not [Mailspring]. The returned [container_folder] is the
    empty string, not the deployment default. *)
Lemma structured_route_ignores_container_default :
  let r := returned (expandAccountWithCommonSettings env ann) ann in
  outcome (expandAccountWithCommonSettings env ann) = Ok r
  /\ structured_template env ann = Some provider_example_org
  /\ settings ann !! "container_folder" = None
  /\ containerFolderDefaultGetter env = "Folders"
  /\ settings r !! "container_folder" = Some (JStr "").
Proof.
  intros r. repeat split; run.
Qed.

(** The generated fallback leaves the folder empty and the deployment
    default is [Folders]. *)
Lemma container_folder_rule_witness :
  let r := returned (expandAccountWithCommonSettings env bob_down) bob_down in
  outcome (expandAccountWithCommonSettings env bob_down) = Ok r
  /\ prop (settings r) "container_folder" = JStr "Folders".
Proof.
  intros r.
  assert (outcome (expandAccountWithCommonSettings env bob_down) = Ok r) as Hr by run.
  destruct (container_folder_rule env bob_down r Hr) as (_ & _ & Hpreset).
  split; [exact Hr |].
  assert (structured_template env bob_down = None) as Hn by run.
  assert (outcome (TryThunderbirdAutoconfig env bob_down bob_down) = Ok None) as Hp by run.
  assert (select_mstemplate env (domain_of (emailAddress bob_down)) bob_down
          = Some (fallback_template "down.example")) as Ht by run.
  apply (proj1 (Hpreset (fallback_template "down.example") Hn Hp Ht)).
  - discriminate.
  - left. reflexivity.
Defined.

(** A 404 at the first URL and a body that is no XML at the second. *)
Lemma autoconfig_fetch_failures_witness :
  expandAccountWithCommonSettings env bob_down
  = ([ EvResolveMx "down.example";
       EvFetch (GET "https://autoconfig.down.example/mail/config-v1.1.xml");
       EvFetch (GET "https://down.example/.well-known/autoconfig/mail/config-v1.1.xml") ],
     preset_path env bob_down bob_down "down.example").
Proof.
  destruct (autoconfig_fetch_failures env bob_down) as (_ & _ & _ & _ & Hboth).
  assert (fetch_fails env (autoconfig_url_1 (domain_of (emailAddress bob_down)))) as H1.
  { eapply bad_status; run. }
  assert (fetch_fails env (autoconfig_url_2 (domain_of (emailAddress bob_down)))) as H2.
  { eapply parse_failure; run. }
  assert (structured_template env bob_down = None) as Hn by run.
  pose proof (proj1 (Hboth H1 H2 Hn)) as H.
  change (domain_of (emailAddress bob_down)) with "down.example" in H.
  exact H.
Defined.

(** The address [bob@constructor]: nothing answers at either URL, and the
    table has no entry of that name. *)
Lemma inherited_key_throws_witness :
  expandAccountWithCommonSettings env bob_constructor
  = ([ EvResolveMx "constructor";
       EvFetch (GET "https://autoconfig.constructor/mail/config-v1.1.xml");
       EvFetch (GET "https://constructor/.well-known/autoconfig/mail/config-v1.1.xml") ],
     Throw (TypeError "Cannot read properties of undefined (reading 'replace')")).
Proof.
  assert (fetch_fails env (autoconfig_url_1 (domain_of (emailAddress bob_constructor))))
    as H1 by (apply network_failure; run).
  assert (fetch_fails env (autoconfig_url_2 (domain_of (emailAddress bob_constructor))))
    as H2 by (apply network_failure; run).
  assert (structured_template env bob_constructor = None) as Hn by run.
  pose proof (proj2 (inherited_key_throws env bob_constructor H1 H2 Hn eq_refl eq_refl))
    as H.
  change (domain_of (emailAddress bob_constructor)) with "constructor" in H.
  exact H.
Defined.

(** Both builders on the sample token and profile endpoints. *)
Lemma builders_assign_identity_hash_witness :
  let r := returned (buildGmailAccountFromAuthResponse env "code") ann in
  let r' := returned (buildMicrosoftAccountFromAuthResponse env "code" "outlook") ann in
  outcome (buildGmailAccountFromAuthResponse env "code") = Ok r
  /\ id r = Some (idForAccount (JStr (emailAddress r)) (settings r))
  /\ outcome (buildMicrosoftAccountFromAuthResponse env "code" "outlook") = Ok r'
  /\ id r' = Some (idForAccount (JStr (emailAddress r')) (settings r')).
Proof.
  intros r r'.
  assert (outcome (buildGmailAccountFromAuthResponse env "code") = Ok r) as Hr by run.
  assert (outcome (buildMicrosoftAccountFromAuthResponse env "code" "outlook") = Ok r')
    as Hr' by run.
  split; [exact Hr |]. split.
  - exact (proj1 (builders_assign_identity_hash env "code" "outlook" r (or_introl Hr))).
  - split; [exact Hr' |].
    exact (proj1 (builders_assign_identity_hash env "code" "outlook" r' (or_intror Hr'))).
Defined.

(** The SMTP entry of the sample document. *)
Lemma extractServerDetails_username_security_witness :
  exists d : ServerDetails,
    extractServerDetails smtp_entry bob_pop = Ok d
    /\ username d = "bob" /\ security d = "STARTTLS".
Proof.
  destruct (extractServerDetails_username_security smtp_entry bob_pop)
    as (d & Hd & _ & _ & Hlocal & _ & _ & Hstarttls & _); [discriminate | discriminate |].
  exists d. split; [exact Hd |]. split.
  - apply (proj2 (Hlocal eq_refl) "bob" "pop.example"); reflexivity.
  - apply Hstarttls. reflexivity.
Defined.

(** A domain with two MX records and a domain whose lookup fails. *)
Lemma mxRecordsForDomain_never_rejects_witness :
  outcome (mxRecordsForDomain env "hosted.example")
  = Ok (map (fun a => toLowerCase (exchange a))
          [ {| exchange := "MX1.Mail.Example.NET"; priority := 10 |};
            {| exchange := "mx2.mail.example.net"; priority := 20 |} ])
  /\ outcome (mxRecordsForDomain env "nowhere.example") = Ok [].
Proof.
  destruct (mxRecordsForDomain_never_rejects env "hosted.example") as (_ & _ & Hsome).
  destruct (mxRecordsForDomain_never_rejects env "nowhere.example") as (_ & Hnone & _).
  split.
  - apply Hsome. reflexivity.
  - apply Hnone. reflexivity.
Defined.

(** C10, at its failing input. The document obtained for [bare.example]
    has one provider with an [incomingServer] and an [outgoingServer]; the
    incoming entry has no attribute, hence no attribute bag [$], so no entry
    has the type attribute [imap]. Reading [incomingServer.$.type] throws:
    [TryThunderbirdAutoconfig] does not succeed with the fallback host, and
    the error leaves [expandAccountWithCommonSettings] too. *)
Lemma attributeless_server_throws :
  obtained_document env "bare.example" = doc_bare
  /\ field (field doc_bare "emailProvider") "incomingServer" = bare_entry
  /\ field (field doc_bare "emailProvider") "outgoingServer" = smtp_entry
  /\ field bare_entry "$" = JUndef
  /\ (exists e : Error, outcome (TryThunderbirdAutoconfig env bob_bare bob_bare) = Throw e)
  /\ (exists e : Error, outcome (expandAccountWithCommonSettings env bob_bare) = Throw e).
Proof.
  repeat split; try run; eexists; run.
Qed.

(** The POP3-only document of [pop.example]. *)
Lemma autoconfig_without_typed_server_witness :
  exists d : gmap string JS,
    outcome (TryThunderbirdAutoconfig env bob_pop bob_pop)
    = Ok (Some (set_settings bob_pop (Object_assign d (settings bob_pop))))
    /\ d !! "imap_host" = Some (JStr "imap.pop.example")
    /\ d !! "imap_port" = Some JUndef.
Proof.
  pose proof (autoconfig_without_typed_server env bob_pop
                (field doc_pop "emailProvider") (field doc_pop "emailProvider")
                pop_entry smtp_entry) as H.
  cbv zeta in H.
  assert (Js.is_false (obtained_document env (domain_of (emailAddress bob_pop))) = false)
    as H1 by run.
  assert (Js.get (obtained_document env (domain_of (emailAddress bob_pop))) "emailProvider"
          = Ok (field doc_pop "emailProvider")) as H2 by run.
  assert (Js.truthy (field doc_pop "emailProvider") = true) as H3 by run.
  assert (select_provider (domain_of (emailAddress bob_pop)) (field doc_pop "emailProvider")
          = Ok (Some (field doc_pop "emailProvider"))) as H4 by run.
  assert (Js.get (field doc_pop "emailProvider") "incomingServer" = Ok pop_entry)
    as H5 by run.
  assert (Js.get (field doc_pop "emailProvider") "outgoingServer" = Ok smtp_entry)
    as H6 by run.
  assert (pop_entry ≠ JUndef) as H7 by discriminate.
  assert (smtp_entry ≠ JUndef) as H8 by discriminate.
  destruct (H H1 H2 H3 H4 H5 H7 H6 H8) as (Himap & _).
  assert (no_entry_of_type "imap" pop_entry) as H9 by run.
  assert (select_server "smtp" bob_pop smtp_entry
          = Ok (Some {| host := JStr "out.pop.example"; sd_port := JStr "587";
                        username := "bob"; security := "STARTTLS" |})) as H10 by run.
  destruct (Himap _ H9 H10) as (d & Htry & Hhost & Hport & _).
  exists d. split; [exact Htry |]. split; [| exact Hport].
  change (domain_of (emailAddress bob_pop)) with "pop.example" in Hhost. exact Hhost.
Defined.

(** ** The further properties on sample deployments *)

Import Cases.

(** An address with capitals in its domain, and the legacy preset, whose
    IMAP user name is the local part and whose SMTP user name is the
    address. *)
Lemma address_parts_witness :
  domain_of (emailAddress ann) = "example.org"
  /\ exists r : Account,
       outcome (expandAccountWithCommonSettings env bob_legacy) = Ok r
       /\ settings r !! "imap_username" = Some (JStr "bob")
       /\ settings r !! "smtp_username" = Some (JStr "bob@legacy.example").
Proof.
  destruct (address_parts env ann "Ann" "Example.org" eq_refl eq_refl) as (Hd & _).
  destruct (address_parts env bob_legacy "bob" "legacy.example" eq_refl eq_refl)
    as (_ & _ & _ & Hu).
  assert (structured_template env bob_legacy = None) as Hn by run.
  assert (outcome (TryThunderbirdAutoconfig env bob_legacy bob_legacy) = Ok None)
    as Hp by run.
  assert (select_mstemplate env (toLowerCase "legacy.example") bob_legacy
          = Some preset_legacy) as Ht by run.
  destruct (Hu eq_refl preset_legacy _ _ Hn Hp Ht eq_refl eq_refl)
    as (r & Hr & Hi & Hs).
  split; [exact Hd |]. exists r. split; [exact Hr |].
  exact (conj (proj1 (Hi eq_refl) eq_refl) (proj2 (Hs eq_refl) eq_refl)).
Defined.

(** The template of [example.org] and the legacy preset. *)
Lemma host_placeholders_witness :
  (exists r : Account,
      outcome (expandAccountWithCommonSettings env ann) = Ok r
      /\ settings r !! "imap_host" = Some (JStr "imap.example.org")
      /\ settings r !! "smtp_host" = Some (JStr "smtp.example.org"))
  /\ exists r : Account,
       outcome (expandAccountWithCommonSettings env bob_legacy) = Ok r
       /\ settings r !! "imap_host" = Some (JStr "mail.legacy.example")
       /\ settings r !! "smtp_host" = Some (JStr "mail.legacy.example").
Proof.
  assert (Str.includes "$" (domain_of (emailAddress ann)) = false) as Hd by run.
  assert (Str.includes "$" (domain_of (emailAddress bob_legacy)) = false) as Hd' by run.
  destruct (host_placeholders env ann Hd) as (Hs & _).
  destruct (host_placeholders env bob_legacy Hd') as (_ & Hp).
  assert (structured_template env ann = Some provider_example_org) as Ht by run.
  assert (structured_template env bob_legacy = None) as Hn by run.
  assert (outcome (TryThunderbirdAutoconfig env bob_legacy bob_legacy) = Ok None)
    as Hf by run.
  assert (select_mstemplate env (domain_of (emailAddress bob_legacy)) bob_legacy
          = Some preset_legacy) as Hm by run.
  destruct (Hs provider_example_org Ht) as (r & Hr & Hi & Ho).
  destruct (Hp preset_legacy "mail.%EMAILDOMAIN%" "mail.%EMAILDOMAIN%" Hn Hf Hm
              eq_refl eq_refl) as (r' & Hr' & Hi' & Ho').
  edestruct Hi as (a & Ha & Hfa & _); [reflexivity | reflexivity | reflexivity |].
  edestruct Ho as (b & Hb & Hfb & _); [reflexivity | reflexivity | reflexivity |].
  destruct (Hi' eq_refl) as (a' & Ha' & Hfa' & _).
  destruct (Ho' eq_refl) as (b' & Hb' & Hfb' & _).
  rewrite (Hfa "imap." "" eq_refl (first_occurrence_fresh "{" "domain}" "imap." "" eq_refl)) in Ha.
  rewrite (Hfb "smtp." "" eq_refl (first_occurrence_fresh "{" "domain}" "smtp." "" eq_refl)) in Hb.
  rewrite (Hfa' "mail." "" eq_refl
             (first_occurrence_fresh "%" "EMAILDOMAIN%" "mail." "" eq_refl)) in Ha'.
  rewrite (Hfb' "mail." "" eq_refl
             (first_occurrence_fresh "%" "EMAILDOMAIN%" "mail." "" eq_refl)) in Hb'.
  split.
  - exists r. exact (conj Hr (conj Ha Hb)).
  - exists r'. exact (conj Hr' (conj Ha' Hb')).
Defined.

(** [example.org] has no MX answer and matches by its domain pattern. *)
Lemma structured_table_matching_witness :
  mailcore_matches "example.org" [] provider_example_org = true
  /\ structured_template env_documents ann = Some provider_example_org.
Proof.
  destruct (structured_table_matching env_documents ann) as (Hd & _ & Hfirst).
  split.
  - apply Hd. reflexivity.
  - apply (Hfirst [] [provider_relay] provider_example_org); [reflexivity | constructor | run].
Defined.

(** An account with an IMAP password only. *)
Lemma password_defaults_witness :
  let r := returned (expandAccountWithCommonSettings env bob_pop) bob_pop in
  settings r !! "imap_password" = Some (JStr "secret")
  /\ settings r !! "smtp_password" = Some (JStr "secret").
Proof.
  intros r.
  assert (outcome (expandAccountWithCommonSettings env bob_pop) = Ok r) as Hr by run.
  exact (password_defaults env bob_pop r Hr).
Defined.

Lemma resolved_settings_keys_witness :
  let r := returned (expandAccountWithCommonSettings env ann) ann in
  dom (settings r) = dom (settings ann) ∪ default_keys.
Proof.
  intros r.
  assert (outcome (expandAccountWithCommonSettings env ann) = Ok r) as Hr by run.
  exact (resolved_settings_keys env ann r Hr).
Defined.

Lemma resolution_keeps_attributes_witness :
  let r := returned (expandAccountWithCommonSettings env bob_down) bob_down in
  emailAddress r = "bob@down.example" /\ id r = None.
Proof.
  intros r.
  assert (outcome (expandAccountWithCommonSettings env bob_down) = Ok r) as Hr by run.
  destruct (resolution_keeps_attributes env bob_down r Hr) as (_ & He & _ & Hi & _).
  exact (conj He Hi).
Defined.

(** An account without any setting at a domain nothing is known about. *)
Lemma generic_fallback_settings_witness :
  exists r : Account,
    outcome (expandAccountWithCommonSettings env dora) = Ok r
    /\ prop (settings r) "imap_host" = JStr "imap.down.example"
    /\ prop (settings r) "smtp_port" = JNum (Int 465)
    /\ prop (settings r) "container_folder" = JStr "Folders".
Proof.
  assert (structured_template env dora = None) as Hn by run.
  assert (outcome (TryThunderbirdAutoconfig env dora dora) = Ok None) as Hp by run.
  destruct (generic_fallback_settings env dora Hn Hp eq_refl eq_refl eq_refl eq_refl
              (fun k _ => lookup_empty k) eq_refl)
    as (r & Hr & Hih & _ & _ & _ & _ & _ & Hsp & _ & _ & _ & Hcf).
  exists r. exact (conj Hr (conj Hih (conj Hsp Hcf))).
Defined.

(** [alias.example] names the legacy preset; [dangling.example] names a
    preset that does not exist. *)
Lemma alias_resolution_witness :
  outcome (expandAccountWithCommonSettings env_offline carl_alias)
  = Ok (set_settings carl_alias
          (container_folder_override env_offline
             (Object_assign
                (preset_defaults carl_alias carl_alias "alias.example" preset_legacy
                   "mail.%EMAILDOMAIN%" "mail.%EMAILDOMAIN%")
                (settings carl_alias))))
  /\ exists e : Error,
       outcome (expandAccountWithCommonSettings env_offline carl_dangling) = Throw e.
Proof.
  assert (structured_template env_offline carl_alias = None) as Hn by run.
  assert (outcome (TryThunderbirdAutoconfig env_offline carl_alias carl_alias) = Ok None)
    as Hp by run.
  assert (structured_template env_offline carl_dangling = None) as Hn' by run.
  assert (outcome (TryThunderbirdAutoconfig env_offline carl_dangling carl_dangling)
          = Ok None) as Hp' by run.
  assert ("legacy.example" <> "") as Ha by discriminate.
  assert ("nowhere.example" <> "") as Ha' by discriminate.
  destruct (alias_resolution env_offline carl_alias (preset_alias_of "legacy.example")
              "legacy.example" Hn Hp eq_refl eq_refl Ha) as (_ & _ & Hq).
  destruct (alias_resolution env_offline carl_dangling (preset_alias_of "nowhere.example")
              "nowhere.example" Hn' Hp' eq_refl eq_refl Ha') as (Hd & _).
  split.
  - exact (Hq preset_legacy _ _ eq_refl eq_refl eq_refl).
  - exact (Hd eq_refl).
Defined.

(** A template with one IMAP server over SSL, and one without IMAP
    server. *)
Lemma structured_server_choice_witness :
  (exists r : Account,
      outcome (expandAccountWithCommonSettings env_documents ann) = Ok r
      /\ prop (settings r) "imap_port" = JNum (Int 993)
      /\ prop (settings r) "imap_security" = JStr "SSL / TLS")
  /\ exists r : Account,
       outcome (expandAccountWithCommonSettings env_documents erin_relay) = Ok r
       /\ prop (settings r) "imap_host" = JStr ""
       /\ prop (settings r) "imap_security" = JStr "none".
Proof.
  assert (structured_template env_documents ann = Some provider_example_org) as Ht by run.
  assert (structured_template env_documents erin_relay = Some provider_relay) as Ht' by run.
  destruct (structured_server_choice env_documents ann provider_example_org Ht
              eq_refl eq_refl eq_refl) as (r & Hr & _ & Hs).
  destruct (structured_server_choice env_documents erin_relay provider_relay Ht'
              eq_refl eq_refl eq_refl) as (r' & Hr' & He & _).
  split.
  - exists r. split; [exact Hr |].
    destruct (Hs _ _ eq_refl) as (Hport & _ & Hssl & _).
    split; [exact Hport |]. apply Hssl; [reflexivity | left; reflexivity].
  - exists r'. split; [exact Hr' |].
    destruct (He eq_refl) as (Hh & _ & Hsec). exact (conj Hh Hsec).
Defined.

(** A document without [emailProvider] at the first URL. *)
Lemma first_document_is_final_witness :
  expandAccountWithCommonSettings env_documents erin_empty
  = ([ EvResolveMx "empty.example";
       EvFetch (GET "https://autoconfig.empty.example/mail/config-v1.1.xml") ],
     preset_path env_documents erin_empty erin_empty "empty.example").
Proof.
  assert (Js.is_false (fetched_document env_documents
                         (autoconfig_url_1 (domain_of (emailAddress erin_empty)))) = false)
    as Hd by run.
  destruct (first_document_is_final env_documents erin_empty JUndef Hd) as (_ & H).
  assert (structured_template env_documents erin_empty = None) as Hn by run.
  assert (Js.get (fetched_document env_documents
                    (autoconfig_url_1 (domain_of (emailAddress erin_empty))))
                 "emailProvider" = Ok JUndef) as Hg by run.
  exact (proj2 (H Hg eq_refl) Hn).
Defined.

(** Three providers, the second and third with the domain as id; a
    foreign provider only; a provider without servers. *)
Lemma provider_selection_witness :
  select_provider "multi.example" (JArr [provider_foreign; provider_multi; provider_late])
  = Ok (Some provider_multi)
  /\ outcome (TryThunderbirdAutoconfig env_documents erin_foreign erin_foreign) = Ok None
  /\ outcome (TryThunderbirdAutoconfig env_documents erin_unserved erin_unserved) = Ok None.
Proof.
  assert (forall d : string, d <> "other.example" ->
            exists attrs i : JS,
              Js.get provider_foreign "$" = Ok attrs /\ Js.get attrs "id" = Ok i
              /\ i <> JStr d) as Hother.
  { intros d Hd. exists (JObj [("id", JStr "other.example")]), (JStr "other.example").
    split; [reflexivity |]. split; [reflexivity |]. intros [= E]. by destruct Hd. }
  assert (Js.is_false (obtained_document env_documents
                         (domain_of (emailAddress erin_multi))) = false) as H1 by run.
  assert (Js.get (obtained_document env_documents (domain_of (emailAddress erin_multi)))
                 "emailProvider"
          = Ok (JArr [provider_foreign; provider_multi; provider_late])) as H2 by run.
  destruct (provider_selection env_documents erin_multi _ H1 H2 eq_refl) as (Hfirst & _).
  assert (Js.is_false (obtained_document env_documents
                         (domain_of (emailAddress erin_foreign))) = false) as H3 by run.
  assert (Js.get (obtained_document env_documents (domain_of (emailAddress erin_foreign)))
                 "emailProvider" = Ok (JArr [provider_foreign])) as H4 by run.
  destruct (provider_selection env_documents erin_foreign _ H3 H4 eq_refl) as (_ & Hnone & _).
  assert (Js.is_false (obtained_document env_documents
                         (domain_of (emailAddress erin_unserved))) = false) as H5 by run.
  assert (Js.get (obtained_document env_documents (domain_of (emailAddress erin_unserved)))
                 "emailProvider" = Ok (provider_of "unserved.example" [])) as H6 by run.
  destruct (provider_selection env_documents erin_unserved _ H5 H6 eq_refl) as (_ & _ & Hlack).
  split; [| split].
  - apply (Hfirst [provider_foreign] [provider_late] provider_multi
             (JObj [("id", JStr "multi.example")])); [reflexivity | | reflexivity | reflexivity].
    constructor; [| constructor]. apply Hother. discriminate.
  - apply (Hnone [provider_foreign]); [reflexivity |].
    constructor; [| constructor]. apply Hother. discriminate.
  - apply (Hlack (provider_of "unserved.example" []) JUndef); [reflexivity |].
    left. reflexivity.
Defined.

(** The XML parser resolves to [null] for an empty body. *)
Lemma null_document_throws_witness :
  obtained_document env_documents "null.example" = JNull
  /\ exists e : Error,
       outcome (expandAccountWithCommonSettings env_documents erin_null) = Throw e.
Proof.
  assert (obtained_document env_documents (domain_of (emailAddress erin_null)) = JNull)
    as Hd by run.
  destruct (null_document_throws env_documents erin_null (or_introl Hd)) as (_ & H).
  split; [exact Hd |]. apply H. run.
Defined.

(** A POP3 server, then two IMAP servers. *)
Lemma first_imap_entry_is_used_witness :
  exists d : gmap string JS,
    outcome (TryThunderbirdAutoconfig env_documents erin_multi erin_multi)
    = Ok (Some (set_settings erin_multi (Object_assign d (settings erin_multi))))
    /\ d !! "imap_port" = Some (JStr "143")
    /\ d !! "imap_host" = Some (JStr "in.multi.example").
Proof.
  assert (Js.is_false (obtained_document env_documents
                         (domain_of (emailAddress erin_multi))) = false) as H1 by run.
  assert (Js.get (obtained_document env_documents (domain_of (emailAddress erin_multi)))
                 "emailProvider"
          = Ok (JArr [provider_foreign; provider_multi; provider_late])) as H2 by run.
  assert (select_provider (domain_of (emailAddress erin_multi))
            (JArr [provider_foreign; provider_multi; provider_late])
          = Ok (Some provider_multi)) as H3 by run.
  assert (smtp_entry <> JUndef) as H4 by discriminate.
  assert (select_server "smtp" erin_multi smtp_entry
          = Ok (returned ([], select_server "smtp" erin_multi smtp_entry) None)) as H5 by run.
  assert (Forall (fun s => has_type "imap" s = Ok false) [pop_entry]) as H6.
  { constructor; [reflexivity | constructor]. }
  destruct (first_imap_entry_is_used env_documents erin_multi _ provider_multi smtp_entry
              imap_first [pop_entry] [imap_second] _ H1 H2 eq_refl H3 eq_refl eq_refl H4
              H6 eq_refl H5)
    as (d & Hd & Hport & Hhost & _).
  exists d. exact (conj Hd (conj Hport (Hhost eq_refl))).
Defined.

(** The token endpoint of the sample deployment answers; with no network
    the same call throws. *)
Lemma fetchPostWithFormBody_outcomes_witness :
  Js.truthy (returned (fetchPostWithFormBody env gmail_token_url (gmail_token_form env "code"))
               JUndef) = true
  /\ exists e : Error,
       outcome (fetchPostWithFormBody env_offline gmail_token_url
                  (gmail_token_form env_offline "code")) = Throw e.
Proof.
  destruct (fetchPostWithFormBody_outcomes env gmail_token_url (gmail_token_form env "code"))
    as (_ & _ & _ & Hok).
  destruct (fetchPostWithFormBody_outcomes env_offline gmail_token_url
              (gmail_token_form env_offline "code")) as (_ & Hfail & _).
  split.
  - refine (proj1 (Hok _ _)). run.
  - apply Hfail. reflexivity.
Defined.

(** A number where a host name belongs. *)
Lemma finalizer_rejects_non_string_host_witness :
  events (finalizeAndValidateAccount env frank_numeric_host) = []
  /\ exists e : Error, outcome (finalizeAndValidateAccount env frank_numeric_host) = Throw e.
Proof.
  apply (finalizer_rejects_non_string_host env frank_numeric_host "imap_host").
  - left. reflexivity.
  - reflexivity.
  - intros h. discriminate.
Defined.

(** The same account with a connection test that rejects and one that
    accepts. *)
Lemma finalizer_validates_witness :
  outcome (finalizeAndValidateAccount env_rejecting frank)
  = Throw (ErrorMsg "Authentication failed")
  /\ authedAt (returned (finalizeAndValidateAccount env frank) frank) = Some 1700000000.
Proof.
  destruct (finalizer_validates env_rejecting frank) as (Hrun & _).
  destruct (finalizer_validates env frank) as (_ & Hdone).
  split.
  - assert (trim_host "imap_host" (settings frank)
            = Ok (returned ([] : list Event, trim_host "imap_host" (settings frank)) ∅))
      as H1 by run.
    assert (trim_host "smtp_host"
              (returned ([] : list Event, trim_host "imap_host" (settings frank)) ∅)
            = Ok (returned ([] : list Event, trim_host "imap_host" (settings frank)) ∅))
      as H2 by run.
    destruct (Hrun _ _ H1 H2) as (_ & Hreject & _).
    apply Hreject. reflexivity.
  - refine (proj1 (Hdone _ _)). run.
Defined.

(** Blanks around the host, a port typed as text. *)
Lemma finalizer_settings_witness :
  let r := returned (finalizeAndValidateAccount env frank) frank in
  settings r !! "imap_host" = Some (JStr "imap.example.org")
  /\ settings r !! "smtp_host" = Some (JStr "")
  /\ settings r !! "imap_port" = Some (JNum (Int 993))
  /\ settings r !! "imap_password" = Some (JStr "secret")
  /\ settings r !! "username" = Some (JStr "frank@example.org").
Proof.
  intros r.
  assert (outcome (finalizeAndValidateAccount env frank) = Ok r) as Hr by run.
  destruct (finalizer_settings env frank r Hr) as (Hkeep & Hhost & Hport & Huser).
  split; [| split; [| split; [| split]]].
  - apply (proj1 (Hhost "imap_host" (or_introl eq_refl)) " imap.example.org ");
      [reflexivity | discriminate].
  - apply (proj2 (Hhost "smtp_host" (or_intror eq_refl))). reflexivity.
  - apply (proj1 (Hport "imap_port" (or_introl eq_refl))). reflexivity.
  - rewrite (Hkeep "imap_password"); [reflexivity |].
    unfold finalized_keys. rewrite !elem_of_cons, elem_of_nil.
    intros [H | [H | [H | [H | [H | H]]]]]; (discriminate H || exact H).
  - exact Huser.
Defined.

(** A label that is an address in another spelling. *)
Lemma finalizer_attributes_witness :
  let r := returned (finalizeAndValidateAccount env frank) frank in
  label r = Some "frank@example.org" /\ authedAt r = Some 1700000000.
Proof.
  intros r.
  assert (outcome (finalizeAndValidateAccount env frank) = Ok r) as Hr by run.
  destruct (finalizer_attributes env frank r Hr) as (_ & _ & _ & Hat & Hlabel & _).
  split; [| exact Hat].
  apply (Hlabel "Frank@Example.org"); reflexivity.
Defined.

(** No network; a profile endpoint that answers 401. *)
Lemma oauth_failure_stops_builder_witness :
  (exists e : Error, outcome (buildGmailAccountFromAuthResponse env_offline "code") = Throw e)
  /\ events (buildMicrosoftAccountFromAuthResponse env_no_profile "code" "outlook")
     = [ EvFetch (form_request microsoft_token_url (microsoft_token_form env_no_profile "code"));
         EvFetch (microsoft_profile_request tokens) ].
Proof.
  destruct (oauth_failure_stops_builder env_offline "code" "outlook") as (Hpost & _).
  destruct (oauth_failure_stops_builder env_no_profile "code" "outlook")
    as (_ & _ & _ & Hprofile).
  split.
  - apply Hpost. left. reflexivity.
  - apply (Hprofile tokens); [run |].
    right. eexists. split; [reflexivity |]. right. reflexivity.
Defined.

(** A profile with a display name only. *)
Lemma microsoft_profile_without_mailbox_witness :
  outcome (buildMicrosoftAccountFromAuthResponse env_no_mailbox "code" "office365")
  = Throw (ErrorMsg "There is no email mailbox associated with this account.").
Proof.
  assert (outcome (fetchPostWithFormBody env_no_mailbox microsoft_token_url
                     (microsoft_token_form env_no_mailbox "code")) = Ok tokens) as Ht by run.
  assert (request_answers env_no_mailbox (microsoft_profile_request tokens)
            (JObj [ ("displayName", JStr "Bob") ])) as Hme.
  { eexists. split; [reflexivity |]. split; reflexivity. }
  assert (JObj [ ("displayName", JStr "Bob") ] <> JUndef) as H1 by discriminate.
  assert (JObj [ ("displayName", JStr "Bob") ] <> JNull) as H2 by discriminate.
  exact (f_equal snd
           (microsoft_profile_without_mailbox env_no_mailbox "code" "office365" tokens _
              Ht Hme H1 H2 eq_refl)).
Defined.

(** The sample deployment answers both Gmail requests. *)
Lemma gmail_builder_result_witness :
  let r := returned (buildGmailAccountFromAuthResponse env "code") ann in
  emailAddress r = "Ann@Example.org" /\ provider r = "gmail"
  /\ settings r !! "refresh_client_id" = Some (JStr "gmail-client").
Proof.
  intros r.
  assert (outcome (buildGmailAccountFromAuthResponse env "code") = Ok r) as Hr by run.
  destruct (gmail_builder_result env "code" r Hr)
    as (t & me & address & a & _ & _ & _ & _ & _ & _ & _ & _ & Hp & _ & Hc & _).
  split; [reflexivity |]. exact (conj Hp Hc).
Defined.

(** The sample deployment answers both Microsoft requests. *)
Lemma microsoft_builder_result_witness :
  let r := returned (buildO365AccountFromAuthResponse env "code") ann in
  provider r = "office365"
  /\ settings r !! "refresh_client_id" = Some (JStr "o365-client").
Proof.
  intros r.
  assert (outcome (buildO365AccountFromAuthResponse env "code") = Ok r) as Hr by run.
  destruct (microsoft_builder_result env "code" "office365" r Hr) as (Hres & Hentry).
  destruct Hres as (t & me & address & a & _ & _ & _ & _ & _ & _ & _ & _ & _ & _ & _ & Hc & _).
  split; [exact (proj1 (Hentry r) Hr) | exact Hc].
Defined.

(** A user name that contains the separators of the serialized object. *)
Lemma id_string_unambiguous_witness :
  id_string (JStr "ann@example.org") (identity "ann,imap_host:a" "b")
  <> id_string (JStr "ann@example.org") (identity "ann" "a,b").
Proof.
  intros H.
  destruct (id_string_unambiguous "ann@example.org"
              (identity "ann,imap_host:a" "b") (identity "ann" "a,b")
              "ann,imap_host:a" "b" "ann" "c" "ann" "a,b" "ann" "c"
              eq_refl eq_refl eq_refl eq_refl eq_refl eq_refl eq_refl eq_refl)
    as (_ & Hinj).
  destruct (Hinj H) as (_ & Hh & _). discriminate Hh.
Defined.
